(** * pumpfun-mcp-server: keypair store, balance resolver and trade guards

    A shallow embedding of [src/utils.ts] ([getOrCreateKeypair],
    [getSPLBalance]), [src/list-accounts.ts] ([listAccounts]),
    [src/buy-token.ts] ([buyToken]), [src/sell-token.ts] ([sellToken]),
    [src/create-token.ts] ([createToken]) and [initializeSDK] of
    [src/get-token-info.ts], with the properties C1 to C10 of the
    specification; then [src/get-token-balance.ts] ([getAccountBalance]),
    the result texts ([formatBuyResult], [formatSellResult],
    [formatCreateTokenResult], [formatListAccountsResult]),
    [createMcpResponse] and the tool handlers of [src/index.ts], with
    the further properties X1 to X26 read off the code.

    Conventions of the embedding.
    - A JavaScript [number] is an IEEE-754 binary64 value: Rocq's primitive
      [float].  [===] on numbers is [PrimFloat.eqb], [<] is [PrimFloat.ltb].
    - A function that may throw returns a [completion]; code that touches
      the file system, the random generator or the network runs in the
      state monad [M] over [World].  [try { } catch { }] is [try_catch].
      [await] is sequencing: one command runs at a time.
    - The file system is a tree of [node]s; [fs.*Sync] calls are total
      functions on it that fail on the shape of the tree (a missing name,
      a regular file where a directory is needed, a directory where a
      regular file is needed).  Permissions are not modelled.
    - The RPC node and the trading SDK are opaque: the [World] carries, for
      each remote call, an oracle from the history of remote calls so far
      to the answer of the next one, and every remote call is appended to
      the [events] log with its answer.
    - Library functions whose code is not part of the repository
      ([JSON.parse], [new Uint8Array], [Keypair.fromSecretKey],
      [new PublicKey], number and key printing) are the fields of the
      class [Runtime]; the two facts about them that the proofs use are
      the class [RuntimeLaws].
    - [console.log] / [console.error] output is not modelled.

    Plan of the file: numbers; strings and paths; keys and the library
    interface; the remote side; the file system; the world and its monad;
    the repository's functions; the vocabulary of the statements; a small
    runtime and example worlds; then the lemmas and theorems, and the
    theorems applied to the example worlds. *)

From Stdlib Require Import ZArith String Ascii List Floats Lia.
From Stdlib Require Import DecimalString.
From stdpp Require Import base option list strings gmap.

#[local] Set Warnings "-inexact-float,-register-all".

Open Scope string_scope.
Open Scope list_scope.

(* ===================================================================== *)
(** * JavaScript numbers *)
(* ===================================================================== *)

Abbreviation number := float.

(** [LAMPORTS_PER_SOL] of [@solana/web3.js]. *)
Definition LAMPORTS_PER_SOL : number := 1000000000%float.

(** [Math.pow(10, 6)]. *)
Definition Math_pow_10_6 : number := 1000000%float.

(** The fee reserves [0.001] (buy) and [0.003] (create), in SOL. *)
Definition BUY_FEE_RESERVE : number := 0.001%float.
Definition CREATE_FEE_RESERVE : number := 0.003%float.

(** [ToBoolean] on a number: [NaN], [+0] and [-0] are falsy. *)
Definition truthy (x : number) : bool :=
  negb (PrimFloat.is_nan x || PrimFloat.is_zero x).

(** [Math.min(a, b)]: [NaN] if either argument is [NaN]; [-0] is below
    [+0]. *)
Definition Math_min (a b : number) : number :=
  if PrimFloat.is_nan a || PrimFloat.is_nan b then PrimFloat.nan
  else if (a <? b)%float then a
  else if (b <? a)%float then b
  else if PrimFloat.get_sign a then a else b.

(** The JavaScript error values the model distinguishes: the constructor
    name and the [message]. *)
Record JsError := mkError { err_name : string; err_message : string }.

Inductive completion (A : Type) : Type :=
| Return (a : A)
| Throw (e : JsError).
Arguments Return {A} a.
Arguments Throw {A} e.

Definition completion_bind {A B} (c : completion A) (k : A -> completion B)
  : completion B :=
  match c with Return a => k a | Throw e => Throw e end.

(** [BigInt(x)] for a number [x]: the integer [x] denotes, or a
    [RangeError] when [x] is not an integer ([NaN], an infinity, or a
    value with a fractional part). *)
Definition BigInt_RangeError : JsError :=
  mkError "RangeError" "The number cannot be converted to a BigInt because it is not an integer".

Definition BigInt (x : number) : completion Z :=
  match Prim2SF x with
  | S754_zero _ => Return 0%Z
  | S754_finite s m e =>
      if (0 <=? e)%Z then Return (cond_Zopp s (Z.pos m * 2 ^ e))%Z
      else if (Z.pos m mod 2 ^ (- e) =? 0)%Z
           then Return (cond_Zopp s (Z.pos m / 2 ^ (- e)))%Z
           else Throw BigInt_RangeError
  | S754_infinity _ | S754_nan => Throw BigInt_RangeError
  end.

(* ===================================================================== *)
(** * Strings and paths *)
(* ===================================================================== *)

(** [s.startsWith(p)] and [s.endsWith(p)]. *)
Definition startsWith (s p : string) : bool := String.prefix p s.

Definition endsWith (s p : string) : bool :=
  let n := String.length s in
  let m := String.length p in
  if (m <=? n)%nat then String.eqb (String.substring (n - m) m s) p else false.

Fixpoint string_drop (n : nat) (s : string) : string :=
  match n, s with
  | O, _ => s
  | S n', String _ s' => string_drop n' s'
  | S _, EmptyString => EmptyString
  end.

(** [s.replace(pat, rep)] with a string pattern: only the first occurrence
    of [pat] is replaced. *)
Fixpoint replace_first (pat rep s : string) : string :=
  if String.prefix pat s then rep +:+ string_drop (String.length pat) s
  else match s with
       | EmptyString => EmptyString
       | String c s' => String c (replace_first pat rep s')
       end.

(** An absolute, normalised POSIX path: its components from the root. *)
Abbreviation path := (list string).

(** The segments of a path string between ["/"] separators. *)
Fixpoint split_slash (cur s : string) : list string :=
  match s with
  | EmptyString => [cur]
  | String c s' =>
      if Ascii.eqb c "/"%char then cur :: split_slash EmptyString s'
      else split_slash (cur +:+ String c EmptyString) s'
  end.

Definition path_step (acc : path) (seg : string) : path :=
  if String.eqb seg "" || String.eqb seg "." then acc
  else if String.eqb seg ".." then removelast acc
  else acc ++ [seg].

(** [path.join(dir, rel)]: the segments of [rel] are appended to [dir];
    empty and ["."] segments vanish and [".."] climbs one level. *)
Definition path_join (dir : path) (rel : string) : path :=
  fold_left path_step (split_slash EmptyString rel) dir.

(* ===================================================================== *)
(** * Keys *)
(* ===================================================================== *)

(** The bytes of a [Uint8Array]. *)
Abbreviation bytes := (list Byte.byte).

Definition decimal_of_byte (b : Byte.byte) : string :=
  NilEmpty.string_of_uint (N.to_uint (Byte.to_N b)).

Fixpoint join_comma (l : list string) : string :=
  match l with
  | [] => EmptyString
  | [x] => x
  | x :: l' => x +:+ "," +:+ join_comma l'
  end.

(** [JSON.stringify(Array.from(u8))]: the decimal bytes between brackets,
    separated by commas, with no white space. *)
Definition JSON_stringify_bytes (bs : bytes) : string :=
  "[" +:+ join_comma (map decimal_of_byte bs) +:+ "]".

(** [safeStringify] of [src/utils.ts] is [JSON.stringify] with a replacer
    that only rewrites [bigint] values; an array of bytes has none. *)
Definition safeStringify_bytes (bs : bytes) : string := JSON_stringify_bytes bs.

(** [PublicKey] and [Keypair] of [@solana/web3.js]. *)
Record PublicKey := mkPublicKey { pk_bytes : bytes }.
Record Keypair := mkKeypair { publicKey : PublicKey; secretKey : bytes }.

(** [Connection] of [@solana/web3.js]: the endpoint it talks to. *)
Record Connection := mkConnection { rpcEndpoint : string }.

(** ** Library functions the repository calls but does not define *)

Class Runtime := {
  (** [rootDir = path.resolve(__dirname, "..")] of [src/utils.ts]. *)
  rootDir : path;
  (** A path string handed to [fs] as it is, resolved against the working
      directory. *)
  path_of_string : string -> path;
  (** The values [JSON.parse] returns, and [JSON.parse] itself. *)
  JSValue : Type;
  JSON_parse : string -> completion JSValue;
  (** [new Uint8Array(v)]: the bytes JavaScript makes of a parsed value
      (an array element that is not a byte is coerced, not refused). *)
  Uint8Array_from : JSValue -> completion bytes;
  (** [Keypair.fromSecretKey(u8)]. *)
  Keypair_fromSecretKey : bytes -> completion Keypair;
  (** [Keypair.generate()], as a function of the random bytes it draws. *)
  Keypair_fromEntropy : bytes -> Keypair;
  (** [new PublicKey(str)] and [publicKey.toString()]. *)
  PublicKey_new : string -> completion PublicKey;
  PublicKey_toString : PublicKey -> string;
  (** [`${x}`] for a number [x]. *)
  Number_toString : number -> string;
  (** [JSON.stringify(e)] for a caught error [e]. *)
  JSON_stringify_error : JsError -> completion string;
  (** [new Connection(url)]. *)
  Connection_new : string -> completion Connection
}.

(** What the proofs about stored keys need of the libraries: a byte array
    written by [JSON.stringify] reads back through [JSON.parse] and
    [new Uint8Array], and a generated key pair is accepted by
    [Keypair.fromSecretKey], which rebuilds the same public key. *)
Class RuntimeLaws (RT : Runtime) : Prop := {
  JSON_roundtrip_bytes :
    forall bs : bytes,
      exists v, JSON_parse (JSON_stringify_bytes bs) = Return v
                /\ Uint8Array_from v = Return bs;
  generated_key_valid :
    forall seed : bytes,
      exists k, Keypair_fromSecretKey (secretKey (Keypair_fromEntropy seed)) = Return k
                /\ publicKey k = publicKey (Keypair_fromEntropy seed)
}.

(* ===================================================================== *)
(** * The remote side: RPC node and trading SDK *)
(* ===================================================================== *)

(** [TokenAmount] of a parsed token account; [uiAmount] is
    [number | null]. *)
Record TokenAmount := mkTokenAmount {
  amount : string;
  decimals : Z;
  uiAmount : option number
}.

(** One element of [tokenAccounts.value]: [tokenAmountOf a] is
    [a.account.data.parsed.info.tokenAmount]. *)
Record TokenAccount := mkTokenAccount {
  pubkey : PublicKey;
  tokenAmountOf : TokenAmount
}.

(** A value of unknown type carried in an [error] field: a string, or an
    object with what [JSON.stringify] makes of it. *)
Inductive ErrorValue :=
| ErrString (s : string)
| ErrObject (json : completion string).

(** [TransactionResult] of the trading SDK. *)
Record TransactionResult := mkTransactionResult {
  tx_success : bool;
  tx_signature : option string;
  tx_error : option ErrorValue
}.

(** [CreateTokenMetadata] handed to [sdk.createAndBuy]. *)
Record TokenMetadata := mkTokenMetadata {
  md_name : string;
  md_symbol : string;
  md_description : string;
  md_file : option string
}.

Record PriorityFee := mkPriorityFee { unitLimit : Z; unitPrice : Z }.

Definition DEFAULT_PRIORITY_FEES : PriorityFee := mkPriorityFee 250000 250000.
Definition DEFAULT_SLIPPAGE_BASIS_POINTS : Z := 100.

(** Every call that leaves the process, with its answer. *)
Inductive Event :=
| EvGetBalance (c : Connection) (pk : PublicKey) (r : completion number)
| EvTokenAccounts (c : Connection) (owner mint : PublicKey)
    (r : completion (list TokenAccount))
| EvSdkBuy (buyer : Keypair) (mint : PublicKey) (lamports slippage : Z)
    (fees : PriorityFee) (r : completion TransactionResult)
| EvSdkSell (seller : Keypair) (mint : PublicKey) (tokens slippage : Z)
    (fees : PriorityFee) (r : completion TransactionResult)
| EvSdkCreateAndBuy (creator mint : Keypair) (md : TokenMetadata)
    (lamports slippage : Z) (fees : PriorityFee)
    (r : completion TransactionResult).

Definition is_sdk_call (ev : Event) : bool :=
  match ev with
  | EvSdkBuy _ _ _ _ _ _ | EvSdkSell _ _ _ _ _ _
  | EvSdkCreateAndBuy _ _ _ _ _ _ _ => true
  | _ => false
  end.

(** The remote side is any function from the calls made so far to the
    answer of the next call. *)
Record Remote := mkRemote {
  rpc_getBalance : list Event -> Connection -> PublicKey -> completion number;
  rpc_getParsedTokenAccountsByOwner :
    list Event -> Connection -> PublicKey -> PublicKey ->
    completion (list TokenAccount);
  sdk_buy :
    list Event -> Keypair -> PublicKey -> Z -> Z -> PriorityFee ->
    completion TransactionResult;
  sdk_sell :
    list Event -> Keypair -> PublicKey -> Z -> Z -> PriorityFee ->
    completion TransactionResult;
  sdk_createAndBuy :
    list Event -> Keypair -> Keypair -> TokenMetadata -> Z -> Z ->
    PriorityFee -> completion TransactionResult
}.

(* ===================================================================== *)
(** * The file system *)
(* ===================================================================== *)

Inductive node :=
| File (content : string)
| Dir (entries : gmap string node).

Definition fs_error (code : string) : JsError := mkError "Error" code.
Definition ENOENT : JsError := fs_error "ENOENT: no such file or directory".
Definition ENOTDIR : JsError := fs_error "ENOTDIR: not a directory".
Definition EISDIR : JsError := fs_error "EISDIR: illegal operation on a directory".
Definition EEXIST : JsError := fs_error "EEXIST: file already exists".

Fixpoint lookup_node (n : node) (p : path) : option node :=
  match p with
  | [] => Some n
  | c :: p' =>
      match n with
      | Dir es => match es !! c with
                  | Some n' => lookup_node n' p'
                  | None => None
                  end
      | File _ => None
      end
  end.

(** [mkdir -p]: the directories along [p] that are missing are created; a
    regular file on the way is an error. *)
Fixpoint mkdir_p (n : node) (p : path) : completion node :=
  match n with
  | File _ => Throw (match p with [] => EEXIST | _ => ENOTDIR end)
  | Dir es =>
      match p with
      | [] => Return n
      | c :: p' =>
          match mkdir_p (default (Dir ∅) (es !! c)) p' with
          | Return n' => Return (Dir (<[c := n']> es))
          | Throw e => Throw e
          end
      end
  end.

(** Writing a file replaces a regular file or creates one in an existing
    directory. *)
Fixpoint write_node (n : node) (p : path) (s : string) : completion node :=
  match p with
  | [] => match n with
          | File _ => Return (File s)
          | Dir _ => Throw EISDIR
          end
  | c :: p' =>
      match n with
      | File _ => Throw ENOTDIR
      | Dir es =>
          match es !! c with
          | Some n' =>
              match write_node n' p' s with
              | Return n'' => Return (Dir (<[c := n'']> es))
              | Throw e => Throw e
              end
          | None =>
              match p' with
              | [] => Return (Dir (<[c := File s]> es))
              | _ :: _ => Throw ENOENT
              end
          end
      end
  end.

(** The error of reaching for a path that is not there: a regular file on
    the way is [ENOTDIR], a missing name is [ENOENT]. *)
Fixpoint missing_error (n : node) (p : path) : JsError :=
  match p with
  | [] => ENOENT
  | c :: p' =>
      match n with
      | File _ => ENOTDIR
      | Dir es => match es !! c with
                  | Some n' => missing_error n' p'
                  | None => ENOENT
                  end
      end
  end.

Definition read_node (n : node) (p : path) : completion string :=
  match lookup_node n p with
  | Some (File s) => Return s
  | Some (Dir _) => Throw EISDIR
  | None => Throw (missing_error n p)
  end.

(** The names in a directory, in the order the map enumerates them. *)
Definition readdir_node (n : node) (p : path) : completion (list string) :=
  match lookup_node n p with
  | Some (Dir es) => Return ((map_to_list es).*1)
  | Some (File _) => Throw ENOTDIR
  | None => Throw (missing_error n p)
  end.

(* ===================================================================== *)
(** * The world and the monad of effects *)
(* ===================================================================== *)

Record World := mkWorld {
  (** [process.env.HELIUS_RPC_URL]. *)
  env_HELIUS_RPC_URL : option string;
  (** The root directory of the file system. *)
  fs : node;
  (** The random bytes of the [i]-th call of [Keypair.generate], and the
      number of calls made so far. *)
  random : nat -> bytes;
  drawn : nat;
  (** The remote side and the calls made to it so far, oldest first. *)
  remote : Remote;
  events : list Event
}.

Definition set_fs (w : World) (n : node) : World :=
  mkWorld (env_HELIUS_RPC_URL w) n (random w) (drawn w) (remote w) (events w).

Definition set_drawn (w : World) (d : nat) : World :=
  mkWorld (env_HELIUS_RPC_URL w) (fs w) (random w) d (remote w) (events w).

Definition log_event (w : World) (ev : Event) : World :=
  mkWorld (env_HELIUS_RPC_URL w) (fs w) (random w) (drawn w) (remote w)
    (events w ++ [ev]).

Definition M (A : Type) : Type := World -> completion A * World.

Definition ret {A} (a : A) : M A := fun w => (Return a, w).
Definition throw {A} (e : JsError) : M A := fun w => (Throw e, w).
Definition bind {A B} (m : M A) (k : A -> M B) : M B :=
  fun w => match m w with
           | (Return a, w') => k a w'
           | (Throw e, w') => (Throw e, w')
           end.
Definition lift {A} (c : completion A) : M A := fun w => (c, w).

(** [try { body } catch (e) { handler e }]. *)
Definition try_catch {A} (body : M A) (handler : JsError -> M A) : M A :=
  fun w => match body w with
           | (Return a, w') => (Return a, w')
           | (Throw e, w') => handler e w'
           end.

#[global] Instance M_ret : MRet M := @ret.
#[global] Instance M_bind : MBind M := fun A B k m => bind m k.

Fixpoint mapM {A B} (f : A -> M B) (l : list A) : M (list B) :=
  match l with
  | [] => ret []
  | x :: l' => y ← f x; ys ← mapM f l'; ret (y :: ys)
  end.

(** ** [fs] *)

Definition fs_existsSync (p : path) : M bool :=
  fun w => (Return (bool_decide (is_Some (lookup_node (fs w) p))), w).

Definition fs_mkdirSync_recursive (p : path) : M unit :=
  fun w => match mkdir_p (fs w) p with
           | Return n => (Return tt, set_fs w n)
           | Throw e => (Throw e, w)
           end.

Definition fs_readFileSync (p : path) : M string :=
  fun w => (read_node (fs w) p, w).

Definition fs_writeFileSync (p : path) (s : string) : M unit :=
  fun w => match write_node (fs w) p s with
           | Return n => (Return tt, set_fs w n)
           | Throw e => (Throw e, w)
           end.

Definition fs_readdirSync (p : path) : M (list string) :=
  fun w => (readdir_node (fs w) p, w).

(** ** Remote calls: ask the oracle, log the call with its answer *)

Definition connection_getBalance (c : Connection) (pk : PublicKey) : M number :=
  fun w => let r := rpc_getBalance (remote w) (events w) c pk in
           (r, log_event w (EvGetBalance c pk r)).

Definition connection_getParsedTokenAccountsByOwner
    (c : Connection) (owner mint : PublicKey) : M (list TokenAccount) :=
  fun w => let r := rpc_getParsedTokenAccountsByOwner (remote w) (events w) c owner mint in
           (r, log_event w (EvTokenAccounts c owner mint r)).

Definition sdk_buy_call (buyer : Keypair) (mint : PublicKey)
    (lamports slippage : Z) (fees : PriorityFee) : M TransactionResult :=
  fun w => let r := sdk_buy (remote w) (events w) buyer mint lamports slippage fees in
           (r, log_event w (EvSdkBuy buyer mint lamports slippage fees r)).

Definition sdk_sell_call (seller : Keypair) (mint : PublicKey)
    (tokens slippage : Z) (fees : PriorityFee) : M TransactionResult :=
  fun w => let r := sdk_sell (remote w) (events w) seller mint tokens slippage fees in
           (r, log_event w (EvSdkSell seller mint tokens slippage fees r)).

Definition sdk_createAndBuy_call (creator mint : Keypair) (md : TokenMetadata)
    (lamports slippage : Z) (fees : PriorityFee) : M TransactionResult :=
  fun w => let r := sdk_createAndBuy (remote w) (events w) creator mint md lamports slippage fees in
           (r, log_event w (EvSdkCreateAndBuy creator mint md lamports slippage fees r)).

Definition get_env_HELIUS_RPC_URL : M (option string) :=
  fun w => (Return (env_HELIUS_RPC_URL w), w).

(** A non-empty string is truthy. *)
Definition truthy_string (s : string) : bool := negb (String.eqb s "").

Definition truthy_error_value (e : option ErrorValue) : bool :=
  match e with
  | Some (ErrString s) => truthy_string s
  | Some (ErrObject _) => true
  | None => false
  end.

(** [b || 0] for [b : number | null]. *)
Definition or_zero (b : option number) : number :=
  match b with
  | Some x => if truthy x then x else 0%float
  | None => 0%float
  end.

Fixpoint join_slash (p : path) : string :=
  match p with
  | [] => EmptyString
  | c :: p' => "/" +:+ c +:+ join_slash p'
  end.

(** The string of an absolute path. *)
Definition path_to_string (p : path) : string :=
  match p with [] => "/" | _ => join_slash p end.

(* ===================================================================== *)
(** * The repository's functions *)
(* ===================================================================== *)

Section Code.
Context {RT : Runtime}.

(** ** [src/utils.ts] *)

(** [Keypair.generate()]: draws the next random bytes of the world. *)
Definition Keypair_generate : M Keypair :=
  fun w => (Return (Keypair_fromEntropy (random w (drawn w))),
            set_drawn w (S (drawn w))).

(** [const keypairPath = path.join(keysFolder, `${name}.json`)]. *)
Definition keypairPath (keysFolder : path) (name : string) : path :=
  path_join keysFolder (name +:+ ".json").

Definition getOrCreateKeypair (keysFolder : path) (name : string) : M Keypair :=
  let keypairPath := keypairPath keysFolder name in
  try_catch
    (ex ← fs_existsSync keysFolder;
     (if negb ex then fs_mkdirSync_recursive keysFolder else ret tt);;
     ex' ← fs_existsSync keypairPath;
     if (ex' : bool) then
       text ← fs_readFileSync keypairPath;
       keypairData ← lift (JSON_parse text);
       u8 ← lift (Uint8Array_from keypairData);
       lift (Keypair_fromSecretKey u8)
     else
       keypair ← Keypair_generate;
       fs_writeFileSync keypairPath (JSON_stringify_bytes (secretKey keypair));;
       ret keypair)
    (fun error => throw error).

Definition TypeError_undefined : JsError :=
  mkError "TypeError" "Cannot read properties of undefined".

Definition getSPLBalance (connection : Connection) (mint owner : PublicKey)
  : M (option number) :=
  try_catch
    (tokenAccounts ← connection_getParsedTokenAccountsByOwner connection owner mint;
     if (length tokenAccounts =? 0)%nat then ret None
     else
       match tokenAccounts !! 0%nat with
       | Some tokenAccount => ret (uiAmount (tokenAmountOf tokenAccount))
       | None => throw TypeError_undefined
       end)
    (fun error => ret None).

(** ** [src/get-token-info.ts] *)

(** [initializeSDK()]: the connection it returns; the SDK object built
    beside it is the handle of the remote calls [sdk_*_call]. *)
Definition initializeSDK : M Connection :=
  rpcUrl ← get_env_HELIUS_RPC_URL;
  match rpcUrl with
  | Some url =>
      if truthy_string url then lift (Connection_new url)
      else throw (mkError "Error" "HELIUS_RPC_URL environment variable is not set")
  | None => throw (mkError "Error" "HELIUS_RPC_URL environment variable is not set")
  end.

(** ** The [catch (error: any)] block shared by [listAccounts], [buyToken]
    and [sellToken]: the text it extracts from a caught error object. *)
Definition describe_error (error : JsError) : M string :=
  if truthy_string (err_message error) then ret (err_message error)
  else try_catch (lift (JSON_stringify_error error))
         (fun e => ret "Error object could not be stringified").

(** [`Error creating keys folder: ${mkdirError.message ||
    JSON.stringify(mkdirError)}`]. *)
Definition mkdir_error_text (mkdirError : JsError) : M string :=
  detail ← (if truthy_string (err_message mkdirError) then ret (err_message mkdirError)
            else lift (JSON_stringify_error mkdirError));
  ret ("Error creating keys folder: " +:+ detail).

(** [const keysFolder = path.resolve(rootDir, ".keys")], as every
    command computes it. *)
Definition keys_folder : path := path_join rootDir ".keys".

(** ** [src/list-accounts.ts] *)

Record AccountEntry := mkAccountEntry {
  acc_name : string;
  acc_publicKey : string
}.

Record ListAccountsResult := mkListAccountsResult {
  la_success : bool;
  la_message : option string;
  la_error : option string;
  la_accounts : list AccountEntry
}.

(** The predicate of [files.filter(...)]. *)
Definition is_account_file (file : string) : bool :=
  negb (startsWith file "mint-") && endsWith file ".json".

(** The callback of [.map(...)]: one entry per file, with the error
    marker when the file does not read or decode. *)
Definition account_entry (keysFolder : path) (file : string) : M AccountEntry :=
  let name := replace_first ".json" "" file in
  try_catch
    (text ← fs_readFileSync (path_join keysFolder file);
     keypairData ← lift (JSON_parse text);
     u8 ← lift (Uint8Array_from keypairData);
     keypair ← lift (Keypair_fromSecretKey u8);
     ret (mkAccountEntry name (PublicKey_toString (publicKey keypair))))
    (fun error => ret (mkAccountEntry name "Error reading keypair")).

Definition listAccounts : M ListAccountsResult :=
  try_catch
    (let keysFolder := keys_folder in
     ex ← fs_existsSync keysFolder;
     if negb ex then
       try_catch
         (fs_mkdirSync_recursive keysFolder;;
          ret (mkListAccountsResult true
                 (Some ("No accounts found. Keys folder created at "
                        +:+ path_to_string keysFolder
                        +:+ ". Use the create-token or buy-token tools to create an account."))
                 None []))
         (fun mkdirError =>
            text ← mkdir_error_text mkdirError;
            ret (mkListAccountsResult false None (Some text) []))
     else
       files ← fs_readdirSync keysFolder;
       accounts ← mapM (account_entry keysFolder) (List.filter is_account_file files);
       if (length accounts =? 0)%nat then
         ret (mkListAccountsResult true
                (Some ("No accounts found in " +:+ path_to_string keysFolder
                       +:+ ". Use the create-token or buy-token tools to create an account."))
                None [])
       else
         ret (mkListAccountsResult true
                (Some ("Accounts in " +:+ path_to_string keysFolder +:+ ":"))
                None accounts))
    (fun error =>
       errorMessage ← describe_error error;
       ret (mkListAccountsResult false None (Some errorMessage) [])).

(** ** The balance guard of [buyToken] and [createToken] *)

(** [amount * LAMPORTS_PER_SOL + reserve * LAMPORTS_PER_SOL]. *)
Definition requiredBalance (amountSol reserve : number) : number :=
  (amountSol * LAMPORTS_PER_SOL + reserve * LAMPORTS_PER_SOL)%float.

Definition insufficient_balance_text (account : Keypair)
    (balance required : number) : string :=
  "Insufficient SOL balance. Account "
  +:+ PublicKey_toString (publicKey account) +:+ " has "
  +:+ Number_toString (balance / LAMPORTS_PER_SOL)%float
  +:+ " SOL, but needs at least "
  +:+ Number_toString (required / LAMPORTS_PER_SOL)%float
  +:+ " SOL. Please send SOL to this address and try again.".

(** [result.error ? (typeof result.error === "object" ?
    JSON.stringify(result.error) : result.error) : "Unknown error"]. *)
Definition sdk_error_text (e : option ErrorValue) : completion string :=
  if truthy_error_value e then
    match e with
    | Some (ErrObject json) => json
    | Some (ErrString s) => Return s
    | None => Return "Unknown error"
    end
  else Return "Unknown error".

(** The keys-folder check at the head of [buyToken] and [sellToken]:
    [Some text] is the early [{success: false, error: text}]. *)
Definition ensure_keys_folder (keysFolder : path) : M (option string) :=
  ex ← fs_existsSync keysFolder;
  if negb ex then
    try_catch
      (fs_mkdirSync_recursive keysFolder;; ret None)
      (fun mkdirError => text ← mkdir_error_text mkdirError; ret (Some text))
  else ret None.

(** ** [src/buy-token.ts] *)

Inductive BuyResult :=
| BuyFailure (error : string)
| BuySuccess (tokenAddress : string)
    (amountSpent tokensPurchased newBalance : number)
    (signature : option string) (pumpfunUrl : string).

Definition buy_success (r : BuyResult) : bool :=
  match r with BuyFailure _ => false | BuySuccess _ _ _ _ _ _ => true end.

Definition buyToken (tokenAddress : string) (buyAmount : number)
    (accountName : string) (slippageBasisPoints : number) : M BuyResult :=
  try_catch
    (connection ← initializeSDK;
     let keysFolder := keys_folder in
     early ← ensure_keys_folder keysFolder;
     match early with
     | Some text => ret (BuyFailure text)
     | None =>
         account ← getOrCreateKeypair keysFolder accountName;
         balance ← connection_getBalance connection (publicKey account);
         let required := requiredBalance buyAmount BUY_FEE_RESERVE in
         if (balance <? required)%float then
           ret (BuyFailure (insufficient_balance_text account balance required))
         else
           mintPublicKey ← lift (PublicKey_new tokenAddress);
           before ← getSPLBalance connection mintPublicKey (publicKey account);
           let initialTokenBalance := or_zero before in
           lamports ← lift (BigInt (buyAmount * LAMPORTS_PER_SOL)%float);
           slippage ← lift (BigInt slippageBasisPoints);
           result ← sdk_buy_call account mintPublicKey lamports slippage
                      DEFAULT_PRIORITY_FEES;
           if negb (tx_success result) then
             text ← lift (sdk_error_text (tx_error result));
             ret (BuyFailure text)
           else
             after ← getSPLBalance connection mintPublicKey (publicKey account);
             let newTokenBalance := or_zero after in
             let tokensPurchased := (newTokenBalance - initialTokenBalance)%float in
             ret (BuySuccess tokenAddress buyAmount tokensPurchased
                    newTokenBalance (tx_signature result)
                    ("https://pump.fun/" +:+ tokenAddress))
     end)
    (fun error =>
       errorMessage ← describe_error error;
       ret (BuyFailure errorMessage)).

(** ** [src/sell-token.ts] *)

Inductive SellResult :=
| SellFailure (error : string)
| SellSuccess (tokenAddress : string)
    (tokensSold solReceived newTokenBalance : number)
    (signature : option string) (pumpfunUrl : string).

Definition sell_success (r : SellResult) : bool :=
  match r with SellFailure _ => false | SellSuccess _ _ _ _ _ _ => true end.

(** [!tokenBalance || tokenBalance === 0] for [tokenBalance : number |
    null]. *)
Definition nothing_to_sell (tokenBalance : option number) : bool :=
  match tokenBalance with
  | None => true
  | Some b => negb (truthy b) || (b =? 0)%float
  end.

(** [sellAmount === 0 ? tokenBalance : Math.min(sellAmount,
    tokenBalance)]. *)
Definition amountToSell (sellAmount tokenBalance : number) : number :=
  if (sellAmount =? 0)%float then tokenBalance
  else Math_min sellAmount tokenBalance.

Definition no_tokens_text (account : Keypair) (tokenAddress : string) : string :=
  "No tokens to sell. Account " +:+ PublicKey_toString (publicKey account)
  +:+ " has 0 tokens of " +:+ tokenAddress +:+ ".".

Definition sellToken (tokenAddress : string) (sellAmount : number)
    (accountName : string) (slippageBasisPoints : number) : M SellResult :=
  try_catch
    (connection ← initializeSDK;
     let keysFolder := keys_folder in
     early ← ensure_keys_folder keysFolder;
     match early with
     | Some text => ret (SellFailure text)
     | None =>
         account ← getOrCreateKeypair keysFolder accountName;
         mintPublicKey ← lift (PublicKey_new tokenAddress);
         tokenBalance ← getSPLBalance connection mintPublicKey (publicKey account);
         match tokenBalance with
         | Some balance =>
             if nothing_to_sell tokenBalance then
               ret (SellFailure (no_tokens_text account tokenAddress))
             else
               let amount := amountToSell sellAmount balance in
               initialSolBalance ← connection_getBalance connection (publicKey account);
               tokens ← lift (BigInt (amount * Math_pow_10_6)%float);
               slippage ← lift (BigInt slippageBasisPoints);
               result ← sdk_sell_call account mintPublicKey tokens slippage
                          DEFAULT_PRIORITY_FEES;
               if negb (tx_success result) then
                 text ← lift (sdk_error_text (tx_error result));
                 ret (SellFailure text)
               else
                 newSolBalance ← connection_getBalance connection (publicKey account);
                 let solReceived :=
                   ((newSolBalance - initialSolBalance) / LAMPORTS_PER_SOL)%float in
                 after ← getSPLBalance connection mintPublicKey (publicKey account);
                 let newTokenBalance := or_zero after in
                 ret (SellSuccess tokenAddress amount solReceived newTokenBalance
                        (tx_signature result) ("https://pump.fun/" +:+ tokenAddress))
         | None => ret (SellFailure (no_tokens_text account tokenAddress))
         end
     end)
    (fun error =>
       errorMessage ← describe_error error;
       ret (SellFailure errorMessage)).

(** ** [src/create-token.ts] *)

Inductive CreateResult :=
| CreateFailure (error : ErrorValue)
| CreateSuccess (tokenAddress tokenName tokenSymbol : string)
    (tokenBalance : option number) (signature : option string)
    (pumpfunUrl : string).

Definition create_success (r : CreateResult) : bool :=
  match r with CreateFailure _ => false | CreateSuccess _ _ _ _ _ _ => true end.

(** [x || "Unknown error"]. *)
Definition or_unknown_error (e : option ErrorValue) : ErrorValue :=
  match e with
  | Some v => if truthy_error_value e then v else ErrString "Unknown error"
  | None => ErrString "Unknown error"
  end.

Definition createToken (name symbol description : string)
    (imageUrl : option string) (initialBuyAmount : number)
    (accountName : string) : M CreateResult :=
  try_catch
    (connection ← initializeSDK;
     let keysFolder := keys_folder in
     account ← getOrCreateKeypair keysFolder accountName;
     balance ← connection_getBalance connection (publicKey account);
     let required := requiredBalance initialBuyAmount CREATE_FEE_RESERVE in
     if (balance <? required)%float then
       ret (CreateFailure
              (ErrString (insufficient_balance_text account balance required)))
     else
       mint ← Keypair_generate;
       fileBlob ← match imageUrl with
                  | Some url =>
                      if truthy_string url then
                        imageData ← fs_readFileSync (path_of_string url);
                        ret (Some imageData)
                      else ret None
                  | None => ret None
                  end;
       let tokenMetadata := mkTokenMetadata name symbol description fileBlob in
       lamports ← lift (BigInt (initialBuyAmount * LAMPORTS_PER_SOL)%float);
       result ← sdk_createAndBuy_call account mint tokenMetadata lamports
                  DEFAULT_SLIPPAGE_BASIS_POINTS DEFAULT_PRIORITY_FEES;
       if negb (tx_success result) then
         ret (CreateFailure (or_unknown_error (tx_error result)))
       else
         fs_writeFileSync
           (path_join keysFolder
              ("mint-" +:+ PublicKey_toString (publicKey mint) +:+ ".json"))
           (safeStringify_bytes (secretKey mint));;
         tokenBalance ← getSPLBalance connection (publicKey mint) (publicKey account);
         ret (CreateSuccess (PublicKey_toString (publicKey mint)) name symbol
                tokenBalance (tx_signature result)
                ("https://pump.fun/" +:+ PublicKey_toString (publicKey mint))))
    (fun error =>
       ret (CreateFailure
              (ErrString (if truthy_string (err_message error)
                          then err_message error else "Unknown error")))).

(* ===================================================================== *)
(** * Vocabulary of the statements *)
(* ===================================================================== *)

(** [Keypair.fromSecretKey(new Uint8Array(JSON.parse(text)))]: what the
    text of a key file decodes to. *)
Definition decode_keypair (text : string) : completion Keypair :=
  completion_bind (JSON_parse text) (fun keypairData =>
  completion_bind (Uint8Array_from keypairData) Keypair_fromSecretKey).

(** [error] is what decoding the key file [text] throws: the text is not
    the encoding of a valid secret key. *)
Definition CorruptKeyFile (text : string) (error : JsError) : Prop :=
  decode_keypair text = Throw error.

(** Reading and decoding the key file [file] of [keysFolder]. *)
Definition read_keypair (root : node) (keysFolder : path) (file : string)
  : completion Keypair :=
  completion_bind (read_node root (path_join keysFolder file)) decode_keypair.

(** The entry [listAccounts] makes of the file [file] of [keysFolder]. *)
Definition account_entry_of (root : node) (keysFolder : path) (file : string)
  : AccountEntry :=
  mkAccountEntry (replace_first ".json" "" file)
    match read_keypair root keysFolder file with
    | Return keypair => PublicKey_toString (publicKey keypair)
    | Throw _ => "Error reading keypair"
    end.

End Code.

(** The balance [getSPLBalance] makes of the answer of the RPC node. *)
Definition resolved_balance (answer : completion (list TokenAccount))
  : option number :=
  match answer with
  | Return (tokenAccount :: _) => uiAmount (tokenAmountOf tokenAccount)
  | Return [] => None
  | Throw _ => None
  end.

(** The answer the RPC node gives, in world [w], to the next query for
    the token accounts of [owner] restricted to [mint]. *)
Definition token_accounts_answer (w : World) (c : Connection)
    (owner mint : PublicKey) : completion (list TokenAccount) :=
  rpc_getParsedTokenAccountsByOwner (remote w) (events w) c owner mint.

(** A computation that makes no remote call, and one that only adds to
    the log of remote calls. *)
Definition silent {A} (m : M A) : Prop :=
  forall w, events (snd (m w)) = events w.

Definition appends {A} (m : M A) : Prop :=
  forall w, exists l, events (snd (m w)) = events w ++ l.

(** A computation that never throws. *)
Definition total {A} (m : M A) : Prop :=
  forall w, exists a w', m w = (Return a, w').

(* ===================================================================== *)
(** * The balance report, the result texts and the tool handlers *)
(* ===================================================================== *)

(** The line feed of [.join("\n")]. *)
Definition newline : string := String "010"%char EmptyString.

(** [lines.join("\n")]. *)
Fixpoint join_lines (lines : list string) : string :=
  match lines with
  | [] => EmptyString
  | [x] => x
  | x :: rest => x +:+ newline +:+ join_lines rest
  end.

(** [`${s}`] for [s : string | undefined]. *)
Definition text_of_optional (s : option string) : string :=
  default "undefined" s.

(** [error?.message || "Unknown error"]. *)
Definition message_or_unknown (error : JsError) : string :=
  if truthy_string (err_message error) then err_message error
  else "Unknown error".

(** [`${v}`] for an object [v] found in an [error] field: what its
    [toString] gives.  The model knows an object by what
    [JSON.stringify] makes of it. *)
Class Printing := {
  String_of_object : completion string -> string
}.

(** The text content of an MCP response. *)
Record TextContent := mkTextContent {
  content_type : string;
  content_text : string
}.

Record McpResponse := mkMcpResponse { content : list TextContent }.

(** [createMcpResponse] of [src/get-token-info.ts]. *)
Definition createMcpResponse (text : string) : McpResponse :=
  mkMcpResponse [mkTextContent "text" text].

(** The bounds of the tool schemas of [src/index.ts]:
    [z.number().min(0.0001)] for [buyAmount] and [initialBuyAmount],
    [z.number().min(0)] for [sellAmount].  [NaN] passes neither. *)
Definition buyAmount_schema (buyAmount : number) : bool :=
  (0.0001 <=? buyAmount)%float.

Definition sellAmount_schema (sellAmount : number) : bool :=
  (0 <=? sellAmount)%float.

Section Commands.
Context {RT : Runtime} {PR : Printing}.

(** [`${b}`] for [b : number | null]. *)
Definition text_of_nullable_number (b : option number) : string :=
  match b with
  | Some x => Number_toString x
  | None => "null"
  end.

(** [`${v}`] for the value of an [error] field. *)
Definition text_of_error_value (e : ErrorValue) : string :=
  match e with
  | ErrString s => s
  | ErrObject json => String_of_object json
  end.

(** ** [src/get-token-balance.ts] *)

(** [tokenAddress] is [string | undefined]. *)
Definition getAccountBalance (accountName : string)
    (tokenAddress : option string) : M string :=
  try_catch
    (connection ← initializeSDK;
     let keysFolder := keys_folder in
     let accountFilePath := path_join keysFolder (accountName +:+ ".json") in
     ex ← fs_existsSync accountFilePath;
     (if negb ex then
        throw (mkError "Error" ("Account file not found for " +:+ accountName))
      else ret tt);;
     text ← fs_readFileSync accountFilePath;
     keypairData ← lift (JSON_parse text);
     u8 ← lift (Uint8Array_from keypairData);
     keypair ← lift (Keypair_fromSecretKey u8);
     solBalance ← connection_getBalance connection (publicKey keypair);
     let response :=
       ["Account: " +:+ accountName +:+ " ("
          +:+ PublicKey_toString (publicKey keypair) +:+ ")";
        "SOL Balance: " +:+ Number_toString (solBalance / LAMPORTS_PER_SOL)%float
          +:+ " SOL"] in
     response ←
       match tokenAddress with
       | Some address =>
           if truthy_string address then
             mintPublicKey ← lift (PublicKey_new address);
             tokenBalance ← getSPLBalance connection mintPublicKey (publicKey keypair);
             ret (response ++
                  ["Token Balance (" +:+ address +:+ "): "
                     +:+ match tokenBalance with
                         | Some balance => Number_toString balance
                         | None => "No token account found"
                         end])%list
           else ret response
       | None => ret response
       end;
     ret (join_lines response))
    (fun error =>
       ret ("Error getting account balance: " +:+ message_or_unknown error)).

(** ** The result texts *)

(** [formatBuyResult] of [src/buy-token.ts]. *)
Definition formatBuyResult (result : BuyResult) : string :=
  match result with
  | BuyFailure error => "Error buying token: " +:+ error
  | BuySuccess tokenAddress amountSpent tokensPurchased newBalance signature
      pumpfunUrl =>
      join_lines
        ["Successfully bought token!";
         "Token Address: " +:+ tokenAddress;
         "Amount Spent: " +:+ Number_toString amountSpent +:+ " SOL";
         "Tokens Purchased: " +:+ Number_toString tokensPurchased;
         "New Balance: " +:+ Number_toString newBalance;
         "Transaction Signature: " +:+ text_of_optional signature;
         "Pump.fun URL: " +:+ pumpfunUrl]
  end.

(** [formatSellResult] of [src/sell-token.ts]. *)
Definition formatSellResult (result : SellResult) : string :=
  match result with
  | SellFailure error => "Error selling token: " +:+ error
  | SellSuccess tokenAddress tokensSold solReceived newTokenBalance signature
      pumpfunUrl =>
      join_lines
        ["Successfully sold token!";
         "Token Address: " +:+ tokenAddress;
         "Tokens Sold: " +:+ Number_toString tokensSold;
         "SOL Received: " +:+ Number_toString solReceived +:+ " SOL";
         "Remaining Token Balance: " +:+ Number_toString newTokenBalance;
         "Transaction Signature: " +:+ text_of_optional signature;
         "Pump.fun URL: " +:+ pumpfunUrl]
  end.

(** [formatCreateTokenResult] of [src/create-token.ts]. *)
Definition formatCreateTokenResult (result : CreateResult) : string :=
  match result with
  | CreateFailure error => "Error creating token: " +:+ text_of_error_value error
  | CreateSuccess tokenAddress tokenName tokenSymbol tokenBalance signature
      pumpfunUrl =>
      join_lines
        ["Successfully created token!";
         "Token Address: " +:+ tokenAddress;
         "Token Name: " +:+ tokenName;
         "Token Symbol: " +:+ tokenSymbol;
         "Your Balance: " +:+ text_of_nullable_number tokenBalance;
         "Transaction Signature: " +:+ text_of_optional signature;
         "Pump.fun URL: " +:+ pumpfunUrl]
  end.

(** [formatListAccountsResult] of [src/list-accounts.ts]; [None] is
    [undefined], the value of a [message] that is not there. *)
Definition formatListAccountsResult (result : ListAccountsResult)
  : option string :=
  if negb (la_success result) then
    Some ("Error listing accounts: " +:+ text_of_optional (la_error result))
  else if (length (la_accounts result) =? 0)%nat then la_message result
  else
    let accountsText :=
      join_lines (map (fun account =>
                         acc_name account +:+ ": " +:+ acc_publicKey account)
                    (la_accounts result)) in
    Some (text_of_optional (la_message result) +:+ newline +:+ newline
          +:+ accountsText).

(** ** The tool handlers of [src/index.ts] *)

(** [formattedResult || fallback]: [undefined] and the empty string are
    falsy. *)
Definition or_text (formatted : option string) (fallback : string) : string :=
  match formatted with
  | Some text => if truthy_string text then text else fallback
  | None => fallback
  end.

Definition buy_token_tool (tokenAddress : string) (buyAmount : number)
    (accountName : string) (slippageBasisPoints : number) : M McpResponse :=
  try_catch
    (result ← buyToken tokenAddress buyAmount accountName slippageBasisPoints;
     let formattedResult := formatBuyResult result in
     ret (createMcpResponse formattedResult))
    (fun error =>
       ret (mkMcpResponse
              [mkTextContent "text"
                 ("Error buying token: " +:+ message_or_unknown error)])).

Definition sell_token_tool (tokenAddress : string) (sellAmount : number)
    (accountName : string) (slippageBasisPoints : number) : M McpResponse :=
  try_catch
    (result ← sellToken tokenAddress sellAmount accountName slippageBasisPoints;
     let formattedResult := formatSellResult result in
     ret (createMcpResponse formattedResult))
    (fun error =>
       ret (mkMcpResponse
              [mkTextContent "text"
                 ("Error selling token: " +:+ message_or_unknown error)])).

Definition create_token_tool (name symbol description : string)
    (imageUrl : option string) (initialBuyAmount : number)
    (accountName : string) : M McpResponse :=
  try_catch
    (result ← createToken name symbol description imageUrl initialBuyAmount
                accountName;
     let formattedResult := formatCreateTokenResult result in
     ret (createMcpResponse formattedResult))
    (fun error =>
       ret (mkMcpResponse
              [mkTextContent "text"
                 ("Error creating token: " +:+ message_or_unknown error)])).

Definition list_accounts_tool : M McpResponse :=
  try_catch
    (result ← listAccounts;
     let formattedResult := formatListAccountsResult result in
     ret (createMcpResponse
            (or_text formattedResult "Error: No account information available")))
    (fun error =>
       ret (mkMcpResponse
              [mkTextContent "text"
                 ("Error listing accounts: " +:+ message_or_unknown error)])).

Definition get_account_balance_tool (accountName : string)
    (tokenAddress : option string) : M McpResponse :=
  try_catch
    (result ← getAccountBalance accountName tokenAddress;
     ret (mkMcpResponse [mkTextContent "text" result]))
    (fun error =>
       ret (mkMcpResponse
              [mkTextContent "text"
                 ("Error getting account balance: "
                  +:+ message_or_unknown error)])).

End Commands.

(** ** More vocabulary *)

(** A computation that leaves the projection [f] of the world as it
    is. *)
Definition preserves {A X} (f : World -> X) (m : M A) : Prop :=
  forall w, f (snd (m w)) = f w.

(** A computation whose result and whose effect on the files are a
    function of the files alone. *)
Definition local {A} (m : M A) : Prop :=
  forall w1 w2,
    fs w1 = fs w2 ->
    fst (m w1) = fst (m w2) /\ fs (snd (m w1)) = fs (snd (m w2)).

Definition is_sdk_buy (ev : Event) : bool :=
  match ev with EvSdkBuy _ _ _ _ _ _ => true | _ => false end.

Definition is_sdk_sell (ev : Event) : bool :=
  match ev with EvSdkSell _ _ _ _ _ _ => true | _ => false end.

Definition is_sdk_createAndBuy (ev : Event) : bool :=
  match ev with EvSdkCreateAndBuy _ _ _ _ _ _ _ => true | _ => false end.

(** A computation that only adds to the log of remote calls, at most [n]
    calls to the trading SDK among them, each of the kind [kind]. *)
Definition trades {A} (kind : Event -> bool) (n : nat) (m : M A) : Prop :=
  forall w, exists l,
    events (snd (m w)) = events w ++ l
    /\ length (List.filter is_sdk_call l) <= n
    /\ Forall (fun ev => is_sdk_call ev = true -> kind ev = true) l.

(** A name that [path.join] keeps as one segment. *)
Fixpoint no_slash (s : string) : bool :=
  match s with
  | EmptyString => true
  | String c s' => negb (Ascii.eqb c "/"%char) && no_slash s'
  end.

(** [pat] occurs in [s]. *)
Fixpoint occurs (pat s : string) : bool :=
  String.prefix pat s
  || match s with
     | EmptyString => false
     | String _ s' => occurs pat s'
     end.

(* ===================================================================== *)
(** * A small runtime and worlds to run the code on *)
(* ===================================================================== *)

(** An instance of [Runtime] on which the functions above run.  Its
    [JSON.parse] reads arrays of decimal naturals and nothing else; its
    key pairs are a seed of 32 bytes followed by the reversed seed, and
    [Keypair.fromSecretKey] checks the length and that the second half is
    the reverse of the first. *)

Definition is_digit (c : ascii) : bool :=
  (48 <=? nat_of_ascii c)%nat && (nat_of_ascii c <=? 57)%nat.

Fixpoint all_digits (s : string) : bool :=
  match s with
  | EmptyString => true
  | String c s' => is_digit c && all_digits s'
  end.

Definition SyntaxError : JsError :=
  mkError "SyntaxError" "Unexpected token in JSON".

Definition ref_number_of_digits (ds : string) : completion N :=
  match NilEmpty.uint_of_string ds with
  | Some d => match ds with
              | EmptyString => Throw SyntaxError
              | _ => Return (N.of_uint d)
              end
  | None => Throw SyntaxError
  end.

(** The elements after the opening bracket; [cur] holds the digits of the
    element being read. *)
Fixpoint ref_parse_elems (cur : string) (s : string) : completion (list N) :=
  match s with
  | EmptyString => Throw SyntaxError
  | String c s' =>
      if is_digit c then ref_parse_elems (cur +:+ String c EmptyString) s'
      else if Ascii.eqb c ","%char then
        match ref_number_of_digits cur, ref_parse_elems EmptyString s' with
        | Return n, Return l => Return (n :: l)
        | Throw e, _ => Throw e
        | _, Throw e => Throw e
        end
      else if Ascii.eqb c "]"%char then
        match s' with
        | EmptyString =>
            match ref_number_of_digits cur with
            | Return n => Return [n]
            | Throw e => Throw e
            end
        | _ => Throw SyntaxError
        end
      else Throw SyntaxError
  end.

Definition ref_JSON_parse (s : string) : completion (list N) :=
  match s with
  | String "["%char (String "]"%char EmptyString) => Return []
  | String "["%char s' => ref_parse_elems EmptyString s'
  | _ => Throw SyntaxError
  end.

Definition ref_byte_of_N (n : N) : Byte.byte :=
  default Byte.x00 (Byte.of_N (n mod 256)%N).

Definition ref_Uint8Array_from (v : list N) : completion bytes :=
  Return (map ref_byte_of_N v).

Definition ref_seed32 (seed : bytes) : bytes :=
  take 32 (seed ++ repeat Byte.x00 32).

Definition ref_public_of_seed (seed : bytes) : bytes := rev seed.

Definition ref_Keypair_fromEntropy (seed : bytes) : Keypair :=
  let s := ref_seed32 seed in
  mkKeypair (mkPublicKey (ref_public_of_seed s)) (s ++ ref_public_of_seed s).

Definition ref_Keypair_fromSecretKey (u8 : bytes) : completion Keypair :=
  if negb (length u8 =? 64)%nat then Throw (mkError "Error" "bad secret key size")
  else if bool_decide (map Byte.to_N (ref_public_of_seed (take 32 u8))
                       = map Byte.to_N (drop 32 u8))
       then Return (mkKeypair (mkPublicKey (drop 32 u8)) u8)
       else Throw (mkError "Error" "provided secretKey is invalid").

Definition ref_PublicKey_new (s : string) : completion PublicKey :=
  if truthy_string s then Return (mkPublicKey (list_byte_of_string s))
  else Throw (mkError "Error" "Invalid public key input").

Definition ref_PublicKey_toString (pk : PublicKey) : string :=
  string_of_list_byte (pk_bytes pk).

Definition ref_Z_toString (z : Z) : string :=
  NilEmpty.string_of_int (Z.to_int z).

Definition ref_Number_toString (x : number) : string :=
  match Prim2SF x with
  | S754_zero _ => "0"
  | S754_infinity s => if s then "-Infinity" else "Infinity"
  | S754_nan => "NaN"
  | S754_finite s m e =>
      (if s then "-" else "") +:+ ref_Z_toString (Z.pos m) +:+ "*2^" +:+ ref_Z_toString e
  end.

Definition ref_Connection_new (url : string) : completion Connection :=
  if startsWith url "http:" || startsWith url "https:"
  then Return (mkConnection url)
  else Throw (mkError "TypeError" "Endpoint URL must start with `http:` or `https:`.").

#[global] Instance ref_runtime : Runtime := {|
  rootDir := ["srv"; "pumpfun"];
  path_of_string := path_join [];
  JSValue := list N;
  JSON_parse := ref_JSON_parse;
  Uint8Array_from := ref_Uint8Array_from;
  Keypair_fromSecretKey := ref_Keypair_fromSecretKey;
  Keypair_fromEntropy := ref_Keypair_fromEntropy;
  PublicKey_new := ref_PublicKey_new;
  PublicKey_toString := ref_PublicKey_toString;
  Number_toString := ref_Number_toString;
  JSON_stringify_error := fun _ => Return "{}";
  Connection_new := ref_Connection_new
|}.

(** A remote side that always gives the same answers. *)
Definition constant_remote (balance : completion number)
    (accounts : completion (list TokenAccount))
    (tx : completion TransactionResult) : Remote :=
  mkRemote (fun _ _ _ => balance) (fun _ _ _ _ => accounts)
    (fun _ _ _ _ _ _ => tx) (fun _ _ _ _ _ _ => tx)
    (fun _ _ _ _ _ _ _ => tx).

Definition tx_ok : completion TransactionResult :=
  Return (mkTransactionResult true (Some "sig") None).

(** The [i]-th draw: 32 times the [i]-th capital letter. *)
Definition ref_random (i : nat) : bytes :=
  repeat (default Byte.x00 (Byte.of_nat (65 + i))) 32.

(** The installation directory with the given entries of [.keys]
    ([None]: there is no [.keys]). *)
Definition install_fs (keys : option (gmap string node)) : node :=
  let project : gmap string node :=
    match keys with
    | Some es => {[ ".keys" := Dir es ]}
    | None => ∅
    end in
  Dir {[ "srv" := Dir {[ "pumpfun" := Dir project ]} ]}.

Definition example_world (keys : option (gmap string node)) (r : Remote) : World :=
  mkWorld (Some "https://rpc.example") (install_fs keys) ref_random 0 r [].

Definition token_account (ui : option number) : TokenAccount :=
  mkTokenAccount (mkPublicKey []) (mkTokenAmount "0" 6 ui).

(** ** The worlds of the examples *)

Definition quiet_remote : Remote :=
  constant_remote (Return 5%float) (Return []) tx_ok.

Definition world_fresh : World := example_world None quiet_remote.

Definition world_empty : World := example_world (Some ∅) quiet_remote.

Definition first_key : Keypair := ref_Keypair_fromEntropy (ref_random 0).

Definition world_corrupt : World :=
  example_world (Some {[ "default.json" := File "not json" ]}) quiet_remote.

Definition mixed_keys : gmap string node :=
  {[ "good.json" := File (JSON_stringify_bytes (secretKey first_key));
     "bad.json" := File "[1,2,3]";
     "mint-Token.json" := File (JSON_stringify_bytes (secretKey first_key));
     "notes.txt" := File "remember" ]}.

Definition world_mixed : World := example_world (Some mixed_keys) quiet_remote.

Definition ref_connection : Connection := mkConnection "https://rpc.example".

Definition token_mint : PublicKey := mkPublicKey (list_byte_of_string "Mint").

(** The account holds [balance] lamports and the token accounts
    [accounts]; every transaction succeeds. *)
Definition world_holding (balance : number) (accounts : list TokenAccount) : World :=
  example_world None (constant_remote (Return balance) (Return accounts) tx_ok).

Definition world_rpc_down : World :=
  example_world None
    (constant_remote (Return 5%float) (Throw (mkError "Error" "fetch failed")) tx_ok).

(** One SOL is asked for and the account holds five lamports. *)
Definition buy_run : completion BuyResult * World :=
  buyToken "Mint" 1 "default" 100 world_fresh.

Definition create_run : completion CreateResult * World :=
  createToken "Name" "SYM" "A token" None 1 "default" world_fresh.

(** The account holds 7.5 tokens and 3 are to be sold. *)
Definition sell_world : World :=
  world_holding 5000000000 [token_account (Some 7.5%float)].

Definition sell_run : completion SellResult * World :=
  sellToken "Mint" 3 "default" 100 sell_world.


Definition sell_events : list Event :=
  [EvGetBalance ref_connection (publicKey first_key) (Return 5000000000%float);
   EvSdkSell first_key token_mint 3000000 100 DEFAULT_PRIORITY_FEES tx_ok;
   EvGetBalance ref_connection (publicKey first_key) (Return 5000000000%float);
   EvTokenAccounts ref_connection (publicKey first_key) token_mint
     (Return [token_account (Some 7.5%float)])].

#[global] Instance ref_printing : Printing := {|
  String_of_object := fun _ => "[object Object]"
|}.

(** No RPC endpoint is configured. *)
Definition world_unconfigured : World :=
  mkWorld None (install_fs (Some ∅)) ref_random 0 quiet_remote [].


(** The keys folder holds the key of the account ["default"]. *)
Definition world_with_account (r : Remote) : World :=
  example_world
    (Some {[ "default.json" := File (JSON_stringify_bytes (secretKey first_key)) ]})
    r.

(** The account holds five SOL and no token; every transaction
    succeeds. *)
Definition funded_remote : Remote :=
  constant_remote (Return 5000000000%float) (Return []) tx_ok.

Definition funded_world : World := example_world None funded_remote.

(** The key of the second draw: the mint of the first token created. *)
Definition second_key : Keypair := ref_Keypair_fromEntropy (ref_random 1).

Definition funded_buy_run : completion BuyResult * World :=
  buyToken "Mint" 1 "default" 100 funded_world.

Definition funded_buy_events : list Event :=
  [EvGetBalance ref_connection (publicKey first_key) (Return 5000000000%float);
   EvTokenAccounts ref_connection (publicKey first_key) token_mint (Return []);
   EvSdkBuy first_key token_mint 1000000000 100 DEFAULT_PRIORITY_FEES tx_ok;
   EvTokenAccounts ref_connection (publicKey first_key) token_mint (Return [])].

Definition funded_create_run : completion CreateResult * World :=
  createToken "Name" "SYM" "A token" None 1 "default" funded_world.

Definition funded_create_events : list Event :=
  [EvGetBalance ref_connection (publicKey first_key) (Return 5000000000%float);
   EvSdkCreateAndBuy first_key second_key
     (mkTokenMetadata "Name" "SYM" "A token" None) 1000000000 100
     DEFAULT_PRIORITY_FEES tx_ok;
   EvTokenAccounts ref_connection (publicKey first_key) (publicKey second_key)
     (Return [])].

(** The account holds five SOL and 7.5 tokens; every transaction
    succeeds. *)
Definition selling_remote : Remote :=
  constant_remote (Return 5000000000%float)
    (Return [token_account (Some 7.5%float)]) tx_ok.

(** The world in which a trade command finds the account ["default"]
    when it starts in [w]: the keys folder is checked, then the account
    is read or created. *)
Definition with_default_account (w : World) : World :=
  snd (getOrCreateKeypair keys_folder "default"
         (snd (ensure_keys_folder keys_folder w))).

(** The files of [world_mixed] with no RPC endpoint configured, an RPC
    node that is down and three keys drawn already. *)
Definition world_mixed_offline : World :=
  mkWorld None (install_fs (Some mixed_keys)) ref_random 3
    (constant_remote (Return 5%float) (Throw (mkError "Error" "fetch failed")) tx_ok)
    [].

(* ===================================================================== *)
(** * The embedding on concrete inputs *)
(* ===================================================================== *)

Example path_join_normalises :
  path_join ["srv"; "app"] "../etc//./keys.json" = ["srv"; "etc"; "keys.json"].
Proof. reflexivity. Qed.

Example keys_folder_of_ref_runtime : keys_folder = ["srv"; "pumpfun"; ".keys"].
Proof. reflexivity. Qed.

Example is_account_file_examples :
  is_account_file "default.json" = true
  /\ is_account_file "mint-default.json" = false
  /\ is_account_file "default.txt" = false
  /\ is_account_file "json" = false.
Proof. repeat split. Qed.

Example replace_first_only_first :
  replace_first ".json" "" "a.json.json" = "a.json"
  /\ replace_first ".json" "" ".jsona.json" = "a.json".
Proof. split; reflexivity. Qed.

Example JSON_stringify_bytes_examples :
  JSON_stringify_bytes [Byte.x01; Byte.xff; Byte.x00] = "[1,255,0]"
  /\ JSON_stringify_bytes [] = "[]".
Proof. split; reflexivity. Qed.

Example requiredBalance_examples :
  requiredBalance 1 BUY_FEE_RESERVE = 1001000000%float
  /\ requiredBalance 1 CREATE_FEE_RESERVE = 1003000000%float
  /\ requiredBalance 0.1 BUY_FEE_RESERVE = 101000000%float.
Proof. repeat split. Qed.

Example BigInt_examples :
  BigInt 3000000 = Return 3000000%Z
  /\ BigInt (0.1 * Math_pow_10_6)%float = Return 100000%Z
  /\ BigInt (-2) = Return (-2)%Z
  /\ BigInt 0.5 = Throw BigInt_RangeError
  /\ BigInt PrimFloat.nan = Throw BigInt_RangeError
  /\ BigInt PrimFloat.infinity = Throw BigInt_RangeError.
Proof. repeat split. Qed.

Example Math_min_examples :
  Math_min 3 7.5 = 3%float
  /\ Math_min 10 7.5 = 7.5%float
  /\ Math_min 0 (-0) = (-0)%float
  /\ PrimFloat.is_nan (Math_min PrimFloat.nan 1) = true.
Proof. repeat split. Qed.

Example truthy_examples :
  truthy 7.5 = true /\ truthy 0 = false /\ truthy (-0) = false
  /\ truthy PrimFloat.nan = false.
Proof. repeat split. Qed.

Example amountToSell_examples :
  amountToSell 0 7.5 = 7.5%float
  /\ amountToSell 3 7.5 = 3%float
  /\ amountToSell 10 7.5 = 7.5%float.
Proof. repeat split. Qed.

(** The scenario of the specification: the keys folder is empty;
    [getOrCreateKeypair] for ["default"] writes [default.json]; a second
    call returns the same key; [listAccounts] lists that one account. *)
Example empty_folder_scenario :
  let first := getOrCreateKeypair keys_folder "default" world_empty in
  let second := getOrCreateKeypair keys_folder "default" (snd first) in
  fst first = Return first_key
  /\ lookup_node (fs (snd first)) (keys_folder ++ ["default.json"])%list
     = Some (File (JSON_stringify_bytes (secretKey first_key)))
  /\ fst second = Return first_key
  /\ fst (listAccounts (snd second))
     = Return (mkListAccountsResult true (Some "Accounts in /srv/pumpfun/.keys:") None
                 [mkAccountEntry "default" (PublicKey_toString (publicKey first_key))]).
Proof. vm_compute. repeat split. Qed.

(** With five SOL on the account, [buyToken] for one SOL goes through:
    balance query, token accounts, [sdk.buy] of 10^9 lamports, token
    accounts again. *)
Example buyToken_funded :
  let run := buyToken "Mint" 1 "default" 100 (world_holding 5000000000 []) in
  fst run = Return (BuySuccess "Mint" 1 0 0 (Some "sig") "https://pump.fun/Mint")
  /\ events (snd run)
     = [EvGetBalance ref_connection (publicKey first_key) (Return 5000000000%float);
        EvTokenAccounts ref_connection (publicKey first_key) token_mint (Return []);
        EvSdkBuy first_key token_mint 1000000000 100 DEFAULT_PRIORITY_FEES tx_ok;
        EvTokenAccounts ref_connection (publicKey first_key) token_mint (Return [])].
Proof. vm_compute. split; reflexivity. Qed.

(** After [createToken] the keys folder holds the account and the mint
    key; [listAccounts] shows the account only. *)
Example createToken_then_listAccounts :
  let run := createToken "Name" "SYM" "A token" None 1 "default"
               (world_holding 5000000000 []) in
  is_Some (lookup_node (fs (snd run))
             (keys_folder ++ ["mint-BBBBBBBBBBBBBBBBBBBBBBBBBBBBBBBB.json"])%list)
  /\ is_Some (lookup_node (fs (snd run)) (keys_folder ++ ["default.json"])%list)
  /\ fst (listAccounts (snd run))
     = Return (mkListAccountsResult true (Some "Accounts in /srv/pumpfun/.keys:") None
                 [mkAccountEntry "default" "AAAAAAAAAAAAAAAAAAAAAAAAAAAAAAAA"]).
Proof. vm_compute. repeat split; eauto. Qed.

(* ===================================================================== *)
(** * Lemmas on strings *)
(* ===================================================================== *)

Lemma append_nil_l (s : string) : "" +:+ s = s.
Proof. reflexivity. Qed.

Lemma append_cons (c : ascii) (r s : string) :
  String c r +:+ s = String c (r +:+ s).
Proof. reflexivity. Qed.

Lemma startsWith_spec (s p : string) :
  startsWith s p = true <-> exists rest, s = p +:+ rest.
Proof.
  unfold startsWith. revert s.
  induction p as [|c p IH]; intros s; simpl.
  - split; [intros _; exists s; by destruct s|intros _; by destruct s].
  - destruct s as [|d s]; simpl.
    + split; [discriminate|intros [rest Hr]; discriminate].
    + destruct (Ascii.ascii_dec c d) as [->|Hne].
      * rewrite IH. split; intros [rest Hr]; exists rest.
        -- by rewrite Hr.
        -- rewrite append_cons in Hr. by inversion Hr.
      * split; [discriminate|].
        intros [rest Hr]. rewrite append_cons in Hr. inversion Hr; congruence.
Qed.

Lemma substring_append_exact (r p : string) :
  String.substring (String.length r) (String.length p) (r +:+ p) = p.
Proof.
  induction r as [|c r IH]; [|rewrite append_cons; exact IH].
  rewrite append_nil_l. simpl.
  induction p as [|d p IHp]; simpl; [done|]. by rewrite IHp.
Qed.

Lemma length_append (r p : string) :
  String.length (r +:+ p) = String.length r + String.length p.
Proof.
  induction r as [|c r IH]; [done|]. rewrite append_cons. simpl. by rewrite IH.
Qed.

Lemma substring_split (s : string) : forall n,
  n <= String.length s ->
  s = String.substring 0 n s +:+ String.substring n (String.length s - n) s.
Proof.
  induction s as [|c s IH]; intros n Hn; simpl in *.
  - assert (n = 0) as -> by lia. done.
  - destruct n as [|n]; simpl.
    + rewrite append_nil_l. f_equal. clear. induction s; simpl; [done|]. by f_equal.
    + rewrite append_cons. f_equal. apply IH. lia.
Qed.

Lemma endsWith_spec (s p : string) :
  endsWith s p = true <-> exists stem, s = stem +:+ p.
Proof.
  unfold endsWith. split.
  - destruct (Nat.leb_spec (String.length p) (String.length s)) as [Hle|]; [|discriminate].
    intros Heq. apply String.eqb_eq in Heq.
    exists (String.substring 0 (String.length s - String.length p) s).
    pose proof (substring_split s (String.length s - String.length p)) as Hs.
    replace (String.length s - (String.length s - String.length p))
      with (String.length p) in Hs by lia.
    rewrite Heq in Hs. apply Hs. lia.
  - intros [stem ->]. rewrite length_append.
    rewrite (proj2 (Nat.leb_le _ _)) by lia.
    replace (String.length stem + String.length p - String.length p) with (String.length stem) by lia.
    rewrite substring_append_exact. apply String.eqb_refl.
Qed.

(* ===================================================================== *)
(** * Lemmas on the file system *)
(* ===================================================================== *)

(** A file that was written is there, with the text written. *)
Lemma write_node_lookup (p : path) : forall n s n',
  write_node n p s = Return n' -> lookup_node n' p = Some (File s).
Proof.
  induction p as [|c p IH]; intros n s n' Hw; simpl in Hw.
  - destruct n; [|discriminate]. by inversion Hw.
  - destruct n as [|es]; [discriminate|].
    destruct (es !! c) as [n0|] eqn:Hc.
    + destruct (write_node n0 p s) as [n1|] eqn:Hw1; [|discriminate].
      inversion Hw; subst. simpl. rewrite lookup_insert_eq. eauto.
    + destruct p; [|discriminate]. inversion Hw; subst. simpl.
      by rewrite lookup_insert_eq.
Qed.

Lemma write_node_exists (p : path) : forall n s n' (q : path),
  write_node n p s = Return n' ->
  is_Some (lookup_node n q) -> is_Some (lookup_node n' q).
Proof.
  induction p as [|c p IH]; intros n s n' q Hw Hq; simpl in Hw.
  - destruct n; [|discriminate]. inversion Hw; subst.
    destruct q; simpl in *; [eauto|]. by destruct Hq.
  - destruct n as [|es]; [discriminate|].
    destruct q as [|d q]; [simpl; eauto|].
    simpl in Hq.
    destruct (es !! c) as [n0|] eqn:Hc.
    + destruct (write_node n0 p s) as [n1|] eqn:Hw1; [|discriminate].
      inversion Hw; subst. simpl.
      destruct (decide (c = d)) as [->|Hne].
      * rewrite lookup_insert_eq. rewrite Hc in Hq. eauto.
      * by rewrite lookup_insert_ne.
    + destruct p; [|discriminate]. inversion Hw; subst. simpl.
      destruct (decide (c = d)) as [->|Hne].
      * rewrite Hc in Hq. by destruct Hq.
      * by rewrite lookup_insert_ne.
Qed.

Lemma mkdir_p_lookup (p : path) : forall n n',
  mkdir_p n p = Return n' -> exists es, lookup_node n' p = Some (Dir es).
Proof.
  induction p as [|c p IH]; intros n n' Hm; destruct n as [|es]; simpl in Hm;
    try discriminate.
  - inversion Hm; subst. simpl. eauto.
  - destruct (mkdir_p (default (Dir ∅) (es !! c)) p) as [n1|] eqn:Hm1; [|discriminate].
    inversion Hm; subst. simpl. rewrite lookup_insert_eq. eauto.
Qed.

Lemma mkdir_p_file (p : path) : forall n n' (q : path) s,
  mkdir_p n p = Return n' ->
  lookup_node n q = Some (File s) -> lookup_node n' q = Some (File s).
Proof.
  induction p as [|c p IH]; intros n n' q s Hm Hq; destruct n as [|es]; simpl in Hm;
    try discriminate.
  - by inversion Hm; subst.
  - destruct (mkdir_p (default (Dir ∅) (es !! c)) p) as [n1|] eqn:Hm1; [|discriminate].
    inversion Hm; subst.
    destruct q as [|d q]; [discriminate|]. simpl in *.
    destruct (decide (c = d)) as [->|Hne].
    + rewrite lookup_insert_eq.
      destruct (es !! d) as [n0|] eqn:Hd; [|discriminate]. simpl in Hm1. eauto.
    + by rewrite lookup_insert_ne.
Qed.

(* ===================================================================== *)
(** * Running the monad *)
(* ===================================================================== *)

Ltac unfold_M :=
  unfold mbind, M_bind, mret, M_ret, bind, ret, throw, lift, try_catch,
    fs_existsSync, fs_mkdirSync_recursive, fs_readFileSync, fs_writeFileSync,
    fs_readdirSync, Keypair_generate in *.

(* ===================================================================== *)
(** * The keypair store: [getOrCreateKeypair] *)
(* ===================================================================== *)

Section Keys.
Context {RT : Runtime}.

(** The run of [getOrCreateKeypair] once the keys folder exists. *)
Lemma getOrCreateKeypair_folder_exists keysFolder name w :
  is_Some (lookup_node (fs w) keysFolder) ->
  getOrCreateKeypair keysFolder name w =
    match lookup_node (fs w) (keypairPath keysFolder name) with
    | Some (File text) => (decode_keypair text, w)
    | Some (Dir _) => (Throw EISDIR, w)
    | None =>
        let keypair := Keypair_fromEntropy (random w (drawn w)) in
        match write_node (fs w) (keypairPath keysFolder name)
                (JSON_stringify_bytes (secretKey keypair)) with
        | Return n => (Return keypair, set_fs (set_drawn w (S (drawn w))) n)
        | Throw e => (Throw e, set_drawn w (S (drawn w)))
        end
    end.
Proof.
  intros Hex. unfold getOrCreateKeypair, keypairPath, decode_keypair. unfold_M.
  rewrite (bool_decide_eq_true_2 _ Hex). simpl.
  destruct (lookup_node (fs w) (path_join keysFolder (name +:+ ".json")))
    as [[text|es]|] eqn:Hl.
  - rewrite bool_decide_eq_true_2 by done. unfold read_node. rewrite Hl.
    destruct (JSON_parse text); simpl; [|done].
    destruct (Uint8Array_from a); simpl; [|done].
    by destruct (Keypair_fromSecretKey a0).
  - rewrite bool_decide_eq_true_2 by done. unfold read_node. by rewrite Hl.
  - rewrite bool_decide_eq_false_2 by (intros [? ?]; done). simpl.
    by destruct (write_node _ _ _).
Qed.

Lemma getOrCreateKeypair_folder_missing keysFolder name w :
  ~ is_Some (lookup_node (fs w) keysFolder) ->
  getOrCreateKeypair keysFolder name w =
    match mkdir_p (fs w) keysFolder with
    | Return n => getOrCreateKeypair keysFolder name (set_fs w n)
    | Throw e => (Throw e, w)
    end.
Proof.
  intros Hex. unfold getOrCreateKeypair. unfold_M.
  rewrite (bool_decide_eq_false_2 _ Hex). simpl.
  destruct (mkdir_p (fs w) keysFolder) as [n|e] eqn:Hm; [|done].
  destruct (mkdir_p_lookup _ _ _ Hm) as [es Hes]. simpl.
  rewrite (bool_decide_eq_true_2 (is_Some (lookup_node n keysFolder))) by (rewrite Hes; done).
  done.
Qed.

(** A second call returns the public key of the first. *)
Lemma getOrCreateKeypair_again `{!RuntimeLaws RT} keysFolder name w k1 w1 :
  is_Some (lookup_node (fs w) keysFolder) ->
  getOrCreateKeypair keysFolder name w = (Return k1, w1) ->
  exists k2, getOrCreateKeypair keysFolder name w1 = (Return k2, w1)
             /\ publicKey k2 = publicKey k1.
Proof.
  intros Hex Hrun. rewrite getOrCreateKeypair_folder_exists in Hrun by done.
  destruct (lookup_node (fs w) (keypairPath keysFolder name)) as [[text|es]|] eqn:Hl.
  - inversion Hrun; subst. exists k1. split; [|done].
    rewrite getOrCreateKeypair_folder_exists by done. by rewrite Hl.
  - discriminate.
  - simpl in Hrun.
    destruct (write_node _ _ _) as [n|e] eqn:Hw; [|discriminate].
    inversion Hrun; subst; clear Hrun.
    rewrite getOrCreateKeypair_folder_exists
      by (simpl; eapply write_node_exists; eauto).
    simpl. rewrite (write_node_lookup _ _ _ _ Hw).
    destruct (JSON_roundtrip_bytes (secretKey (Keypair_fromEntropy (random w (drawn w)))))
      as (v & Hparse & Hu8).
    destruct (generated_key_valid (random w (drawn w))) as (k2 & Hk & Hpk).
    exists k2. split; [|done].
    unfold decode_keypair. rewrite Hparse. simpl. rewrite Hu8. simpl. by rewrite Hk.
Qed.

(** A key file that exists is never replaced and costs no randomness,
    whatever the call returns; the call returns what the file decodes to,
    unless creating a missing keys folder fails first. *)
Lemma getOrCreateKeypair_keeps_file keysFolder name w text :
  lookup_node (fs w) (keypairPath keysFolder name) = Some (File text) ->
  exists c w', getOrCreateKeypair keysFolder name w = (c, w')
    /\ drawn w' = drawn w
    /\ lookup_node (fs w') (keypairPath keysFolder name) = Some (File text)
    /\ (c = decode_keypair text
        \/ exists e, c = Throw e
                     /\ lookup_node (fs w) keysFolder = None
                     /\ mkdir_p (fs w) keysFolder = Throw e).
Proof.
  intros Hfile.
  destruct (decide (is_Some (lookup_node (fs w) keysFolder))) as [Hex|Hex].
  - rewrite getOrCreateKeypair_folder_exists by done. rewrite Hfile.
    eexists _, _. split; [reflexivity|]. repeat split; auto.
  - rewrite getOrCreateKeypair_folder_missing by done.
    destruct (mkdir_p (fs w) keysFolder) as [n|e] eqn:Hm.
    + rewrite getOrCreateKeypair_folder_exists
        by (simpl; destruct (mkdir_p_lookup _ _ _ Hm) as [es ->]; done).
      simpl. rewrite (mkdir_p_file _ _ _ _ _ Hm Hfile).
      eexists _, _. split; [reflexivity|]. simpl.
      repeat split; eauto using mkdir_p_file.
    + eexists _, _. split; [reflexivity|]. repeat split; auto.
      right. exists e. repeat split; auto.
      destruct (lookup_node (fs w) keysFolder); [|done].
      exfalso. apply Hex. eauto.
Qed.

(** C7: when the file of a name holds a text that does not decode to a
    valid secret key, [getOrCreateKeypair] throws and returns no key pair;
    it draws no new key and leaves the file as it is.  What it throws is
    the error of the decoding itself, unless the keys folder is missing
    and cannot be created, in which case it throws the error of that
    creation. *)
Theorem corrupt_key_file_rejected keysFolder name w text error :
  lookup_node (fs w) (keypairPath keysFolder name) = Some (File text) ->
  CorruptKeyFile text error ->
  (exists e' w',
     getOrCreateKeypair keysFolder name w = (Throw e', w')
     /\ drawn w' = drawn w
     /\ lookup_node (fs w') (keypairPath keysFolder name) = Some (File text)
     /\ (e' = error
         \/ lookup_node (fs w) keysFolder = None
            /\ mkdir_p (fs w) keysFolder = Throw e'))
  /\ (is_Some (lookup_node (fs w) keysFolder) ->
      getOrCreateKeypair keysFolder name w = (Throw error, w)).
Proof.
  intros Hfile Hbad. unfold CorruptKeyFile in Hbad. split.
  - destruct (getOrCreateKeypair_keeps_file keysFolder name w text Hfile)
      as (c & w' & Hrun & Hd & Hf & [->|(e & -> & Hnone & Hmk)]).
    + rewrite Hbad in Hrun. eauto 10.
    + eauto 10.
  - intros Hex. rewrite getOrCreateKeypair_folder_exists by done.
    rewrite Hfile. by rewrite Hbad.
Qed.

End Keys.

(* ===================================================================== *)
(** * The balance resolver: [getSPLBalance] *)
(* ===================================================================== *)

Section Balance.
Context {RT : Runtime}.

Lemma getSPLBalance_run c mint owner w :
  getSPLBalance c mint owner w =
    (Return (resolved_balance (token_accounts_answer w c owner mint)),
     log_event w (EvTokenAccounts c owner mint (token_accounts_answer w c owner mint))).
Proof.
  unfold getSPLBalance, connection_getParsedTokenAccountsByOwner,
    token_accounts_answer. unfold_M.
  destruct (rpc_getParsedTokenAccountsByOwner _ _ _ _ _) as [[|a l]|e]; reflexivity.
Qed.

(** C2: when the query answers with no token account, [getSPLBalance]
    returns [null], which is not [0]; when it answers with one account or
    more, [getSPLBalance] returns the [uiAmount] of the first account,
    whatever the others hold. *)
Theorem getSPLBalance_first_account c mint owner w :
  (token_accounts_answer w c owner mint = Return [] ->
   fst (getSPLBalance c mint owner w) = Return None
   /\ fst (getSPLBalance c mint owner w) <> Return (Some 0%float))
  /\ (forall first others,
        token_accounts_answer w c owner mint = Return (first :: others) ->
        fst (getSPLBalance c mint owner w)
        = Return (uiAmount (tokenAmountOf first))).
Proof.
  rewrite getSPLBalance_run. simpl.
  split; [intros ->|intros first others ->]; [|reflexivity].
  split; [reflexivity|discriminate].
Qed.

(** C3: when the query throws, [getSPLBalance] does not throw: it returns
    [null], the very value it returns for an owner with no token
    account. *)
Theorem getSPLBalance_failure_is_absent c mint owner w error :
  token_accounts_answer w c owner mint = Throw error ->
  fst (getSPLBalance c mint owner w) = Return None
  /\ forall c' mint' owner' w',
       token_accounts_answer w' c' owner' mint' = Return [] ->
       fst (getSPLBalance c' mint' owner' w') = fst (getSPLBalance c mint owner w).
Proof.
  intros Hfail. rewrite !getSPLBalance_run. simpl. rewrite Hfail.
  split; [reflexivity|].
  intros c' mint' owner' w' Hnone. rewrite getSPLBalance_run. simpl.
  by rewrite Hnone.
Qed.
End Balance.

(* ===================================================================== *)
(** * Listing: [listAccounts] *)
(* ===================================================================== *)

Section Listing.
Context {RT : Runtime}.

Lemma account_entry_run keysFolder file w :
  account_entry keysFolder file w
  = (Return (account_entry_of (fs w) keysFolder file), w).
Proof.
  unfold account_entry, account_entry_of, read_keypair, decode_keypair. unfold_M.
  destruct (read_node (fs w) (path_join keysFolder file)) as [text|e]; simpl; [|done].
  destruct (JSON_parse text) as [v|e]; simpl; [|done].
  destruct (Uint8Array_from v) as [u8|e]; simpl; [|done].
  by destruct (Keypair_fromSecretKey u8).
Qed.

Lemma mapM_pure {A B} (f : A -> M B) (g : A -> B) (l : list A) w :
  (forall x, f x w = (Return (g x), w)) ->
  mapM f l w = (Return (map g l), w).
Proof.
  intros Hf. induction l as [|x l IH]; simpl; [done|].
  unfold_M. rewrite Hf. by rewrite IH.
Qed.

Lemma describe_error_run error w :
  exists text, describe_error error w = (Return text, w).
Proof.
  unfold describe_error. unfold_M.
  destruct (truthy_string (err_message error)); [eauto|].
  destruct (JSON_stringify_error error); eauto.
Qed.

(** The answer of [listAccounts] when the keys folder is a directory. *)
Lemma listAccounts_directory w es :
  lookup_node (fs w) keys_folder = Some (Dir es) ->
  exists message,
    listAccounts w =
      (Return (mkListAccountsResult true (Some message) None
                 (map (account_entry_of (fs w) keys_folder)
                    (List.filter is_account_file ((map_to_list es).*1)))), w).
Proof.
  intros Hdir. unfold listAccounts. unfold_M.
  rewrite bool_decide_eq_true_2 by (rewrite Hdir; done). simpl.
  unfold readdir_node. rewrite Hdir.
  rewrite (mapM_pure _ (account_entry_of (fs w) keys_folder))
    by (intros; apply account_entry_run).
  destruct (length _ =? 0)%nat eqn:Hlen.
  - apply Nat.eqb_eq in Hlen. apply length_zero_iff_nil in Hlen.
    rewrite Hlen. eauto.
  - eauto.
Qed.

Lemma is_account_file_spec file :
  is_account_file file = true <->
  (~ exists rest, file = "mint-" +:+ rest) /\ (exists stem, file = stem +:+ ".json").
Proof.
  unfold is_account_file. rewrite andb_true_iff, negb_true_iff.
  rewrite <- endsWith_spec, <- startsWith_spec.
  destruct (startsWith file "mint-"); intuition congruence.
Qed.

Lemma mkdir_error_text_run e w :
  exists c, mkdir_error_text e w = (c, w).
Proof.
  unfold mkdir_error_text. unfold_M.
  destruct (truthy_string (err_message e)); [eauto|].
  destruct (JSON_stringify_error e); eauto.
Qed.

(** Without a directory to list, [listAccounts] returns no account. *)
Lemma listAccounts_no_directory w :
  (forall es, lookup_node (fs w) keys_folder <> Some (Dir es)) ->
  exists result w',
    listAccounts w = (Return result, w') /\ la_accounts result = [].
Proof.
  intros Hnodir. unfold listAccounts. unfold_M.
  destruct (lookup_node (fs w) keys_folder) as [[text|es]|] eqn:Hl.
  - rewrite bool_decide_eq_true_2 by done. simpl.
    unfold readdir_node. rewrite Hl.
    destruct (describe_error_run ENOTDIR w) as [msg Hd]. unfold_M. rewrite Hd. eauto.
  - by destruct (Hnodir es).
  - rewrite bool_decide_eq_false_2 by (intros [? ?]; done). simpl.
    destruct (mkdir_p (fs w) keys_folder) as [n|e]; [eauto|].
    destruct (mkdir_error_text_run e w) as [[text|e'] Ht]; unfold_M; rewrite Ht.
    + eauto.
    + destruct (describe_error_run e' w) as [msg Hd]. unfold_M. rewrite Hd. eauto.
Qed.

(** C4: when the keys folder is a directory, the accounts of
    [listAccounts] are made, one each and in order, of the names [files]
    of the directory that do not start with ["mint-"] and end with
    [".json"]: no name occurs twice in [files], and a name is in [files]
    exactly when it is in the directory, has no prefix ["mint-"] and has
    the suffix [".json"].  When the keys folder is not a directory, there
    is no account at all. *)
Theorem listAccounts_lists_account_files w :
  (forall es,
     lookup_node (fs w) keys_folder = Some (Dir es) ->
     exists result files,
       listAccounts w = (Return result, w)
       /\ la_accounts result = map (account_entry_of (fs w) keys_folder) files
       /\ NoDup files
       /\ forall file,
            In file files <->
            is_Some (es !! file)
            /\ (~ exists rest, file = "mint-" +:+ rest)
            /\ (exists stem, file = stem +:+ ".json"))
  /\ ((forall es, lookup_node (fs w) keys_folder <> Some (Dir es)) ->
      exists result w',
        listAccounts w = (Return result, w') /\ la_accounts result = []).
Proof.
  split; [|apply listAccounts_no_directory].
  intros es Hdir. destruct (listAccounts_directory w es Hdir) as [message Hrun].
  eexists _, _. split; [exact Hrun|]. simpl. split; [reflexivity|]. split.
  - apply NoDup_ListNoDup, List.NoDup_filter, NoDup_ListNoDup,
      NoDup_fst_map_to_list.
  - intros file. rewrite filter_In, is_account_file_spec.
    rewrite <- list_elem_of_In, list_elem_of_fmap.
    split.
    + intros [[[file' x] [-> Hin]] Hok]. split; [|done].
      apply elem_of_map_to_list in Hin. simpl. by rewrite Hin.
    + intros [[x Hx] Hok]. split; [|done].
      exists (file, x). split; [done|]. by apply elem_of_map_to_list.
Qed.

(** C5: when the keys folder is a directory, [listAccounts] succeeds
    with one entry per candidate file, in order: the entry of a file that
    reads and decodes carries the decoded public key, the entry of any
    other file carries ["Error reading keypair"]. *)
Theorem listAccounts_partial_success w es :
  lookup_node (fs w) keys_folder = Some (Dir es) ->
  exists result,
    listAccounts w = (Return result, w)
    /\ la_success result = true
    /\ Forall2
         (fun file entry =>
            acc_name entry = replace_first ".json" "" file
            /\ match read_keypair (fs w) keys_folder file with
               | Return keypair =>
                   acc_publicKey entry = PublicKey_toString (publicKey keypair)
               | Throw _ => acc_publicKey entry = "Error reading keypair"
               end)
         (List.filter is_account_file ((map_to_list es).*1))
         (la_accounts result).
Proof.
  intros Hdir. destruct (listAccounts_directory w es Hdir) as [message Hrun].
  eexists. split; [exact Hrun|]. simpl. split; [reflexivity|].
  clear Hrun.
  induction (List.filter is_account_file _) as [|file files IH]; simpl;
    constructor; [|exact IH].
  unfold account_entry_of. simpl. split; [reflexivity|].
  by destruct (read_keypair _ _ _).
Qed.


(** [listAccounts] never throws. *)
Lemma listAccounts_total : total listAccounts.
Proof.
  intros w. unfold listAccounts.
  unfold try_catch at 1.
  match goal with |- context [match ?body w with _ => _ end] =>
    destruct (body w) as [[r|e] w'] eqn:Hbody end; [eauto|].
  unfold mbind, M_bind, bind, mret, M_ret, ret.
  destruct (describe_error_run e w') as [text ->]. eauto.
Qed.

Lemma keys_folder_eq : keys_folder = (rootDir ++ [".keys"])%list.
Proof. reflexivity. Qed.


Lemma lookup_node_app (p : path) : forall n q,
  lookup_node n (p ++ q) = lookup_node n p ≫= fun n' => lookup_node n' q.
Proof.
  induction p as [|d p IH]; intros n q; simpl; [done|].
  destruct n as [|es]; [done|]. destruct (es !! d); [apply IH|done].
Qed.

(** When the missing keys folder cannot be created, [listAccounts]
    answers with a failure and no account. *)
Lemma listAccounts_folder_not_created w e :
  lookup_node (fs w) keys_folder = None ->
  mkdir_p (fs w) keys_folder = Throw e ->
  exists text,
    listAccounts w = (Return (mkListAccountsResult false None (Some text) []), w).
Proof.
  intros Hmissing Hmk. unfold listAccounts. unfold_M.
  rewrite bool_decide_eq_false_2 by (rewrite Hmissing; intros [? ?]; done).
  simpl. rewrite Hmk.
  destruct (mkdir_error_text_run e w) as [[text|e'] Ht]; unfold_M; rewrite Ht.
  - eauto.
  - destruct (describe_error_run e' w) as [text Hd]. unfold_M. rewrite Hd. eauto.
Qed.

End Listing.

(* ===================================================================== *)
(** * Lemmas on numbers *)
(* ===================================================================== *)

Lemma SFcompare_antisym x y :
  SFcompare x y = Some Gt -> SFcompare y x = Some Lt.
Proof.
  assert (forall p q, Pos.compare_cont Eq q p = CompOpp (Pos.compare_cont Eq p q))
    as Hflip by (intros p q; symmetry; apply (Pos.compare_cont_antisym p q Eq)).
  destruct x as [sx|sx| |sx mx ex], y as [sy|sy| |sy my ey]; simpl;
    try destruct sx; try destruct sy; simpl; try congruence.
  - rewrite (Z.compare_antisym ex ey), (Hflip mx my).
    destruct (ex ?= ey)%Z; simpl; try congruence.
    destruct (Pos.compare_cont Eq mx my); simpl; congruence.
  - rewrite (Z.compare_antisym ex ey), (Hflip mx my).
    destruct (ex ?= ey)%Z; simpl; try congruence.
    destruct (Pos.compare_cont Eq mx my); simpl; congruence.
Qed.

Lemma SFcompare_defined x y :
  SFcompare x x <> None -> SFcompare y y <> None -> SFcompare x y <> None.
Proof.
  destruct x as [sx|sx| |sx mx ex], y as [sy|sy| |sy my ey]; simpl;
    try destruct sx; try destruct sy; simpl; congruence.
Qed.

Lemma is_nan_false x :
  PrimFloat.is_nan x = false -> SFcompare (Prim2SF x) (Prim2SF x) = Some Eq.
Proof.
  unfold PrimFloat.is_nan. rewrite negb_false_iff, FloatAxioms.eqb_spec. unfold SFeqb.
  destruct (SFcompare _ _) as [[]|]; congruence.
Qed.

Lemma leb_refl x : PrimFloat.is_nan x = false -> (x <=? x)%float = true.
Proof. intros H. rewrite FloatAxioms.leb_spec. unfold SFleb. by rewrite is_nan_false. Qed.

Lemma ltb_leb x y : (x <? y)%float = true -> (x <=? y)%float = true.
Proof.
  rewrite FloatAxioms.ltb_spec, FloatAxioms.leb_spec. unfold SFltb, SFleb.
  destruct (SFcompare _ _) as [[]|]; congruence.
Qed.

Lemma not_ltb_leb x y :
  PrimFloat.is_nan x = false -> PrimFloat.is_nan y = false ->
  (x <? y)%float = false -> (y <? x)%float = false -> (x <=? y)%float = true.
Proof.
  intros Hx Hy. apply is_nan_false in Hx, Hy.
  rewrite !FloatAxioms.ltb_spec, FloatAxioms.leb_spec. unfold SFltb, SFleb.
  pose proof (SFcompare_antisym (Prim2SF x) (Prim2SF y)) as Hanti.
  pose proof (SFcompare_defined (Prim2SF x) (Prim2SF y)) as Hdef.
  destruct (SFcompare (Prim2SF x) (Prim2SF y)) as [[]|]; try congruence.
  - rewrite Hanti by done. congruence.
  - intros _ _. exfalso. apply Hdef; congruence.
Qed.

Lemma Math_min_le_right s b :
  PrimFloat.is_nan s = false -> PrimFloat.is_nan b = false ->
  (Math_min s b <=? b)%float = true.
Proof.
  intros Hs Hb. unfold Math_min. rewrite Hs, Hb. simpl.
  destruct (s <? b)%float eqn:Hsb; [by apply ltb_leb|].
  destruct (b <? s)%float eqn:Hbs; [by apply leb_refl|].
  destruct (PrimFloat.get_sign s); [by apply not_ltb_leb|by apply leb_refl].
Qed.


Lemma positive_not_nan s : (0 <? s)%float = true -> PrimFloat.is_nan s = false.
Proof.
  rewrite FloatAxioms.ltb_spec. unfold PrimFloat.is_nan. rewrite FloatAxioms.eqb_spec. unfold SFltb, SFeqb.
  change (Prim2SF 0) with (S754_zero false).
  destruct (Prim2SF s) as [sx|sx| |sx mx ex]; simpl; try destruct sx; simpl; try congruence.
  - intros _. by rewrite Z.compare_refl, Pos.compare_cont_refl.
Qed.

Lemma zero_not_nan s : (s =? 0)%float = true -> PrimFloat.is_nan s = false.
Proof.
  rewrite FloatAxioms.eqb_spec. unfold PrimFloat.is_nan. rewrite FloatAxioms.eqb_spec. unfold SFeqb.
  change (Prim2SF 0) with (S754_zero false).
  destruct (Prim2SF s) as [sx|sx| |sx mx ex]; simpl; try destruct sx; simpl; congruence.
Qed.

Lemma truthy_not_nan b : truthy b = true -> PrimFloat.is_nan b = false.
Proof.
  unfold truthy. rewrite negb_true_iff, orb_false_iff. tauto.
Qed.

(* ===================================================================== *)
(** * The log of remote calls *)
(* ===================================================================== *)

(** ** Peeling the first step of a [try] block *)

Lemma try_catch_bind {A B} (m : M A) (k : A -> M B) (h : JsError -> M B) w :
  try_catch (m ≫= k) h w =
    match m w with
    | (Return a, w1) => try_catch (k a) h w1
    | (Throw e, w1) => h e w1
    end.
Proof.
  unfold try_catch, mbind, M_bind, bind. by destruct (m w) as [[a|e] w1].
Qed.

Lemma try_catch_ret {A} (a : A) (h : JsError -> M A) w :
  try_catch (ret a) h w = (Return a, w).
Proof. reflexivity. Qed.

(** ** The log of remote calls *)

Create HintDb appends discriminated.

Lemma silent_appends {A} (m : M A) : silent m -> appends m.
Proof. intros Hs w. exists []. by rewrite app_nil_r. Qed.

Lemma silent_ret {A} (a : A) : silent (ret a).
Proof. by intros w. Qed.

Lemma silent_throw {A} e : silent (@throw A e).
Proof. by intros w. Qed.

Lemma silent_lift {A} (c : completion A) : silent (lift c).
Proof. by intros w. Qed.

Lemma silent_bind {A B} (m : M A) (k : A -> M B) :
  silent m -> (forall a, silent (k a)) -> silent (m ≫= k).
Proof.
  intros Hm Hk w. unfold mbind, M_bind, bind.
  specialize (Hm w). destruct (m w) as [[a|e] w1]; simpl in *; [|done].
  by rewrite Hk.
Qed.

Lemma silent_try_catch {A} (body : M A) (h : JsError -> M A) :
  silent body -> (forall e, silent (h e)) -> silent (try_catch body h).
Proof.
  intros Hm Hh w. unfold try_catch.
  specialize (Hm w). destruct (body w) as [[a|e] w1]; simpl in *; [done|].
  by rewrite Hh.
Qed.

Lemma appends_bind {A B} (m : M A) (k : A -> M B) :
  appends m -> (forall a, appends (k a)) -> appends (m ≫= k).
Proof.
  intros Hm Hk w. unfold mbind, M_bind, bind.
  destruct (Hm w) as [l Hl]. destruct (m w) as [[a|e] w1]; simpl in *; [|eauto].
  destruct (Hk a w1) as [l' Hl']. exists (l ++ l')%list.
  by rewrite Hl', Hl, app_assoc.
Qed.

Lemma appends_try_catch {A} (body : M A) (h : JsError -> M A) :
  appends body -> (forall e, appends (h e)) -> appends (try_catch body h).
Proof.
  intros Hm Hh w. unfold try_catch.
  destruct (Hm w) as [l Hl]. destruct (body w) as [[a|e] w1]; simpl in *; [eauto|].
  destruct (Hh e w1) as [l' Hl']. exists (l ++ l')%list.
  by rewrite Hl', Hl, app_assoc.
Qed.

Lemma silent_fs_existsSync p : silent (fs_existsSync p).
Proof. by intros w. Qed.

Lemma silent_fs_mkdirSync_recursive p : silent (fs_mkdirSync_recursive p).
Proof. intros w. unfold fs_mkdirSync_recursive. by destruct (mkdir_p _ _). Qed.

Lemma silent_fs_readFileSync p : silent (fs_readFileSync p).
Proof. by intros w. Qed.

Lemma silent_fs_writeFileSync p s : silent (fs_writeFileSync p s).
Proof. intros w. unfold fs_writeFileSync. by destruct (write_node _ _ _). Qed.

Lemma silent_fs_readdirSync p : silent (fs_readdirSync p).
Proof. by intros w. Qed.

Lemma silent_get_env : silent get_env_HELIUS_RPC_URL.
Proof. by intros w. Qed.

Lemma appends_connection_getBalance c pk : appends (connection_getBalance c pk).
Proof. intros w. by eexists. Qed.

Lemma appends_token_accounts c o m :
  appends (connection_getParsedTokenAccountsByOwner c o m).
Proof. intros w. by eexists. Qed.

Lemma appends_sdk_buy_call a m l s f : appends (sdk_buy_call a m l s f).
Proof. intros w. by eexists. Qed.

Lemma appends_sdk_sell_call a m l s f : appends (sdk_sell_call a m l s f).
Proof. intros w. by eexists. Qed.

Lemma appends_sdk_createAndBuy_call a m md l s f :
  appends (sdk_createAndBuy_call a m md l s f).
Proof. intros w. by eexists. Qed.

#[export] Hint Resolve silent_ret silent_throw silent_lift silent_fs_existsSync
  silent_fs_mkdirSync_recursive silent_fs_readFileSync silent_fs_writeFileSync
  silent_fs_readdirSync silent_get_env : appends.
#[export] Hint Resolve silent_appends appends_connection_getBalance
  appends_token_accounts appends_sdk_buy_call appends_sdk_sell_call
  appends_sdk_createAndBuy_call : appends.

(** Structural search: binds and [try] blocks are split, branches are
    taken one by one, the leaves are closed from the hint base. *)
Ltac solve_silent :=
  repeat first
    [ apply silent_bind; [|intros ?]
    | apply silent_try_catch; [|intros ?]
    | solve [eauto with appends]
    | match goal with
      | |- silent (if ?b then _ else _) => destruct b
      | |- silent (match ?x with _ => _ end) => destruct x
      end ].

Ltac solve_appends :=
  repeat first
    [ apply appends_bind; [|intros ?]
    | apply appends_try_catch; [|intros ?]
    | solve [eauto with appends]
    | match goal with
      | |- appends (if ?b then _ else _) => destruct b
      | |- appends (match ?x with _ => _ end) => destruct x
      end ].

(* ===================================================================== *)
(** * Trading: [buyToken], [createToken], [sellToken] *)
(* ===================================================================== *)

Section Trading.
Context {RT : Runtime}.

Lemma silent_Keypair_generate : silent Keypair_generate.
Proof. by intros w. Qed.

Lemma silent_getOrCreateKeypair keysFolder name :
  silent (getOrCreateKeypair keysFolder name).
Proof.
  unfold getOrCreateKeypair. pose proof silent_Keypair_generate. solve_silent.
Qed.

Lemma silent_describe_error e : silent (describe_error e).
Proof. unfold describe_error. solve_silent. Qed.

Lemma silent_mkdir_error_text e : silent (mkdir_error_text e).
Proof. unfold mkdir_error_text. solve_silent. Qed.

Lemma silent_ensure_keys_folder p : silent (ensure_keys_folder p).
Proof. unfold ensure_keys_folder. pose proof silent_mkdir_error_text. solve_silent. Qed.

Lemma silent_initializeSDK : silent initializeSDK.
Proof. unfold initializeSDK. solve_silent. Qed.

Lemma appends_getSPLBalance c m o : appends (getSPLBalance c m o).
Proof. unfold getSPLBalance. solve_appends. Qed.


#[local] Hint Resolve silent_Keypair_generate silent_getOrCreateKeypair
  silent_describe_error silent_mkdir_error_text silent_ensure_keys_folder
  silent_initializeSDK appends_getSPLBalance : appends.

(** The [catch] block of [buyToken] and [sellToken] returns a failure
    and makes no remote call. *)
Lemma catch_block_run {R} (fail : string -> R) error w :
  exists text,
    (describe_error error ≫= fun errorMessage => ret (fail errorMessage)) w
    = (Return (fail text), w).
Proof.
  destruct (describe_error_run error w) as [text Ht]. exists text.
  unfold mbind, M_bind, bind. by rewrite Ht.
Qed.

Lemma connection_getBalance_run c pk w :
  connection_getBalance c pk w =
    (rpc_getBalance (remote w) (events w) c pk,
     log_event w (EvGetBalance c pk (rpc_getBalance (remote w) (events w) c pk))).
Proof. reflexivity. Qed.

Lemma no_new_event (l : list Event) ev rest : l = (l ++ ev :: rest)%list -> False.
Proof.
  intros H. apply (f_equal length) in H. rewrite length_app in H. simpl in H. lia.
Qed.

Lemma lift_run {A} (c : completion A) w : lift c w = (c, w).
Proof. reflexivity. Qed.

Lemma sdk_sell_call_run a m t s f w :
  sdk_sell_call a m t s f w =
    (sdk_sell (remote w) (events w) a m t s f,
     log_event w (EvSdkSell a m t s f (sdk_sell (remote w) (events w) a m t s f))).
Proof. reflexivity. Qed.

Lemma amountToSell_le s b :
  ((s =? 0)%float = true \/ (0 <? s)%float = true) ->
  truthy b = true ->
  (amountToSell s b <=? b)%float = true.
Proof.
  intros Hs Hb. apply truthy_not_nan in Hb. unfold amountToSell.
  destruct (s =? 0)%float eqn:Hz; [by apply leb_refl|].
  destruct Hs as [?|Hpos]; [done|].
  apply Math_min_le_right; [by apply positive_not_nan|done].
Qed.

Lemma nothing_to_sell_truthy b :
  nothing_to_sell (Some b) = false -> truthy b = true.
Proof.
  unfold nothing_to_sell. rewrite orb_false_iff, negb_false_iff. tauto.
Qed.

(** ** No public operation throws *)

Lemma try_catch_total {A} (body : M A) (h : JsError -> M A) :
  (forall e, total (h e)) -> total (try_catch body h).
Proof.
  intros Hh w. unfold try_catch.
  destruct (body w) as [[a|e] w1]; [eauto|apply Hh].
Qed.

Lemma catch_block_total {R} (fail : string -> R) e :
  total (describe_error e ≫= fun errorMessage => ret (fail errorMessage)).
Proof. intros w. destruct (catch_block_run fail e w) as [text ->]. eauto. Qed.

Lemma buyToken_total a b c d : total (buyToken a b c d).
Proof. apply try_catch_total. intros e. apply catch_block_total. Qed.

Lemma sellToken_total a b c d : total (sellToken a b c d).
Proof. apply try_catch_total. intros e. apply catch_block_total. Qed.

Lemma createToken_total a b c d e f : total (createToken a b c d e f).
Proof. apply try_catch_total. intros e' w. unfold ret. eauto. Qed.

Lemma getSPLBalance_total c mint owner : total (getSPLBalance c mint owner).
Proof. intros w. rewrite getSPLBalance_run. eauto. Qed.

(** C9, as amended: [getSPLBalance], [listAccounts], [buyToken],
    [sellToken] and [createToken] never throw; [getOrCreateKeypair] does
    throw to its caller (here: what decoding a corrupt key file throws),
    and an error it throws comes out of [buyToken], [sellToken] and
    [createToken] as a failure result. *)
Theorem failures_become_results :
  (forall c mint owner, total (getSPLBalance c mint owner))
  /\ total listAccounts
  /\ (forall tokenAddress buyAmount accountName slippageBasisPoints,
        total (buyToken tokenAddress buyAmount accountName slippageBasisPoints))
  /\ (forall tokenAddress sellAmount accountName slippageBasisPoints,
        total (sellToken tokenAddress sellAmount accountName slippageBasisPoints))
  /\ (forall name symbol description imageUrl initialBuyAmount accountName,
        total (createToken name symbol description imageUrl initialBuyAmount
                 accountName))
  /\ (forall accountName w connection w1 error w2,
        initializeSDK w = (Return connection, w) ->
        ensure_keys_folder keys_folder w = (Return None, w1) ->
        getOrCreateKeypair keys_folder accountName w1 = (Throw error, w2) ->
        (forall tokenAddress buyAmount slippageBasisPoints,
           exists text,
             buyToken tokenAddress buyAmount accountName slippageBasisPoints w
             = (Return (BuyFailure text), w2))
        /\ (forall tokenAddress sellAmount slippageBasisPoints,
              exists text,
                sellToken tokenAddress sellAmount accountName slippageBasisPoints w
                = (Return (SellFailure text), w2)))
  /\ (forall accountName w connection error w2,
        initializeSDK w = (Return connection, w) ->
        getOrCreateKeypair keys_folder accountName w = (Throw error, w2) ->
        forall name symbol description imageUrl initialBuyAmount,
          exists text,
            createToken name symbol description imageUrl initialBuyAmount
              accountName w
            = (Return (CreateFailure (ErrString text)), w2))
  /\ (forall keysFolder name w text error,
        is_Some (lookup_node (fs w) keysFolder) ->
        lookup_node (fs w) (keypairPath keysFolder name) = Some (File text) ->
        CorruptKeyFile text error ->
        getOrCreateKeypair keysFolder name w = (Throw error, w)).
Proof.
  split; [exact getSPLBalance_total|].
  split; [exact listAccounts_total|].
  split; [exact buyToken_total|].
  split; [exact sellToken_total|].
  split; [exact createToken_total|].
  split; [|split].
  - intros accountName w connection w1 error w2 Hinit Hfolder Hkey. split.
    + intros tokenAddress buyAmount slippageBasisPoints. unfold buyToken.
      rewrite try_catch_bind, Hinit, try_catch_bind, Hfolder, try_catch_bind, Hkey.
      destruct (catch_block_run BuyFailure error w2) as [text Ht]. eauto.
    + intros tokenAddress sellAmount slippageBasisPoints. unfold sellToken.
      rewrite try_catch_bind, Hinit, try_catch_bind, Hfolder, try_catch_bind, Hkey.
      destruct (catch_block_run SellFailure error w2) as [text Ht]. eauto.
  - intros accountName w connection error w2 Hinit Hkey
      name symbol description imageUrl initialBuyAmount.
    unfold createToken. rewrite try_catch_bind, Hinit, try_catch_bind, Hkey.
    unfold ret. eauto.
  - intros keysFolder name w text error Hex Hfile Hbad.
    rewrite getOrCreateKeypair_folder_exists by done.
    rewrite Hfile. by rewrite Hbad.
Qed.

End Trading.

(* ===================================================================== *)
(** * The small runtime satisfies the laws *)
(* ===================================================================== *)

Lemma append_assoc (a b c : string) : (a +:+ b) +:+ c = a +:+ (b +:+ c).
Proof.
  induction a as [|x a IH]; [done|]. rewrite !append_cons. by rewrite IH.
Qed.

Lemma append_nil_r (a : string) : a +:+ "" = a.
Proof. induction a as [|x a IH]; [done|]. rewrite append_cons. by rewrite IH. Qed.

Lemma ref_parse_digits (ds : string) : forall cur rest,
  all_digits ds = true ->
  ref_parse_elems cur (ds +:+ rest) = ref_parse_elems (cur +:+ ds) rest.
Proof.
  induction ds as [|c ds IH]; intros cur rest Hd.
  - by rewrite append_nil_l, append_nil_r.
  - simpl in Hd. apply andb_true_iff in Hd as [Hc Hds].
    rewrite append_cons. simpl. rewrite Hc. rewrite IH by done.
    by rewrite append_assoc.
Qed.

Lemma decimal_of_byte_digits b :
  all_digits (decimal_of_byte b) = true
  /\ ref_number_of_digits (decimal_of_byte b) = Return (Byte.to_N b).
Proof. destruct b; split; vm_compute; reflexivity. Qed.

Lemma ref_parse_elems_bytes (b : Byte.byte) (bs : bytes) :
  ref_parse_elems "" (join_comma (map decimal_of_byte (b :: bs)) +:+ "]")
  = Return (map Byte.to_N (b :: bs)).
Proof.
  revert b. induction bs as [|b' bs IH]; intros b;
    destruct (decimal_of_byte_digits b) as [Hd Hn].
  - simpl. rewrite ref_parse_digits by done. rewrite append_nil_l.
    simpl. by rewrite Hn.
  - change (join_comma (map decimal_of_byte (b :: b' :: bs)))
      with (decimal_of_byte b +:+ "," +:+ join_comma (map decimal_of_byte (b' :: bs))).
    rewrite !append_assoc. rewrite ref_parse_digits by done. rewrite append_nil_l.
    rewrite append_cons, append_nil_l.
    cbn [ref_parse_elems]. change (is_digit ",") with false. cbv iota.
    change (Ascii.eqb "," ",") with true. cbv iota.
    rewrite Hn, IH. done.
Qed.

Lemma ref_JSON_roundtrip (bs : bytes) :
  ref_JSON_parse (JSON_stringify_bytes bs) = Return (map Byte.to_N bs).
Proof.
  unfold JSON_stringify_bytes. destruct bs as [|b bs]; [reflexivity|].
  rewrite append_cons, append_nil_l.
  pose proof (ref_parse_elems_bytes b bs) as Hp.
  destruct (decimal_of_byte_digits b) as [Hd _].
  set (body := join_comma (map decimal_of_byte (b :: bs)) +:+ "]") in *.
  assert (exists c rest, body = String c rest /\ is_digit c = true) as (c & rest & Hb & Hc).
  { subst body.
    assert (exists tail, join_comma (map decimal_of_byte (b :: bs))
                         = decimal_of_byte b +:+ tail) as [tail ->].
    { destruct bs; [exists ""; by rewrite append_nil_r|eexists; reflexivity]. }
    destruct (decimal_of_byte b) as [|c ds] eqn:Hdb.
    - destruct b; vm_compute in Hdb; discriminate.
    - simpl in Hd. apply andb_true_iff in Hd as [Hc _].
      rewrite !append_cons; eauto. }
  rewrite Hb in *. unfold ref_JSON_parse.
  destruct c as [[] [] [] [] [] [] [] []]; try exact Hp; vm_compute in Hc; discriminate.
Qed.

Lemma ref_byte_of_to_N b : ref_byte_of_N (Byte.to_N b) = b.
Proof. by destruct b. Qed.

Lemma length_ref_seed32 seed : length (ref_seed32 seed) = 32.
Proof.
  unfold ref_seed32. rewrite length_take, length_app, repeat_length. lia.
Qed.

#[global] Instance ref_runtime_laws : RuntimeLaws ref_runtime.
Proof.
  split.
  - intros bs. exists (map Byte.to_N bs). split; [apply ref_JSON_roundtrip|].
    simpl. unfold ref_Uint8Array_from. f_equal.
    rewrite map_map. rewrite <- (map_id bs) at 2.
    apply map_ext. intros b. apply ref_byte_of_to_N.
  - intros seed. simpl. unfold ref_Keypair_fromEntropy, ref_Keypair_fromSecretKey.
    simpl. set (s := ref_seed32 seed).
    assert (length s = 32) as Hs by apply length_ref_seed32.
    rewrite length_app. unfold ref_public_of_seed. rewrite length_rev, Hs. simpl.
    rewrite take_app_length' by done. rewrite drop_app_length' by done.
    rewrite bool_decide_eq_true_2 by done. eauto.
Qed.

(* ===================================================================== *)
(** * What a computation leaves alone *)
(* ===================================================================== *)

Lemma preserves_bind {A B X} (f : World -> X) (m : M A) (k : A -> M B) :
  preserves f m -> (forall a, preserves f (k a)) -> preserves f (m ≫= k).
Proof.
  intros Hm Hk w. unfold mbind, M_bind, bind.
  specialize (Hm w). destruct (m w) as [[a|e] w1]; simpl in *; [|done].
  by rewrite Hk.
Qed.

Lemma preserves_try_catch {A X} (f : World -> X) (body : M A) (h : JsError -> M A) :
  preserves f body -> (forall e, preserves f (h e)) -> preserves f (try_catch body h).
Proof.
  intros Hm Hh w. unfold try_catch.
  specialize (Hm w). destruct (body w) as [[a|e] w1]; simpl in *; [done|].
  by rewrite Hh.
Qed.

Lemma preserves_drawn_mkdirSync p : preserves drawn (fs_mkdirSync_recursive p).
Proof. intros w. unfold fs_mkdirSync_recursive. by destruct (mkdir_p _ _). Qed.

Lemma preserves_drawn_writeFileSync p s : preserves drawn (fs_writeFileSync p s).
Proof. intros w. unfold fs_writeFileSync. by destruct (write_node _ _ _). Qed.

Create HintDb preserves discriminated.

#[export] Hint Resolve preserves_drawn_mkdirSync preserves_drawn_writeFileSync
  : preserves.

(** Binds and [try] blocks are split and branches taken one by one; a
    leaf that does not touch the projection is closed by computation. *)
Ltac solve_preserves :=
  repeat first
    [ apply preserves_bind; [|intros ?]
    | apply preserves_try_catch; [|intros ?]
    | solve [eauto with preserves]
    | solve [intros ?; reflexivity]
    | match goal with
      | |- preserves _ (if ?b then _ else _) => destruct b
      | |- preserves _ (match ?x with _ => _ end) => destruct x
      end ].

Lemma preserves_mapM {A B X} (f : World -> X) (g : A -> M B) (l : list A) :
  (forall x, preserves f (g x)) -> preserves f (mapM g l).
Proof.
  intros Hg. induction l as [|x l IH]; simpl; [by intros w|].
  pose proof (Hg x). solve_preserves.
Qed.

(** ** Computations that see the files only *)

Lemma local_ret {A} (a : A) : local (ret a).
Proof. by intros w1 w2 Hfs. Qed.

Lemma local_throw {A} e : local (@throw A e).
Proof. by intros w1 w2 Hfs. Qed.

Lemma local_lift {A} (c : completion A) : local (lift c).
Proof. by intros w1 w2 Hfs. Qed.

Lemma local_bind {A B} (m : M A) (k : A -> M B) :
  local m -> (forall a, local (k a)) -> local (m ≫= k).
Proof.
  intros Hm Hk w1 w2 Hfs. unfold mbind, M_bind, bind.
  destruct (Hm w1 w2 Hfs) as [Hr Hfs'].
  destruct (m w1) as [[a1|e1] w1'], (m w2) as [[a2|e2] w2']; simpl in *;
    try discriminate.
  - inversion Hr; subst. by apply Hk.
  - inversion Hr; subst. by split.
Qed.

Lemma local_try_catch {A} (body : M A) (h : JsError -> M A) :
  local body -> (forall e, local (h e)) -> local (try_catch body h).
Proof.
  intros Hm Hh w1 w2 Hfs. unfold try_catch.
  destruct (Hm w1 w2 Hfs) as [Hr Hfs'].
  destruct (body w1) as [[a1|e1] w1'], (body w2) as [[a2|e2] w2']; simpl in *;
    try discriminate.
  - by split.
  - inversion Hr; subst. by apply Hh.
Qed.

Lemma local_fs_existsSync p : local (fs_existsSync p).
Proof. intros w1 w2 Hfs. unfold fs_existsSync. simpl. by rewrite Hfs. Qed.

Lemma local_fs_readFileSync p : local (fs_readFileSync p).
Proof. intros w1 w2 Hfs. unfold fs_readFileSync. simpl. by rewrite Hfs. Qed.

Lemma local_fs_readdirSync p : local (fs_readdirSync p).
Proof. intros w1 w2 Hfs. unfold fs_readdirSync. simpl. by rewrite Hfs. Qed.

Lemma local_fs_mkdirSync_recursive p : local (fs_mkdirSync_recursive p).
Proof.
  intros w1 w2 Hfs. unfold fs_mkdirSync_recursive. rewrite Hfs.
  by destruct (mkdir_p (fs w2) p).
Qed.

Create HintDb local discriminated.

#[export] Hint Resolve local_ret local_throw local_lift local_fs_existsSync
  local_fs_readFileSync local_fs_readdirSync local_fs_mkdirSync_recursive
  : local.

Ltac solve_local :=
  repeat first
    [ apply local_bind; [|intros ?]
    | apply local_try_catch; [|intros ?]
    | solve [eauto with local]
    | match goal with
      | |- local (if ?b then _ else _) => destruct b
      | |- local (match ?x with _ => _ end) => destruct x
      end ].

Lemma local_mapM {A B} (f : A -> M B) (l : list A) :
  (forall x, local (f x)) -> local (mapM f l).
Proof.
  intros Hf. induction l as [|x l IH]; simpl; [apply local_ret|].
  pose proof (Hf x). solve_local.
Qed.

(** ** Counting the calls to the trading SDK *)

Lemma trades_silent {A} kind n (m : M A) : silent m -> trades kind n m.
Proof.
  intros Hs w. exists []. rewrite app_nil_r.
  split; [apply Hs|]. split; [simpl; lia|constructor].
Qed.

Lemma trades_bind {A B} kind a b (m : M A) (k : A -> M B) :
  trades kind a m -> (forall x, trades kind b (k x)) ->
  trades kind (a + b) (m ≫= k).
Proof.
  intros Hm Hk w. unfold mbind, M_bind, bind.
  destruct (Hm w) as (l & Hl & Hn & Hall).
  destruct (m w) as [[x|e] w1]; simpl in *.
  - destruct (Hk x w1) as (l' & Hl' & Hn' & Hall').
    exists (l ++ l'). rewrite Hl', Hl, app_assoc. split; [done|].
    rewrite List.filter_app, length_app. split; [lia|].
    by apply Forall_app.
  - exists l. split; [done|]. split; [lia|done].
Qed.

Lemma trades_bind_0 {A B} kind n (m : M A) (k : A -> M B) :
  trades kind 0 m -> (forall x, trades kind n (k x)) -> trades kind n (m ≫= k).
Proof. apply (trades_bind kind 0 n). Qed.

Lemma trades_bind_n {A B} kind n (m : M A) (k : A -> M B) :
  trades kind n m -> (forall x, trades kind 0 (k x)) -> trades kind n (m ≫= k).
Proof. intros Hm Hk. rewrite <- (Nat.add_0_r n). by apply trades_bind. Qed.

Lemma trades_try_catch {A} kind n (body : M A) (h : JsError -> M A) :
  trades kind n body -> (forall e, trades kind 0 (h e)) ->
  trades kind n (try_catch body h).
Proof.
  intros Hm Hh w. unfold try_catch.
  destruct (Hm w) as (l & Hl & Hn & Hall).
  destruct (body w) as [[x|e] w1]; simpl in *; [eauto|].
  destruct (Hh e w1) as (l' & Hl' & Hn' & Hall').
  exists (l ++ l'). rewrite Hl', Hl, app_assoc. split; [done|].
  rewrite List.filter_app, length_app. split; [lia|].
  by apply Forall_app.
Qed.

Lemma trades_connection_getBalance kind n c pk :
  trades kind n (connection_getBalance c pk).
Proof.
  intros w. eexists [_]. split; [reflexivity|]. simpl.
  split; [lia|]. by repeat constructor.
Qed.

Lemma trades_token_accounts kind n c o m :
  trades kind n (connection_getParsedTokenAccountsByOwner c o m).
Proof.
  intros w. eexists [_]. split; [reflexivity|]. simpl.
  split; [lia|]. by repeat constructor.
Qed.

Lemma trades_sdk_buy_call a m l s f : trades is_sdk_buy 1 (sdk_buy_call a m l s f).
Proof.
  intros w. eexists [_]. split; [reflexivity|]. simpl.
  split; [lia|]. by repeat constructor.
Qed.

Lemma trades_sdk_sell_call a m l s f : trades is_sdk_sell 1 (sdk_sell_call a m l s f).
Proof.
  intros w. eexists [_]. split; [reflexivity|]. simpl.
  split; [lia|]. by repeat constructor.
Qed.

Lemma trades_sdk_createAndBuy_call a m md l s f :
  trades is_sdk_createAndBuy 1 (sdk_createAndBuy_call a m md l s f).
Proof.
  intros w. eexists [_]. split; [reflexivity|]. simpl.
  split; [lia|]. by repeat constructor.
Qed.

Lemma no_sdk_call (l : list Event) :
  length (List.filter is_sdk_call l) <= 0 ->
  Forall (fun ev => is_sdk_call ev = false) l.
Proof.
  induction l as [|ev l IH]; simpl; [constructor|].
  destruct (is_sdk_call ev) eqn:Hev; simpl; [lia|].
  intros Hl. constructor; auto.
Qed.

Lemma no_calls (l calls : list Event) : l = l ++ calls -> calls = [].
Proof.
  intros H. apply (f_equal length) in H. rewrite length_app in H.
  destruct calls; [done|simpl in H; lia].
Qed.

Create HintDb trades discriminated.

#[export] Hint Resolve trades_connection_getBalance trades_token_accounts
  trades_sdk_buy_call trades_sdk_sell_call trades_sdk_createAndBuy_call : trades.

#[export] Hint Resolve silent_Keypair_generate silent_getOrCreateKeypair
  silent_describe_error silent_mkdir_error_text silent_ensure_keys_folder
  silent_initializeSDK appends_getSPLBalance : appends.

(** A leaf is a remote call, or a computation that makes none. *)
Ltac trades_leaf :=
  first [ solve [eauto with trades]
        | solve [apply trades_silent; solve_silent] ].

(** The budget of SDK calls is spent by the first step that needs it. *)
Ltac solve_trades :=
  repeat first
    [ trades_leaf
    | apply trades_bind_0; [trades_leaf|intros ?]
    | apply trades_bind_n; [trades_leaf|intros ?]
    | apply trades_bind_0; [|intros ?]
    | apply trades_try_catch; [|intros ?]
    | match goal with
      | |- trades _ _ (if ?b then _ else _) => destruct b
      | |- trades _ _ (match ?x with _ => _ end) => destruct x
      end ].

(** ** Stepping through a run *)

Lemma sdk_buy_call_run a m l s f w :
  sdk_buy_call a m l s f w =
    (sdk_buy (remote w) (events w) a m l s f,
     log_event w (EvSdkBuy a m l s f (sdk_buy (remote w) (events w) a m l s f))).
Proof. reflexivity. Qed.

Lemma sdk_createAndBuy_call_run a m md l s f w :
  sdk_createAndBuy_call a m md l s f w =
    (sdk_createAndBuy (remote w) (events w) a m md l s f,
     log_event w (EvSdkCreateAndBuy a m md l s f
                    (sdk_createAndBuy (remote w) (events w) a m md l s f))).
Proof. reflexivity. Qed.

(** The run of a step that makes no remote call. *)
Ltac run_silent H lem Heq :=
  let Hs := fresh "Hs" in
  match type of H with
  | context [match ?m ?w with _ => _ end] =>
      pose proof (lem w) as Hs;
      let c := fresh "c" in let w1 := fresh "w" in
      destruct (m w) as [c w1] eqn:Heq; simpl in Hs; cbv beta in H
  end.

(** The run of a remote call or of a library call: the call is replaced
    by its answer. *)
Ltac run_remote H :=
  rewrite try_catch_bind in H;
  rewrite ?connection_getBalance_run, ?getSPLBalance_run, ?sdk_buy_call_run,
    ?sdk_sell_call_run, ?sdk_createAndBuy_call_run, ?lift_run in H;
  cbv beta iota in H.

(** The run of the [catch] block of [buyToken] and [sellToken]. *)
Ltac run_catch H :=
  match type of H with
  | (describe_error ?e ≫= fun m => ret (?fail m)) ?w = _ =>
      let text := fresh "text" in let Ht := fresh "Ht" in
      destruct (catch_block_run fail e w) as [text Ht];
      rewrite Ht in H; clear Ht
  end.

(** The end of a run: the calls it made are read off the final log, and
    the call looked for is searched among them. *)
Ltac close_run Hrun Hev Hin :=
  rewrite ?try_catch_ret in Hrun; unfold ret in Hrun;
  inversion Hrun; subst; clear Hrun;
  simpl in Hev; rewrite <- ?app_assoc in Hev; apply app_inv_head in Hev; subst;
  simpl in Hin; repeat (destruct Hin as [Hin|Hin]; [try discriminate|]); try done.

(** A run that ends in a failure is not a run that ends in a success. *)
Ltac not_a_success H :=
  try run_catch H; rewrite ?try_catch_ret in H; unfold ret in H;
  discriminate H.

(* ===================================================================== *)
(** * More on the file system and on names *)
(* ===================================================================== *)


(** A directory made by [mkdir -p] where there was nothing is empty. *)
Lemma mkdir_p_fresh (p : path) : forall n n',
  lookup_node n p = None -> mkdir_p n p = Return n' ->
  lookup_node n' p = Some (Dir ∅).
Proof.
  induction p as [|c p IH]; intros n n' Hl Hm; [discriminate|].
  destruct n as [text|es]; simpl in Hm; [discriminate|].
  destruct (mkdir_p (default (Dir ∅) (es !! c)) p) as [n1|e1] eqn:Hm1;
    [|discriminate].
  inversion Hm; subst. simpl in *. rewrite lookup_insert_eq.
  destruct (es !! c) as [n0|] eqn:Hc; simpl in Hm1; [by eapply IH|].
  destruct p as [|d p]; [by inversion Hm1|].
  eapply IH; [|exact Hm1]. simpl. by rewrite lookup_empty.
Qed.

Lemma split_slash_no_slash (s : string) : forall cur,
  no_slash s = true -> split_slash cur s = [cur +:+ s].
Proof.
  induction s as [|c s IH]; intros cur Hs; simpl in *.
  - by rewrite append_nil_r.
  - apply andb_true_iff in Hs as [Hc Hs]. apply negb_true_iff in Hc.
    rewrite Hc, IH by done. by rewrite append_assoc.
Qed.

Lemma no_slash_append (a b : string) :
  no_slash (a +:+ b) = no_slash a && no_slash b.
Proof.
  induction a as [|c a IH]; [done|]. rewrite append_cons. simpl.
  by rewrite IH, andb_assoc.
Qed.

Lemma split_slash_parent (s : string) :
  no_slash s = true -> split_slash "" ("../" +:+ s) = [".."; s].
Proof.
  intros Hs. rewrite !append_cons, append_nil_l. cbn [split_slash].
  change (Ascii.eqb "." "/") with false. change (Ascii.eqb "/" "/") with true.
  cbv iota. rewrite !append_nil_l. rewrite split_slash_no_slash by done.
  by rewrite append_nil_l.
Qed.

(** [path.join(dir, `${name}.json`)] is the child [name.json] of [dir]. *)
Lemma keypairPath_child (dir : path) (name : string) :
  no_slash name = true -> keypairPath dir name = dir ++ [name +:+ ".json"].
Proof.
  intros Hname. unfold keypairPath, path_join.
  rewrite split_slash_no_slash by (by rewrite no_slash_append, Hname).
  rewrite append_nil_l. simpl. unfold path_step.
  assert (5 <= String.length (name +:+ ".json")) as Hlen
    by (rewrite length_append; simpl; lia).
  destruct (name +:+ ".json") as [|c1 [|c2 [|c3 [|c4 [|c5 s]]]]] eqn:Hs;
    simpl in Hlen; try lia.
  destruct (String.eqb_spec (String c1 (String c2 (String c3 (String c4 (String c5 s))))) "")
    as [|_]; [discriminate|].
  destruct (String.eqb_spec (String c1 (String c2 (String c3 (String c4 (String c5 s))))) ".")
    as [|_]; [discriminate|].
  destruct (String.eqb_spec (String c1 (String c2 (String c3 (String c4 (String c5 s))))) "..")
    as [|_]; [discriminate|].
  done.
Qed.

Lemma startsWith_mint_json (name : string) :
  startsWith (name +:+ ".json") "mint-" = startsWith name "mint-".
Proof.
  unfold startsWith.
  destruct name as [|c1 [|c2 [|c3 [|c4 [|c5 s]]]]];
    rewrite ?append_cons, ?append_nil_l; cbn [String.prefix];
    repeat match goal with
           | |- context [ascii_dec ?a ?b] =>
               destruct (ascii_dec a b); try discriminate; cbn [String.prefix]
           end; try reflexivity; by destruct s.
Qed.

Lemma prefix_json_append (s : string) :
  s <> "" -> String.prefix ".json" (s +:+ ".json") = String.prefix ".json" s.
Proof.
  intros Hs.
  destruct s as [|c1 [|c2 [|c3 [|c4 [|c5 s]]]]]; [done|..];
    rewrite ?append_cons, ?append_nil_l; cbn [String.prefix];
    repeat match goal with
           | |- context [ascii_dec ?a ?b] =>
               destruct (ascii_dec a b); try discriminate; cbn [String.prefix]
           end; try reflexivity; by destruct s.
Qed.

(** The name [listAccounts] shows for the file of an account. *)
Lemma replace_first_json (name : string) :
  occurs ".json" name = false ->
  replace_first ".json" "" (name +:+ ".json") = name.
Proof.
  induction name as [|c name IH]; intros Hocc; [reflexivity|].
  cbn [occurs] in Hocc. apply orb_false_iff in Hocc as [Hhere Hlater].
  rewrite append_cons. cbn [replace_first].
  rewrite <- append_cons, prefix_json_append, Hhere by done.
  by rewrite IH.
Qed.

Lemma is_account_file_of_name (name : string) :
  startsWith name "mint-" = false -> is_account_file (name +:+ ".json") = true.
Proof.
  intros Hmint. unfold is_account_file. rewrite startsWith_mint_json, Hmint.
  simpl. apply endsWith_spec. by exists name.
Qed.

Lemma truthy_string_nonempty (s : string) : s <> "" -> truthy_string s = true.
Proof. intros Hs. unfold truthy_string. by apply negb_true_iff, String.eqb_neq. Qed.

Lemma startsWith_append (p rest : string) : startsWith (p +:+ rest) p = true.
Proof. apply startsWith_spec. by exists rest. Qed.

(** A number that passes [z.number().min(0)] is [0], [-0] or positive. *)
Lemma sellAmount_schema_cases s :
  sellAmount_schema s = true -> (s =? 0)%float = true \/ (0 <? s)%float = true.
Proof.
  unfold sellAmount_schema.
  rewrite FloatAxioms.leb_spec, FloatAxioms.eqb_spec, FloatAxioms.ltb_spec.
  unfold SFleb, SFeqb, SFltb. change (Prim2SF 0) with (S754_zero false).
  destruct (Prim2SF s) as [sx|sx| |sx mx ex]; simpl; try destruct sx; simpl;
    auto; discriminate.
Qed.

(* ===================================================================== *)
(** * The balance report: [getAccountBalance] *)
(* ===================================================================== *)

Section Report.
Context {RT : Runtime} {PR : Printing}.

Lemma trades_getSPLBalance kind n c m o : trades kind n (getSPLBalance c m o).
Proof.
  intros w. rewrite getSPLBalance_run. eexists [_]. split; [reflexivity|]. simpl.
  split; [lia|]. by repeat constructor.
Qed.

#[local] Hint Resolve trades_getSPLBalance : trades.

Lemma initializeSDK_world w c w' : initializeSDK w = (c, w') -> w' = w.
Proof.
  unfold initializeSDK, get_env_HELIUS_RPC_URL. unfold_M.
  destruct (env_HELIUS_RPC_URL w) as [url|]; [|congruence].
  destruct (truthy_string url); congruence.
Qed.

Lemma getAccountBalance_total a t : total (getAccountBalance a t).
Proof. apply try_catch_total. intros e w. unfold ret. eauto. Qed.

Lemma getAccountBalance_keeps_fs a t : preserves fs (getAccountBalance a t).
Proof.
  unfold getAccountBalance, initializeSDK, getSPLBalance. solve_preserves.
Qed.

Lemma getAccountBalance_keeps_drawn a t : preserves drawn (getAccountBalance a t).
Proof.
  unfold getAccountBalance, initializeSDK, getSPLBalance. solve_preserves.
Qed.

Lemma trades_getAccountBalance kind a t : trades kind 0 (getAccountBalance a t).
Proof. unfold getAccountBalance. solve_trades. Qed.

(** X1: [getAccountBalance] never throws and only reads: it returns a
    text, leaves every file as it is, draws no key, and the remote calls
    it makes are queries, none of them a call to the trading SDK. *)
Theorem getAccountBalance_read_only accountName tokenAddress w :
  exists text w' calls,
    getAccountBalance accountName tokenAddress w = (Return text, w')
    /\ fs w' = fs w
    /\ drawn w' = drawn w
    /\ events w' = events w ++ calls
    /\ Forall (fun ev => is_sdk_call ev = false) calls.
Proof.
  destruct (getAccountBalance_total accountName tokenAddress w) as (text & w' & Hrun).
  pose proof (getAccountBalance_keeps_fs accountName tokenAddress w) as Hfs.
  pose proof (getAccountBalance_keeps_drawn accountName tokenAddress w) as Hdrawn.
  destruct (trades_getAccountBalance (fun _ => false) accountName tokenAddress w)
    as (calls & Hcalls & Hnone & _).
  rewrite Hrun in Hfs, Hdrawn, Hcalls. simpl in *.
  exists text, w', calls. repeat split; auto using no_sdk_call.
Qed.

(** X2: for an account with no key file, [getAccountBalance] answers
    that the account file was not found; it creates no key, writes no
    file and makes no remote call. *)
Theorem getAccountBalance_missing_account accountName tokenAddress w connection :
  initializeSDK w = (Return connection, w) ->
  lookup_node (fs w) (keypairPath keys_folder accountName) = None ->
  getAccountBalance accountName tokenAddress w
  = (Return ("Error getting account balance: Account file not found for "
             +:+ accountName), w).
Proof.
  intros Hinit Hmissing. unfold getAccountBalance.
  rewrite try_catch_bind, Hinit.
  unfold keypairPath in Hmissing. unfold_M.
  rewrite bool_decide_eq_false_2 by (rewrite Hmissing; intros [? ?]; done).
  reflexivity.
Qed.


(** X4: without an RPC endpoint in the environment ([HELIUS_RPC_URL]
    unset or empty), [buyToken], [sellToken], [createToken] and
    [getAccountBalance] fail with the message of [initializeSDK] and
    leave the world as it is: no folder is created, no key is drawn and
    no remote call is made. *)
Theorem commands_need_rpc_url w :
  env_HELIUS_RPC_URL w = None \/ env_HELIUS_RPC_URL w = Some "" ->
  let text := "HELIUS_RPC_URL environment variable is not set" in
  (forall tokenAddress buyAmount accountName slippageBasisPoints,
     buyToken tokenAddress buyAmount accountName slippageBasisPoints w
     = (Return (BuyFailure text), w))
  /\ (forall tokenAddress sellAmount accountName slippageBasisPoints,
        sellToken tokenAddress sellAmount accountName slippageBasisPoints w
        = (Return (SellFailure text), w))
  /\ (forall name symbol description imageUrl initialBuyAmount accountName,
        createToken name symbol description imageUrl initialBuyAmount accountName w
        = (Return (CreateFailure (ErrString text)), w))
  /\ (forall accountName tokenAddress,
        getAccountBalance accountName tokenAddress w
        = (Return ("Error getting account balance: " +:+ text), w)).
Proof.
  intros Henv text.
  assert (initializeSDK w = (Throw (mkError "Error" text), w)) as Hinit.
  { unfold initializeSDK, get_env_HELIUS_RPC_URL. unfold_M.
    destruct Henv as [-> | ->]; reflexivity. }
  repeat split; intros.
  - unfold buyToken. rewrite try_catch_bind, Hinit. reflexivity.
  - unfold sellToken. rewrite try_catch_bind, Hinit. reflexivity.
  - unfold createToken. rewrite try_catch_bind, Hinit. reflexivity.
  - unfold getAccountBalance. rewrite try_catch_bind, Hinit. reflexivity.
Qed.

End Report.

(* ===================================================================== *)
(** * More on [listAccounts] *)
(* ===================================================================== *)

Section Local.
Context {RT : Runtime}.

Lemma silent_listAccounts : silent listAccounts.
Proof.
  unfold listAccounts.
  assert (forall keysFolder l, silent (mapM (account_entry keysFolder) l)) as Hmap.
  { intros keysFolder l. induction l as [|x l IH]; simpl; [apply silent_ret|].
    unfold account_entry. solve_silent. }
  solve_silent.
Qed.

Lemma local_listAccounts : local listAccounts.
Proof.
  unfold listAccounts.
  assert (forall keysFolder l, local (mapM (account_entry keysFolder) l)) as Hmap.
  { intros keysFolder l. apply local_mapM. intros x. unfold account_entry.
    solve_local. }
  unfold mkdir_error_text, describe_error. solve_local.
Qed.

Lemma listAccounts_keeps_drawn : preserves drawn listAccounts.
Proof.
  unfold listAccounts.
  assert (forall keysFolder l, preserves drawn (mapM (account_entry keysFolder) l))
    as Hmap.
  { intros keysFolder l. apply preserves_mapM. intros x. unfold account_entry.
    solve_preserves. }
  unfold mkdir_error_text, describe_error. solve_preserves.
Qed.

(** X5: [listAccounts] is local.  Its result and what it does to the
    files depend on the files alone, not on the environment, the random
    generator or the remote side; it makes no remote call and draws no
    key. *)
Theorem listAccounts_is_local w1 w2 :
  fs w1 = fs w2 ->
  fst (listAccounts w1) = fst (listAccounts w2)
  /\ fs (snd (listAccounts w1)) = fs (snd (listAccounts w2))
  /\ events (snd (listAccounts w1)) = events w1
  /\ drawn (snd (listAccounts w1)) = drawn w1.
Proof.
  intros Hfs. destruct (local_listAccounts w1 w2 Hfs) as [Hr Hfs'].
  split; [done|]. split; [done|].
  split; [apply silent_listAccounts|apply listAccounts_keeps_drawn].
Qed.



Lemma listAccounts_keys_is_file w text :
  lookup_node (fs w) keys_folder = Some (File text) ->
  listAccounts w
  = (Return (mkListAccountsResult false None (Some (err_message ENOTDIR)) []), w).
Proof.
  intros Hfile. unfold listAccounts. unfold_M.
  rewrite bool_decide_eq_true_2 by (rewrite Hfile; done). simpl.
  unfold readdir_node. by rewrite Hfile.
Qed.

(** X7: [listAccounts] settles after one call.  Whatever the first call
    finds and does (it may create the keys folder), a second call
    changes nothing and returns the same success flag and the same
    accounts. *)
Theorem listAccounts_twice w :
  exists first second w1,
    listAccounts w = (Return first, w1)
    /\ listAccounts w1 = (Return second, w1)
    /\ la_success second = la_success first
    /\ la_accounts second = la_accounts first.
Proof.
  destruct (lookup_node (fs w) keys_folder) as [[text|es]|] eqn:Hl.
  - pose proof (listAccounts_keys_is_file w text Hl) as Hrun.
    eexists _, _, _. split; [exact Hrun|]. split; [exact Hrun|]. done.
  - destruct (listAccounts_directory w es Hl) as [message Hrun].
    eexists _, _, _. split; [exact Hrun|]. split; [exact Hrun|]. done.
  - destruct (mkdir_p (fs w) keys_folder) as [n|e] eqn:Hmk.
    + assert (lookup_node (fs (set_fs w n)) keys_folder = Some (Dir ∅)) as Hdir
        by (simpl; by eapply mkdir_p_fresh).
      destruct (listAccounts_directory (set_fs w n) ∅ Hdir) as [message Hrun].
      rewrite map_to_list_empty in Hrun. simpl in Hrun.
      eexists _, _, (set_fs w n). split; [|split; [exact Hrun|]].
      * unfold listAccounts. unfold_M.
        rewrite bool_decide_eq_false_2 by (rewrite Hl; intros [? ?]; done).
        simpl. rewrite Hmk. reflexivity.
      * done.
    + destruct (listAccounts_folder_not_created w e Hl Hmk) as [text Hrun].
      eexists _, _, _. split; [exact Hrun|]. split; [exact Hrun|]. done.
Qed.

End Local.

(* ===================================================================== *)
(** * Stored accounts *)
(* ===================================================================== *)

Section Stored.
Context {RT : Runtime} {PR : Printing}.

(** After a call that returns, the key file is there and decodes to the
    public key returned. *)
Lemma getOrCreateKeypair_stores `{!RuntimeLaws RT} keysFolder name w k w1 :
  getOrCreateKeypair keysFolder name w = (Return k, w1) ->
  is_Some (lookup_node (fs w1) keysFolder)
  /\ exists text k2,
       lookup_node (fs w1) (keypairPath keysFolder name) = Some (File text)
       /\ decode_keypair text = Return k2
       /\ publicKey k2 = publicKey k.
Proof.
  assert (forall w0,
            is_Some (lookup_node (fs w0) keysFolder) ->
            getOrCreateKeypair keysFolder name w0 = (Return k, w1) ->
            is_Some (lookup_node (fs w1) keysFolder)
            /\ exists text k2,
                 lookup_node (fs w1) (keypairPath keysFolder name) = Some (File text)
                 /\ decode_keypair text = Return k2
                 /\ publicKey k2 = publicKey k) as Hexists.
  { intros w0 Hex Hrun. rewrite getOrCreateKeypair_folder_exists in Hrun by done.
    destruct (lookup_node (fs w0) (keypairPath keysFolder name)) as [[text|es]|] eqn:Hl.
    - inversion Hrun; subst. eauto 6.
    - discriminate.
    - simpl in Hrun. destruct (write_node _ _ _) as [n|e] eqn:Hw; [|discriminate].
      inversion Hrun; subst; clear Hrun. simpl.
      split; [eapply write_node_exists; eauto|].
      destruct (JSON_roundtrip_bytes
                  (secretKey (Keypair_fromEntropy (random w0 (drawn w0)))))
        as (v & Hparse & Hu8).
      destruct (generated_key_valid (random w0 (drawn w0))) as (k2 & Hk & Hpk).
      eexists _, k2. split; [eapply write_node_lookup; eauto|]. split; [|done].
      unfold decode_keypair. rewrite Hparse. simpl. rewrite Hu8. simpl. by rewrite Hk. }
  intros Hrun.
  destruct (decide (is_Some (lookup_node (fs w) keysFolder))) as [Hex|Hex];
    [by eapply Hexists|].
  rewrite getOrCreateKeypair_folder_missing in Hrun by done.
  destruct (mkdir_p (fs w) keysFolder) as [n|e] eqn:Hm; [|discriminate].
  eapply Hexists; [|exact Hrun].
  simpl. destruct (mkdir_p_lookup _ _ _ Hm) as [es ->]. done.
Qed.

(** The key file decides what [getOrCreateKeypair] returns. *)
Lemma getOrCreateKeypair_of_file keysFolder name w text :
  is_Some (lookup_node (fs w) keysFolder) ->
  lookup_node (fs w) (keypairPath keysFolder name) = Some (File text) ->
  getOrCreateKeypair keysFolder name w = (decode_keypair text, w).
Proof.
  intros Hex Hfile. rewrite getOrCreateKeypair_folder_exists by done.
  by rewrite Hfile.
Qed.

(** [getOrCreateKeypair] draws one key or none. *)
Lemma getOrCreateKeypair_drawn keysFolder name w :
  drawn w <= drawn (snd (getOrCreateKeypair keysFolder name w)).
Proof.
  assert (forall w0, is_Some (lookup_node (fs w0) keysFolder) ->
                     drawn w0 <= drawn (snd (getOrCreateKeypair keysFolder name w0)))
    as Hexists.
  { intros w0 Hex. rewrite getOrCreateKeypair_folder_exists by done.
    destruct (lookup_node (fs w0) (keypairPath keysFolder name)) as [[text|es]|];
      simpl; try lia.
    destruct (write_node _ _ _); simpl; lia. }
  destruct (decide (is_Some (lookup_node (fs w) keysFolder))) as [Hex|Hex];
    [by apply Hexists|].
  rewrite getOrCreateKeypair_folder_missing by done.
  destruct (mkdir_p (fs w) keysFolder) as [n|e] eqn:Hm; [|simpl; lia].
  apply (Hexists (set_fs w n)).
  simpl. destruct (mkdir_p_lookup _ _ _ Hm) as [es ->]. done.
Qed.

(** X8: an account that [getOrCreateKeypair] returned is the account
    [getAccountBalance] reports on: with the RPC endpoint configured and
    the balance query answered, the report names the public key
    returned and the balance queried for it. *)
Theorem stored_account_is_reported `{!RuntimeLaws RT} accountName w k w1
    connection solBalance :
  getOrCreateKeypair keys_folder accountName w = (Return k, w1) ->
  initializeSDK w1 = (Return connection, w1) ->
  rpc_getBalance (remote w1) (events w1) connection (publicKey k)
  = Return solBalance ->
  getAccountBalance accountName None w1
  = (Return (join_lines
               ["Account: " +:+ accountName +:+ " ("
                  +:+ PublicKey_toString (publicKey k) +:+ ")";
                "SOL Balance: "
                  +:+ Number_toString (solBalance / LAMPORTS_PER_SOL)%float
                  +:+ " SOL"]),
     log_event w1 (EvGetBalance connection (publicKey k) (Return solBalance))).
Proof.
  intros Hrun Hinit Hbalance.
  destruct (getOrCreateKeypair_stores _ _ _ _ _ Hrun)
    as (_ & text & k2 & Hfile & Hdecode & Hpk).
  rewrite <- Hpk in *.
  unfold keypairPath in Hfile. unfold decode_keypair in Hdecode.
  destruct (JSON_parse text) as [v|] eqn:Hparse; [|discriminate]. simpl in Hdecode.
  destruct (Uint8Array_from v) as [u8|] eqn:Hu8; [|discriminate]. simpl in Hdecode.
  unfold getAccountBalance, connection_getBalance. unfold_M.
  rewrite Hinit.
  rewrite bool_decide_eq_true_2 by (rewrite Hfile; done). simpl.
  unfold read_node. by rewrite Hfile, Hparse, Hu8, Hdecode, Hbalance.
Qed.

(** X9: an account that [getOrCreateKeypair] returned for the keys
    folder is listed by [listAccounts] under its name and with its
    public key, when the name has no ["/"], does not start with
    ["mint-"] and does not contain [".json"]. *)
Theorem created_account_is_listed `{!RuntimeLaws RT} name w k w1 :
  no_slash name = true ->
  startsWith name "mint-" = false ->
  occurs ".json" name = false ->
  getOrCreateKeypair keys_folder name w = (Return k, w1) ->
  exists result,
    listAccounts w1 = (Return result, w1)
    /\ la_success result = true
    /\ In (mkAccountEntry name (PublicKey_toString (publicKey k)))
         (la_accounts result).
Proof.
  intros Hslash Hmint Hocc Hrun.
  destruct (getOrCreateKeypair_stores _ _ _ _ _ Hrun)
    as (_ & text & k2 & Hfile & Hdecode & Hpk).
  rewrite keypairPath_child in Hfile by done.
  pose proof Hfile as Hchild. rewrite lookup_node_app in Hchild.
  destruct (lookup_node (fs w1) keys_folder) as [[?|es]|] eqn:Hdir;
    try discriminate.
  simpl in Hchild.
  destruct (es !! (name +:+ ".json")) as [n|] eqn:Hes; [|discriminate].
  inversion Hchild; subst n; clear Hchild.
  destruct (listAccounts_directory w1 es Hdir) as [message Hlist].
  eexists. split; [exact Hlist|]. split; [reflexivity|]. simpl.
  assert (account_entry_of (fs w1) keys_folder (name +:+ ".json")
          = mkAccountEntry name (PublicKey_toString (publicKey k))) as <-.
  { unfold account_entry_of, read_keypair, read_node.
    rewrite replace_first_json by done.
    change (path_join keys_folder (name +:+ ".json"))
      with (keypairPath keys_folder name).
    rewrite keypairPath_child by done.
    rewrite Hfile. simpl. rewrite Hdecode. by rewrite Hpk. }
  apply in_map, filter_In. split; [|by apply is_account_file_of_name].
  apply list_elem_of_In, list_elem_of_fmap.
  exists (name +:+ ".json", File text). split; [done|].
  by apply elem_of_map_to_list.
Qed.

(** [path.join(keysFolder, "../x.json")] is [x.json] beside the keys
    folder. *)
Lemma keypairPath_parent (name : string) :
  no_slash name = true ->
  keypairPath keys_folder ("../" +:+ name) = rootDir ++ [name +:+ ".json"].
Proof.
  intros Hname.
  pose proof (keypairPath_child rootDir name Hname) as Hchild.
  unfold keypairPath, path_join in *.
  rewrite append_assoc.
  rewrite split_slash_parent by (by rewrite no_slash_append, Hname).
  rewrite split_slash_no_slash in Hchild by (by rewrite no_slash_append, Hname).
  rewrite append_nil_l in Hchild. simpl in *.
  rewrite keys_folder_eq. unfold path_step at 2. simpl.
  by rewrite removelast_last.
Qed.

(** X10: the account name is joined to the keys folder as it is.  For
    the name ["../x"] the key file that [getOrCreateKeypair] reads or
    writes is [x.json] in the installation directory, outside the keys
    folder. *)
Theorem account_name_can_leave_keys_folder `{!RuntimeLaws RT} name w k w1 :
  no_slash name = true ->
  getOrCreateKeypair keys_folder ("../" +:+ name) w = (Return k, w1) ->
  exists text k2,
    lookup_node (fs w1) (rootDir ++ [name +:+ ".json"]) = Some (File text)
    /\ decode_keypair text = Return k2
    /\ publicKey k2 = publicKey k.
Proof.
  intros Hname Hrun.
  destruct (getOrCreateKeypair_stores _ _ _ _ _ Hrun)
    as (_ & text & k2 & Hfile & Hdecode & Hpk).
  rewrite keypairPath_parent in Hfile by done. eauto.
Qed.

Lemma buyToken_insufficient_world `{!RuntimeLaws RT}
    tokenAddress buyAmount accountName slippageBasisPoints w r w'
    c pk balance rest :
  buyToken tokenAddress buyAmount accountName slippageBasisPoints w = (r, w') ->
  events w' = events w ++ EvGetBalance c pk (Return balance) :: rest ->
  (balance <? requiredBalance buyAmount BUY_FEE_RESERVE)%float = true ->
  exists k,
    getOrCreateKeypair keys_folder accountName w' = (Return k, w')
    /\ publicKey k = pk.
Proof.
  intros Hrun Hev Hlt. unfold buyToken in Hrun.
  rewrite try_catch_bind in Hrun.
  run_silent Hrun silent_initializeSDK Hinit.
  destruct c0 as [connection|e].
  2:{ run_catch Hrun. inversion Hrun; subst.
      rewrite Hs in Hev. by apply no_new_event in Hev. }
  rewrite try_catch_bind in Hrun.
  run_silent Hrun (silent_ensure_keys_folder keys_folder) Hfolder.
  destruct c0 as [[text|]|e].
  { rewrite try_catch_ret in Hrun. inversion Hrun; subst.
    rewrite Hs0, Hs in Hev. by apply no_new_event in Hev. }
  2:{ run_catch Hrun. inversion Hrun; subst.
      rewrite Hs0, Hs in Hev. by apply no_new_event in Hev. }
  rewrite try_catch_bind in Hrun.
  run_silent Hrun (silent_getOrCreateKeypair keys_folder accountName) Hkey.
  destruct c0 as [account|e].
  2:{ run_catch Hrun. inversion Hrun; subst.
      rewrite Hs1, Hs0, Hs in Hev. by apply no_new_event in Hev. }
  rewrite try_catch_bind, connection_getBalance_run in Hrun.
  assert (events w2 = events w) as Hw2 by congruence.
  destruct (getOrCreateKeypair_stores _ _ _ _ _ Hkey)
    as (Hex & text & k2 & Hfile & Hdecode & Hpk).
  destruct (rpc_getBalance _ _ _ _) as [b|e] eqn:Hb.
  2:{ run_catch Hrun. inversion Hrun; subst. simpl in Hev.
      rewrite Hw2 in Hev. apply app_inv_head in Hev. discriminate. }
  destruct (b <? requiredBalance buyAmount BUY_FEE_RESERVE)%float eqn:Hcmp.
  - rewrite try_catch_ret in Hrun. inversion Hrun; subst. simpl in Hev.
    rewrite Hw2 in Hev. apply app_inv_head in Hev. inversion Hev; subst.
    exists k2. split; [|done].
    rewrite (getOrCreateKeypair_of_file _ _ _ text) by done. by rewrite Hdecode.
  - match type of Hrun with
    | try_catch ?tail ?h ?w3 = _ =>
        assert (appends (try_catch tail h)) as Happ by solve_appends;
        destruct (Happ w3) as [l Hl]
    end.
    rewrite Hrun in Hl. simpl in Hl. rewrite Hw2, <- app_assoc in Hl.
    rewrite Hl in Hev. apply app_inv_head in Hev. simpl in Hev.
    inversion Hev; subst. congruence.
Qed.

Lemma createToken_insufficient_world `{!RuntimeLaws RT}
    name symbol description imageUrl initialBuyAmount accountName w r w'
    c pk balance rest :
  createToken name symbol description imageUrl initialBuyAmount accountName w
    = (r, w') ->
  events w' = events w ++ EvGetBalance c pk (Return balance) :: rest ->
  (balance <? requiredBalance initialBuyAmount CREATE_FEE_RESERVE)%float = true ->
  exists k,
    getOrCreateKeypair keys_folder accountName w' = (Return k, w')
    /\ publicKey k = pk.
Proof.
  intros Hrun Hev Hlt. unfold createToken in Hrun.
  rewrite try_catch_bind in Hrun.
  run_silent Hrun silent_initializeSDK Hinit.
  destruct c0 as [connection|e].
  2:{ unfold ret in Hrun. inversion Hrun; subst.
      rewrite Hs in Hev. by apply no_new_event in Hev. }
  rewrite try_catch_bind in Hrun.
  run_silent Hrun (silent_getOrCreateKeypair keys_folder accountName) Hkey.
  destruct c0 as [account|e].
  2:{ unfold ret in Hrun. inversion Hrun; subst.
      rewrite Hs0, Hs in Hev. by apply no_new_event in Hev. }
  rewrite try_catch_bind, connection_getBalance_run in Hrun.
  assert (events w1 = events w) as Hw1 by congruence.
  destruct (getOrCreateKeypair_stores _ _ _ _ _ Hkey)
    as (Hex & text & k2 & Hfile & Hdecode & Hpk).
  destruct (rpc_getBalance _ _ _ _) as [b|e] eqn:Hb.
  2:{ unfold ret in Hrun. inversion Hrun; subst. simpl in Hev.
      rewrite Hw1 in Hev. apply app_inv_head in Hev. discriminate. }
  destruct (b <? requiredBalance initialBuyAmount CREATE_FEE_RESERVE)%float eqn:Hcmp.
  - rewrite try_catch_ret in Hrun. inversion Hrun; subst. simpl in Hev.
    rewrite Hw1 in Hev. apply app_inv_head in Hev. inversion Hev; subst.
    exists k2. split; [|done].
    rewrite (getOrCreateKeypair_of_file _ _ _ text) by done. by rewrite Hdecode.
  - match type of Hrun with
    | try_catch ?tail ?h ?w3 = _ =>
        assert (appends (try_catch tail h)) as Happ by solve_appends;
        destruct (Happ w3) as [l Hl]
    end.
    rewrite Hrun in Hl. simpl in Hl. rewrite Hw1, <- app_assoc in Hl.
    rewrite Hl in Hev. apply app_inv_head in Hev. simpl in Hev.
    inversion Hev; subst. congruence.
Qed.

(** X11: the address to fund is stable.  After a run of [buyToken] or
    of [createToken] that stopped on an insufficient balance, the
    account whose balance was queried is stored: [getOrCreateKeypair]
    for the same name returns a key pair with the public key queried,
    and changes nothing. *)
Theorem funding_address_is_stable `{!RuntimeLaws RT} :
  (forall tokenAddress buyAmount accountName slippageBasisPoints w r w'
          c pk balance rest,
     buyToken tokenAddress buyAmount accountName slippageBasisPoints w = (r, w') ->
     events w' = events w ++ EvGetBalance c pk (Return balance) :: rest ->
     (balance <? requiredBalance buyAmount BUY_FEE_RESERVE)%float = true ->
     exists k,
       getOrCreateKeypair keys_folder accountName w' = (Return k, w')
       /\ publicKey k = pk)
  /\ (forall name symbol description imageUrl initialBuyAmount accountName
             w r w' c pk balance rest,
        createToken name symbol description imageUrl initialBuyAmount
          accountName w = (r, w') ->
        events w' = events w ++ EvGetBalance c pk (Return balance) :: rest ->
        (balance <? requiredBalance initialBuyAmount CREATE_FEE_RESERVE)%float
        = true ->
        exists k,
          getOrCreateKeypair keys_folder accountName w' = (Return k, w')
          /\ publicKey k = pk).
Proof.
  split; intros.
  - by eapply buyToken_insufficient_world.
  - by eapply createToken_insufficient_world.
Qed.

Lemma ensure_keys_folder_exists keysFolder w :
  is_Some (lookup_node (fs w) keysFolder) ->
  ensure_keys_folder keysFolder w = (Return None, w).
Proof.
  intros Hex. unfold ensure_keys_folder. unfold_M.
  by rewrite (bool_decide_eq_true_2 _ Hex).
Qed.

Lemma buyToken_keeps_files tokenAddress buyAmount accountName slippageBasisPoints
    w text :
  is_Some (lookup_node (fs w) keys_folder) ->
  lookup_node (fs w) (keypairPath keys_folder accountName) = Some (File text) ->
  fs (snd (buyToken tokenAddress buyAmount accountName slippageBasisPoints w)) = fs w
  /\ drawn (snd (buyToken tokenAddress buyAmount accountName slippageBasisPoints w))
     = drawn w.
Proof.
  intros Hex Hfile. unfold buyToken. rewrite try_catch_bind.
  destruct (initializeSDK w) as [[connection|e] w0] eqn:Hinit;
    apply initializeSDK_world in Hinit; subst w0.
  2:{ destruct (catch_block_run BuyFailure e w) as [msg ->]. done. }
  rewrite try_catch_bind, ensure_keys_folder_exists by done.
  rewrite try_catch_bind, (getOrCreateKeypair_of_file _ _ _ text) by done.
  destruct (decode_keypair text) as [account|e].
  2:{ destruct (catch_block_run BuyFailure e w) as [msg ->]. done. }
  match goal with
  | |- context [try_catch ?tail ?h w] =>
      assert (preserves fs (try_catch tail h)) as Hfs
        by (unfold getSPLBalance, describe_error; solve_preserves);
      assert (preserves drawn (try_catch tail h)) as Hdrawn
        by (unfold getSPLBalance, describe_error; solve_preserves)
  end.
  split; [apply Hfs|apply Hdrawn].
Qed.

Lemma sellToken_keeps_files tokenAddress sellAmount accountName slippageBasisPoints
    w text :
  is_Some (lookup_node (fs w) keys_folder) ->
  lookup_node (fs w) (keypairPath keys_folder accountName) = Some (File text) ->
  fs (snd (sellToken tokenAddress sellAmount accountName slippageBasisPoints w)) = fs w
  /\ drawn (snd (sellToken tokenAddress sellAmount accountName slippageBasisPoints w))
     = drawn w.
Proof.
  intros Hex Hfile. unfold sellToken. rewrite try_catch_bind.
  destruct (initializeSDK w) as [[connection|e] w0] eqn:Hinit;
    apply initializeSDK_world in Hinit; subst w0.
  2:{ destruct (catch_block_run SellFailure e w) as [msg ->]. done. }
  rewrite try_catch_bind, ensure_keys_folder_exists by done.
  rewrite try_catch_bind, (getOrCreateKeypair_of_file _ _ _ text) by done.
  destruct (decode_keypair text) as [account|e].
  2:{ destruct (catch_block_run SellFailure e w) as [msg ->]. done. }
  match goal with
  | |- context [try_catch ?tail ?h w] =>
      assert (preserves fs (try_catch tail h)) as Hfs
        by (unfold getSPLBalance, describe_error; solve_preserves);
      assert (preserves drawn (try_catch tail h)) as Hdrawn
        by (unfold getSPLBalance, describe_error; solve_preserves)
  end.
  split; [apply Hfs|apply Hdrawn].
Qed.

(** X12: trading with an account that has its key file touches no
    file: after [buyToken] and after [sellToken], whatever they return,
    every file is as it was and no key was drawn. *)
Theorem trading_keeps_the_files accountName w text :
  is_Some (lookup_node (fs w) keys_folder) ->
  lookup_node (fs w) (keypairPath keys_folder accountName) = Some (File text) ->
  (forall tokenAddress buyAmount slippageBasisPoints,
     fs (snd (buyToken tokenAddress buyAmount accountName slippageBasisPoints w))
     = fs w
     /\ drawn (snd (buyToken tokenAddress buyAmount accountName
                      slippageBasisPoints w))
        = drawn w)
  /\ (forall tokenAddress sellAmount slippageBasisPoints,
        fs (snd (sellToken tokenAddress sellAmount accountName
                   slippageBasisPoints w))
        = fs w
        /\ drawn (snd (sellToken tokenAddress sellAmount accountName
                         slippageBasisPoints w))
           = drawn w).
Proof.
  intros Hex Hfile. split; intros.
  - by eapply buyToken_keeps_files.
  - by eapply sellToken_keeps_files.
Qed.

End Stored.

(* ===================================================================== *)
(** * What reaches the trading SDK *)
(* ===================================================================== *)

Section Calls.
Context {RT : Runtime} {PR : Printing}.

#[local] Hint Resolve trades_getSPLBalance : trades.

Lemma trades_buyToken a b c d : trades is_sdk_buy 1 (buyToken a b c d).
Proof. unfold buyToken. solve_trades. Qed.

Lemma trades_sellToken a b c d : trades is_sdk_sell 1 (sellToken a b c d).
Proof. unfold sellToken. solve_trades. Qed.

Lemma trades_createToken a b c d e f :
  trades is_sdk_createAndBuy 1 (createToken a b c d e f).
Proof. unfold createToken. solve_trades. Qed.

(** X13: one command, one trade at most.  A run of [buyToken] makes at
    most one call to the trading SDK, and it is a call of [sdk.buy]; a
    run of [sellToken] at most one, a call of [sdk.sell]; a run of
    [createToken] at most one, a call of [sdk.createAndBuy]; a run of
    [listAccounts] or of [getAccountBalance] makes none. *)
Theorem one_trade_per_command :
  (forall tokenAddress buyAmount accountName slippageBasisPoints,
     trades is_sdk_buy 1
       (buyToken tokenAddress buyAmount accountName slippageBasisPoints))
  /\ (forall tokenAddress sellAmount accountName slippageBasisPoints,
        trades is_sdk_sell 1
          (sellToken tokenAddress sellAmount accountName slippageBasisPoints))
  /\ (forall name symbol description imageUrl initialBuyAmount accountName,
        trades is_sdk_createAndBuy 1
          (createToken name symbol description imageUrl initialBuyAmount
             accountName))
  /\ trades (fun _ => false) 0 listAccounts
  /\ (forall accountName tokenAddress,
        trades (fun _ => false) 0 (getAccountBalance accountName tokenAddress)).
Proof.
  split; [exact trades_buyToken|].
  split; [exact trades_sellToken|].
  split; [exact trades_createToken|].
  split; [apply trades_silent, silent_listAccounts|].
  intros. apply trades_getAccountBalance.
Qed.

Lemma buyToken_sdk_call_arguments
    tokenAddress buyAmount accountName slippageBasisPoints w r w' calls
    buyer mint lamports slippage fees answer :
  buyToken tokenAddress buyAmount accountName slippageBasisPoints w = (r, w') ->
  events w' = events w ++ calls ->
  In (EvSdkBuy buyer mint lamports slippage fees answer) calls ->
  PublicKey_new tokenAddress = Return mint
  /\ BigInt (buyAmount * LAMPORTS_PER_SOL)%float = Return lamports
  /\ BigInt slippageBasisPoints = Return slippage
  /\ fees = DEFAULT_PRIORITY_FEES
  /\ exists c balance rest,
       calls = EvGetBalance c (publicKey buyer) (Return balance) :: rest
       /\ (balance <? requiredBalance buyAmount BUY_FEE_RESERVE)%float = false.
Proof.
  intros Hrun Hev Hin. unfold buyToken in Hrun.
  rewrite try_catch_bind in Hrun.
  run_silent Hrun silent_initializeSDK Hinit.
  destruct c as [connection|e].
  2:{ run_catch Hrun. inversion Hrun; subst.
      rewrite Hs in Hev. apply no_calls in Hev. by subst. }
  rewrite try_catch_bind in Hrun.
  run_silent Hrun (silent_ensure_keys_folder keys_folder) Hfolder.
  destruct c as [[text|]|e].
  { rewrite try_catch_ret in Hrun. inversion Hrun; subst.
    rewrite Hs0, Hs in Hev. apply no_calls in Hev. by subst. }
  2:{ run_catch Hrun. inversion Hrun; subst.
      rewrite Hs0, Hs in Hev. apply no_calls in Hev. by subst. }
  rewrite try_catch_bind in Hrun.
  run_silent Hrun (silent_getOrCreateKeypair keys_folder accountName) Hkey.
  destruct c as [account|e].
  2:{ run_catch Hrun. inversion Hrun; subst.
      rewrite Hs1, Hs0, Hs in Hev. apply no_calls in Hev. by subst. }
  assert (events w2 = events w) as Hw2 by congruence.
  clear Hs Hs0 Hs1 Hinit Hfolder Hkey.
  rewrite <- Hw2 in Hev. clear Hw2. clear w w0 w1.
  run_remote Hrun.
  destruct (rpc_getBalance _ _ _ _) as [balance|e].
  2:{ run_catch Hrun. by close_run Hrun Hev Hin. }
  destruct (balance <? requiredBalance buyAmount BUY_FEE_RESERVE)%float
    eqn:Hguard; [by close_run Hrun Hev Hin|].
  run_remote Hrun.
  destruct (PublicKey_new tokenAddress) as [mintPublicKey|e].
  2:{ run_catch Hrun. by close_run Hrun Hev Hin. }
  run_remote Hrun. run_remote Hrun.
  destruct (BigInt (buyAmount * LAMPORTS_PER_SOL)%float) as [lamports'|e].
  2:{ run_catch Hrun. by close_run Hrun Hev Hin. }
  run_remote Hrun.
  destruct (BigInt slippageBasisPoints) as [slippage'|e].
  2:{ run_catch Hrun. by close_run Hrun Hev Hin. }
  run_remote Hrun.
  destruct (sdk_buy _ _ _ _ _ _ _) as [result|e].
  2:{ run_catch Hrun. close_run Hrun Hev Hin. inversion Hin; subst.
      repeat split; auto. eauto. }
  destruct (tx_success result); cbv beta iota in Hrun; simpl negb in Hrun;
    cbv iota in Hrun.
  - run_remote Hrun. close_run Hrun Hev Hin. inversion Hin; subst.
    repeat split; auto. eauto.
  - run_remote Hrun.
    destruct (sdk_error_text (tx_error result)) as [text'|e].
    + close_run Hrun Hev Hin. inversion Hin; subst.
      repeat split; auto. eauto.
    + run_catch Hrun. close_run Hrun Hev Hin. inversion Hin; subst.
      repeat split; auto. eauto.
Qed.

(** X14: what [buyToken] hands to [sdk.buy].  Every call of [sdk.buy]
    in a run carries the public key made of the token address, the
    amount [BigInt(buyAmount * LAMPORTS_PER_SOL)], the slippage
    [BigInt(slippageBasisPoints)] and the default priority fees; and the
    run began with a query of the balance of the buyer, whose answer was
    not below the required balance. *)
Theorem buyToken_sdk_call
    tokenAddress buyAmount accountName slippageBasisPoints w r w' calls
    buyer mint lamports slippage fees answer :
  buyToken tokenAddress buyAmount accountName slippageBasisPoints w = (r, w') ->
  events w' = events w ++ calls ->
  In (EvSdkBuy buyer mint lamports slippage fees answer) calls ->
  PublicKey_new tokenAddress = Return mint
  /\ BigInt (buyAmount * LAMPORTS_PER_SOL)%float = Return lamports
  /\ BigInt slippageBasisPoints = Return slippage
  /\ fees = DEFAULT_PRIORITY_FEES
  /\ exists c balance rest,
       calls = EvGetBalance c (publicKey buyer) (Return balance) :: rest
       /\ (balance <? requiredBalance buyAmount BUY_FEE_RESERVE)%float = false.
Proof. apply buyToken_sdk_call_arguments. Qed.

(** Reading the image file of [createToken] changes nothing. *)
Lemma image_step (imageUrl : option string) w :
  exists c,
    match imageUrl with
    | Some url =>
        if truthy_string url then
          imageData ← fs_readFileSync (path_of_string url);
          ret (Some imageData)
        else ret None
    | None => ret None
    end w = (c, w)
    /\ (imageUrl = None \/ imageUrl = Some "" -> c = Return None).
Proof.
  destruct imageUrl as [url|]; [|eexists; split; [reflexivity|done]].
  destruct (truthy_string url) eqn:Hurl.
  - unfold_M. destruct (read_node _ _); eexists; (split; [reflexivity|]).
    all: intros [?|[= ->]]; discriminate.
  - eexists; split; [reflexivity|done].
Qed.

(** X15: what [createToken] hands to [sdk.createAndBuy].  Every call
    carries the amount [BigInt(initialBuyAmount * LAMPORTS_PER_SOL)], a
    slippage of 100 basis points and the default priority fees, the
    name, symbol and description given (and no file when no image is
    given), and as mint the key drawn last in the run; and the run
    began with a query of the balance of the creator, whose answer was
    not below the required balance. *)
Theorem createToken_sdk_call
    name symbol description imageUrl initialBuyAmount accountName w r w' calls
    creator mint md lamports slippage fees answer :
  createToken name symbol description imageUrl initialBuyAmount accountName w
    = (r, w') ->
  events w' = events w ++ calls ->
  In (EvSdkCreateAndBuy creator mint md lamports slippage fees answer) calls ->
  BigInt (initialBuyAmount * LAMPORTS_PER_SOL)%float = Return lamports
  /\ slippage = DEFAULT_SLIPPAGE_BASIS_POINTS
  /\ fees = DEFAULT_PRIORITY_FEES
  /\ mint = Keypair_fromEntropy (random w' (drawn w' - 1))
  /\ drawn w < drawn w'
  /\ md_name md = name /\ md_symbol md = symbol
  /\ md_description md = description
  /\ (imageUrl = None \/ imageUrl = Some "" -> md_file md = None)
  /\ exists c balance rest,
       calls = EvGetBalance c (publicKey creator) (Return balance) :: rest
       /\ (balance <? requiredBalance initialBuyAmount CREATE_FEE_RESERVE)%float
          = false.
Proof.
  intros Hrun Hev Hin. unfold createToken in Hrun.
  rewrite try_catch_bind in Hrun.
  run_silent Hrun silent_initializeSDK Hinit.
  destruct c as [connection|e].
  2:{ unfold ret in Hrun. inversion Hrun; subst.
      rewrite Hs in Hev. apply no_calls in Hev. by subst. }
  rewrite try_catch_bind in Hrun.
  run_silent Hrun (silent_getOrCreateKeypair keys_folder accountName) Hkey.
  destruct c as [account|e].
  2:{ unfold ret in Hrun. inversion Hrun; subst.
      rewrite Hs0, Hs in Hev. apply no_calls in Hev. by subst. }
  assert (events w1 = events w) as Hw1 by congruence.
  assert (drawn w <= drawn w1) as Hdrawn.
  { apply initializeSDK_world in Hinit. subst w0.
    pose proof (getOrCreateKeypair_drawn keys_folder accountName w) as Hd.
    by rewrite Hkey in Hd. }
  clear Hs Hs0 Hinit Hkey.
  rewrite <- Hw1 in Hev. clear Hw1.
  run_remote Hrun.
  destruct (rpc_getBalance _ _ _ _) as [balance|e]; [|by close_run Hrun Hev Hin].
  destruct (balance <? requiredBalance initialBuyAmount CREATE_FEE_RESERVE)%float
    eqn:Hguard; [by close_run Hrun Hev Hin|].
  rewrite try_catch_bind in Hrun. unfold Keypair_generate in Hrun.
  cbv beta iota in Hrun. rewrite try_catch_bind in Hrun.
  match type of Hrun with
  | context [match ?m ?w2 with _ => _ end] =>
      destruct (image_step imageUrl w2) as (file & Hfile & Hnone)
  end.
  rewrite Hfile in Hrun. clear Hfile.
  destruct file as [fileBlob|e]; [|by close_run Hrun Hev Hin].
  run_remote Hrun.
  destruct (BigInt (initialBuyAmount * LAMPORTS_PER_SOL)%float) as [lamports'|e];
    [|by close_run Hrun Hev Hin].
  run_remote Hrun.
  destruct (sdk_createAndBuy _ _ _ _ _ _ _ _) as [result|e].
  2:{ close_run Hrun Hev Hin. inversion Hin; subst. simpl.
      rewrite Nat.sub_0_r. repeat split; auto; try lia.
      - intros Himage. specialize (Hnone Himage). congruence.
      - eauto. }
  destruct (tx_success result); cbv beta iota in Hrun; simpl negb in Hrun;
    cbv iota in Hrun.
  - rewrite try_catch_bind in Hrun. unfold fs_writeFileSync in Hrun.
    cbv beta iota in Hrun.
    destruct (write_node _ _ _) as [n|e].
    + run_remote Hrun. close_run Hrun Hev Hin. inversion Hin; subst. simpl.
      rewrite Nat.sub_0_r. repeat split; auto; try lia.
      * intros Himage. specialize (Hnone Himage). congruence.
      * eauto.
    + close_run Hrun Hev Hin. inversion Hin; subst. simpl.
      rewrite Nat.sub_0_r. repeat split; auto; try lia.
      * intros Himage. specialize (Hnone Himage). congruence.
      * eauto.
  - close_run Hrun Hev Hin. inversion Hin; subst. simpl.
    rewrite Nat.sub_0_r. repeat split; auto; try lia.
    + intros Himage. specialize (Hnone Himage). congruence.
    + eauto.
Qed.

(** X16: what [sellToken] hands to [sdk.sell].  Every call of
    [sdk.sell] in a run carries the public key made of the token
    address, the slippage [BigInt(slippageBasisPoints)], the default
    priority fees and the amount [BigInt(amountToSell * 10^6)]; and the
    run began with the token account query of the seller, which
    resolved to a balance that is something to sell, followed by the
    query of the seller's balance in SOL. *)
Theorem sellToken_sdk_call
    tokenAddress sellAmount accountName slippageBasisPoints w r w' calls
    seller mint tokens slippage fees answer :
  sellToken tokenAddress sellAmount accountName slippageBasisPoints w = (r, w') ->
  events w' = events w ++ calls ->
  In (EvSdkSell seller mint tokens slippage fees answer) calls ->
  PublicKey_new tokenAddress = Return mint
  /\ BigInt slippageBasisPoints = Return slippage
  /\ fees = DEFAULT_PRIORITY_FEES
  /\ exists c accounts balance solBalance rest,
       calls = EvTokenAccounts c (publicKey seller) mint accounts
               :: EvGetBalance c (publicKey seller) (Return solBalance) :: rest
       /\ resolved_balance accounts = Some balance
       /\ nothing_to_sell (Some balance) = false
       /\ BigInt (amountToSell sellAmount balance * Math_pow_10_6)%float
          = Return tokens.
Proof.
  intros Hrun Hev Hin. unfold sellToken in Hrun.
  rewrite try_catch_bind in Hrun.
  run_silent Hrun silent_initializeSDK Hinit.
  destruct c as [connection|e].
  2:{ run_catch Hrun. inversion Hrun; subst.
      rewrite Hs in Hev. apply no_calls in Hev. by subst. }
  rewrite try_catch_bind in Hrun.
  run_silent Hrun (silent_ensure_keys_folder keys_folder) Hfolder.
  destruct c as [[text|]|e].
  { rewrite try_catch_ret in Hrun. inversion Hrun; subst.
    rewrite Hs0, Hs in Hev. apply no_calls in Hev. by subst. }
  2:{ run_catch Hrun. inversion Hrun; subst.
      rewrite Hs0, Hs in Hev. apply no_calls in Hev. by subst. }
  rewrite try_catch_bind in Hrun.
  run_silent Hrun (silent_getOrCreateKeypair keys_folder accountName) Hkey.
  destruct c as [account|e].
  2:{ run_catch Hrun. inversion Hrun; subst.
      rewrite Hs1, Hs0, Hs in Hev. apply no_calls in Hev. by subst. }
  assert (events w2 = events w) as Hw2 by congruence.
  clear Hs Hs0 Hs1 Hinit Hfolder Hkey.
  rewrite <- Hw2 in Hev. clear Hw2. clear w w0 w1.
  run_remote Hrun.
  destruct (PublicKey_new tokenAddress) as [mintPublicKey|e].
  2:{ run_catch Hrun. inversion Hrun; subst. apply no_calls in Hev. by subst. }
  run_remote Hrun.
  set (accounts := token_accounts_answer w2 connection (publicKey account)
                     mintPublicKey) in *.
  clearbody accounts.
  destruct (resolved_balance accounts) as [balance|] eqn:Hres;
    [|by close_run Hrun Hev Hin].
  destruct (nothing_to_sell (Some balance)) eqn:Hnothing;
    [by close_run Hrun Hev Hin|].
  run_remote Hrun.
  destruct (rpc_getBalance _ _ _ _) as [initialSolBalance|e].
  2:{ run_catch Hrun. by close_run Hrun Hev Hin. }
  run_remote Hrun.
  destruct (BigInt (amountToSell sellAmount balance * Math_pow_10_6)%float)
    as [tokens'|e] eqn:Htokens.
  2:{ run_catch Hrun. by close_run Hrun Hev Hin. }
  run_remote Hrun.
  destruct (BigInt slippageBasisPoints) as [slippage'|e].
  2:{ run_catch Hrun. by close_run Hrun Hev Hin. }
  run_remote Hrun.
  destruct (sdk_sell _ _ _ _ _ _ _) as [result|e].
  2:{ run_catch Hrun. close_run Hrun Hev Hin. inversion Hin; subst.
      repeat split; auto. eauto 10. }
  destruct (tx_success result); cbv beta iota in Hrun; simpl negb in Hrun;
    cbv iota in Hrun.
  - run_remote Hrun.
    destruct (rpc_getBalance _ _ _ _) as [newSolBalance|e].
    + run_remote Hrun. close_run Hrun Hev Hin. inversion Hin; subst.
      repeat split; auto. eauto 10.
    + run_catch Hrun. close_run Hrun Hev Hin. inversion Hin; subst.
      repeat split; auto. eauto 10.
  - run_remote Hrun.
    destruct (sdk_error_text (tx_error result)) as [text'|e].
    + close_run Hrun Hev Hin. inversion Hin; subst.
      repeat split; auto. eauto 10.
    + run_catch Hrun. close_run Hrun Hev Hin. inversion Hin; subst.
      repeat split; auto. eauto 10.
Qed.

Lemma buyToken_success
    tokenAddress buyAmount accountName slippageBasisPoints w w'
    address spent purchased newBalance signature url :
  buyToken tokenAddress buyAmount accountName slippageBasisPoints w
  = (Return (BuySuccess address spent purchased newBalance signature url), w') ->
  exists calls buyer mint lamports slippage result,
    events w' = events w ++ calls
    /\ In (EvSdkBuy buyer mint lamports slippage DEFAULT_PRIORITY_FEES
             (Return result)) calls
    /\ tx_success result = true
    /\ signature = tx_signature result
    /\ address = tokenAddress /\ spent = buyAmount
    /\ url = "https://pump.fun/" +:+ tokenAddress.
Proof.
  intros Hrun. unfold buyToken in Hrun.
  rewrite try_catch_bind in Hrun.
  run_silent Hrun silent_initializeSDK Hinit.
  destruct c as [connection|e]; [|not_a_success Hrun].
  rewrite try_catch_bind in Hrun.
  run_silent Hrun (silent_ensure_keys_folder keys_folder) Hfolder.
  destruct c as [[text|]|e]; [not_a_success Hrun| |not_a_success Hrun].
  rewrite try_catch_bind in Hrun.
  run_silent Hrun (silent_getOrCreateKeypair keys_folder accountName) Hkey.
  destruct c as [account|e]; [|not_a_success Hrun].
  assert (events w2 = events w) as Hw2 by congruence.
  clear Hs Hs0 Hs1 Hinit Hfolder Hkey. rewrite <- Hw2. clear Hw2. clear w w0 w1.
  run_remote Hrun.
  destruct (rpc_getBalance _ _ _ _) as [balance|e]; [|not_a_success Hrun].
  destruct (balance <? requiredBalance buyAmount BUY_FEE_RESERVE)%float;
    [not_a_success Hrun|].
  run_remote Hrun.
  destruct (PublicKey_new tokenAddress) as [mintPublicKey|e]; [|not_a_success Hrun].
  run_remote Hrun. run_remote Hrun.
  destruct (BigInt (buyAmount * LAMPORTS_PER_SOL)%float) as [lamports|e];
    [|not_a_success Hrun].
  run_remote Hrun.
  destruct (BigInt slippageBasisPoints) as [slippage|e]; [|not_a_success Hrun].
  run_remote Hrun.
  destruct (sdk_buy _ _ _ _ _ _ _) as [result|e] eqn:Hsdk; [|not_a_success Hrun].
  destruct (tx_success result) eqn:Hok; cbv beta iota in Hrun; simpl negb in Hrun;
    cbv iota in Hrun.
  2:{ run_remote Hrun. destruct (sdk_error_text _); not_a_success Hrun. }
  run_remote Hrun. rewrite try_catch_ret in Hrun.
  inversion Hrun; subst; clear Hrun.
  eexists _, account, mintPublicKey, lamports, slippage, result.
  split; [simpl; rewrite <- !app_assoc; reflexivity|].
  split; [|done]. simpl. auto.
Qed.

Lemma sellToken_success
    tokenAddress sellAmount accountName slippageBasisPoints w w'
    address sold received left signature url :
  sellToken tokenAddress sellAmount accountName slippageBasisPoints w
  = (Return (SellSuccess address sold received left signature url), w') ->
  exists calls seller mint tokens slippage result,
    events w' = events w ++ calls
    /\ In (EvSdkSell seller mint tokens slippage DEFAULT_PRIORITY_FEES
             (Return result)) calls
    /\ tx_success result = true
    /\ signature = tx_signature result
    /\ address = tokenAddress
    /\ url = "https://pump.fun/" +:+ tokenAddress.
Proof.
  intros Hrun. unfold sellToken in Hrun.
  rewrite try_catch_bind in Hrun.
  run_silent Hrun silent_initializeSDK Hinit.
  destruct c as [connection|e]; [|not_a_success Hrun].
  rewrite try_catch_bind in Hrun.
  run_silent Hrun (silent_ensure_keys_folder keys_folder) Hfolder.
  destruct c as [[text|]|e]; [not_a_success Hrun| |not_a_success Hrun].
  rewrite try_catch_bind in Hrun.
  run_silent Hrun (silent_getOrCreateKeypair keys_folder accountName) Hkey.
  destruct c as [account|e]; [|not_a_success Hrun].
  assert (events w2 = events w) as Hw2 by congruence.
  clear Hs Hs0 Hs1 Hinit Hfolder Hkey. rewrite <- Hw2. clear Hw2. clear w w0 w1.
  run_remote Hrun.
  destruct (PublicKey_new tokenAddress) as [mintPublicKey|e]; [|not_a_success Hrun].
  run_remote Hrun.
  destruct (resolved_balance _) as [balance|]; [|not_a_success Hrun].
  destruct (nothing_to_sell (Some balance)); [not_a_success Hrun|].
  run_remote Hrun.
  destruct (rpc_getBalance _ _ _ _) as [initialSolBalance|e]; [|not_a_success Hrun].
  run_remote Hrun.
  destruct (BigInt (amountToSell sellAmount balance * Math_pow_10_6)%float)
    as [tokens|e]; [|not_a_success Hrun].
  run_remote Hrun.
  destruct (BigInt slippageBasisPoints) as [slippage|e]; [|not_a_success Hrun].
  run_remote Hrun.
  destruct (sdk_sell _ _ _ _ _ _ _) as [result|e] eqn:Hsdk; [|not_a_success Hrun].
  destruct (tx_success result) eqn:Hok; cbv beta iota in Hrun; simpl negb in Hrun;
    cbv iota in Hrun.
  2:{ run_remote Hrun. destruct (sdk_error_text _); not_a_success Hrun. }
  run_remote Hrun.
  destruct (rpc_getBalance _ _ _ _) as [newSolBalance|e]; [|not_a_success Hrun].
  run_remote Hrun. rewrite try_catch_ret in Hrun.
  inversion Hrun; subst; clear Hrun.
  eexists _, account, mintPublicKey, tokens, slippage, result.
  split; [simpl; rewrite <- !app_assoc; reflexivity|].
  split; [|done]. simpl. auto 10.
Qed.

(** X17: an amount that does not convert never trades.  When
    [buyAmount * LAMPORTS_PER_SOL] or [slippageBasisPoints] is not an
    integer, so that [BigInt] throws, [buyToken] returns a failure and
    makes no call to the trading SDK, in every world. *)
Theorem unconvertible_amount_never_trades
    tokenAddress buyAmount accountName slippageBasisPoints w e :
  BigInt (buyAmount * LAMPORTS_PER_SOL)%float = Throw e
  \/ BigInt slippageBasisPoints = Throw e ->
  exists text w' calls,
    buyToken tokenAddress buyAmount accountName slippageBasisPoints w
    = (Return (BuyFailure text), w')
    /\ events w' = events w ++ calls
    /\ Forall (fun ev => is_sdk_call ev = false) calls.
Proof.
  intros Hbad.
  assert (forall r w' calls buyer mint lamports slippage fees answer,
            buyToken tokenAddress buyAmount accountName slippageBasisPoints w
            = (r, w') ->
            events w' = events w ++ calls ->
            ~ In (EvSdkBuy buyer mint lamports slippage fees answer) calls)
    as Hnone.
  { intros r w' calls buyer mint lamports slippage fees answer Hrun Hev Hin.
    destruct (buyToken_sdk_call_arguments _ _ _ _ _ _ _ _ _ _ _ _ _ _ Hrun Hev Hin)
      as (_ & Hlamports & Hslippage & _).
    destruct Hbad; congruence. }
  destruct (buyToken_total tokenAddress buyAmount accountName slippageBasisPoints w)
    as (result & w' & Hrun).
  destruct (trades_buyToken tokenAddress buyAmount accountName slippageBasisPoints w)
    as (calls & Hev & _ & Hkind).
  rewrite Hrun in Hev. simpl in Hev.
  destruct result as [text|address spent purchased newBalance signature url].
  - exists text, w', calls. split; [done|]. split; [done|].
    apply List.Forall_forall. intros ev Hin.
    destruct (is_sdk_call ev) eqn:Hsdk; [|done].
    rewrite List.Forall_forall in Hkind. specialize (Hkind ev Hin Hsdk).
    destruct ev; try discriminate. by eapply Hnone in Hin.
  - destruct (buyToken_success _ _ _ _ _ _ _ _ _ _ _ _ Hrun)
      as (calls' & buyer & mint & lamports & slippage & result & Hev' & Hin & _).
    by eapply Hnone in Hin.
Qed.

(** X18: no success without a successful trade.  When [buyToken]
    returns a success, the run made a call of [sdk.buy] that was
    answered with [success] true, and the result carries the signature
    of that answer, the token address and the amount asked for; and
    the like for [sellToken] and [sdk.sell]. *)
Theorem trade_success_needs_sdk_success :
  (forall tokenAddress buyAmount accountName slippageBasisPoints w w'
          address spent purchased newBalance signature url,
     buyToken tokenAddress buyAmount accountName slippageBasisPoints w
     = (Return (BuySuccess address spent purchased newBalance signature url), w') ->
     exists calls buyer mint lamports slippage result,
       events w' = events w ++ calls
       /\ In (EvSdkBuy buyer mint lamports slippage DEFAULT_PRIORITY_FEES
                (Return result)) calls
       /\ tx_success result = true
       /\ signature = tx_signature result
       /\ address = tokenAddress /\ spent = buyAmount
       /\ url = "https://pump.fun/" +:+ tokenAddress)
  /\ (forall tokenAddress sellAmount accountName slippageBasisPoints w w'
             address sold received left signature url,
        sellToken tokenAddress sellAmount accountName slippageBasisPoints w
        = (Return (SellSuccess address sold received left signature url), w') ->
        exists calls seller mint tokens slippage result,
          events w' = events w ++ calls
          /\ In (EvSdkSell seller mint tokens slippage DEFAULT_PRIORITY_FEES
                   (Return result)) calls
          /\ tx_success result = true
          /\ signature = tx_signature result
          /\ address = tokenAddress
          /\ url = "https://pump.fun/" +:+ tokenAddress).
Proof.
  split; intros.
  - by eapply buyToken_success.
  - by eapply sellToken_success.
Qed.

(** X19: a created token leaves its mint key behind.  When
    [createToken] returns a success, the run made a call of
    [sdk.createAndBuy] that was answered with [success] true; the token
    address returned is the public key of the mint, the key drawn last;
    and the file [mint-<address>.json] of the keys folder holds the
    secret key of the mint, in the encoding of the account key files:
    it decodes to a key pair with the public key of the mint. *)
Theorem createToken_success_stores_mint_key `{!RuntimeLaws RT}
    name symbol description imageUrl initialBuyAmount accountName w w'
    tokenAddress tokenName tokenSymbol tokenBalance signature pumpfunUrl :
  createToken name symbol description imageUrl initialBuyAmount accountName w
  = (Return (CreateSuccess tokenAddress tokenName tokenSymbol tokenBalance
               signature pumpfunUrl), w') ->
  let mint := Keypair_fromEntropy (random w' (drawn w' - 1)) in
  (exists calls creator md lamports result,
     events w' = events w ++ calls
     /\ In (EvSdkCreateAndBuy creator mint md lamports
              DEFAULT_SLIPPAGE_BASIS_POINTS DEFAULT_PRIORITY_FEES
              (Return result)) calls
     /\ tx_success result = true
     /\ signature = tx_signature result)
  /\ tokenAddress = PublicKey_toString (publicKey mint)
  /\ tokenName = name /\ tokenSymbol = symbol
  /\ pumpfunUrl = "https://pump.fun/" +:+ tokenAddress
  /\ exists text k,
       read_node (fs w')
         (path_join keys_folder ("mint-" +:+ tokenAddress +:+ ".json"))
       = Return text
       /\ text = JSON_stringify_bytes (secretKey mint)
       /\ decode_keypair text = Return k
       /\ publicKey k = publicKey mint.
Proof.
  intros Hrun. unfold createToken in Hrun.
  rewrite try_catch_bind in Hrun.
  run_silent Hrun silent_initializeSDK Hinit.
  destruct c as [connection|e]; [|not_a_success Hrun].
  rewrite try_catch_bind in Hrun.
  run_silent Hrun (silent_getOrCreateKeypair keys_folder accountName) Hkey.
  destruct c as [account|e]; [|not_a_success Hrun].
  assert (events w1 = events w) as Hw1 by congruence.
  clear Hs Hs0 Hinit Hkey. rewrite <- Hw1. clear Hw1. clear w w0.
  run_remote Hrun.
  destruct (rpc_getBalance _ _ _ _) as [balance|e]; [|not_a_success Hrun].
  destruct (balance <? requiredBalance initialBuyAmount CREATE_FEE_RESERVE)%float;
    [not_a_success Hrun|].
  rewrite try_catch_bind in Hrun. unfold Keypair_generate in Hrun.
  cbv beta iota in Hrun. rewrite try_catch_bind in Hrun.
  match type of Hrun with
  | context [match ?m ?w2 with _ => _ end] =>
      destruct (image_step imageUrl w2) as (file & Hfile & Hnone)
  end.
  rewrite Hfile in Hrun. clear Hfile Hnone.
  destruct file as [fileBlob|e]; [|not_a_success Hrun].
  run_remote Hrun.
  destruct (BigInt (initialBuyAmount * LAMPORTS_PER_SOL)%float) as [lamports|e];
    [|not_a_success Hrun].
  run_remote Hrun.
  destruct (sdk_createAndBuy _ _ _ _ _ _ _ _) as [result|e] eqn:Hsdk;
    [|not_a_success Hrun].
  destruct (tx_success result) eqn:Hok; cbv beta iota in Hrun; simpl negb in Hrun;
    cbv iota in Hrun; [|not_a_success Hrun].
  rewrite try_catch_bind in Hrun. unfold fs_writeFileSync in Hrun.
  cbv beta iota in Hrun.
  destruct (write_node _ _ _) as [n|e] eqn:Hwrite; [|not_a_success Hrun].
  run_remote Hrun. rewrite try_catch_ret in Hrun.
  inversion Hrun; subst; clear Hrun.
  simpl. rewrite Nat.sub_0_r.
  split; [|repeat split].
  - eexists _, account, _, lamports, result.
    split; [rewrite <- !app_assoc; reflexivity|].
    split; [|done]. simpl. auto 10.
  - destruct (JSON_roundtrip_bytes
                (secretKey (Keypair_fromEntropy (random w1 (drawn w1)))))
      as (v & Hparse & Hu8).
    destruct (generated_key_valid (random w1 (drawn w1))) as (k & Hk & Hpk).
    eexists _, k. unfold read_node. simpl in Hwrite.
    rewrite (write_node_lookup _ _ _ _ Hwrite).
    split; [reflexivity|]. split; [reflexivity|]. split; [|done].
    unfold safeStringify_bytes, decode_keypair.
    rewrite Hparse. simpl. rewrite Hu8. simpl. by rewrite Hk.
Qed.

End Calls.

(* ===================================================================== *)
(** * The result texts and the tool handlers *)
(* ===================================================================== *)

Section Texts.
Context {RT : Runtime} {PR : Printing}.

(** What [listAccounts] says when it succeeds. *)
Lemma listAccounts_success_message w r w' :
  listAccounts w = (Return r, w') ->
  la_success r = true ->
  exists rest,
    la_message r = Some ("No accounts found" +:+ rest)
    \/ (la_message r = Some ("Accounts in " +:+ rest) /\ la_accounts r <> []).
Proof.
  intros Hrun Hok. unfold listAccounts in Hrun. unfold_M.
  destruct (lookup_node (fs w) keys_folder) as [[text|es]|] eqn:Hl.
  - rewrite bool_decide_eq_true_2 in Hrun by done. simpl in Hrun.
    unfold readdir_node in Hrun. rewrite Hl in Hrun.
    destruct (describe_error_run ENOTDIR w) as [msg Hd]. unfold_M.
    rewrite Hd in Hrun. inversion Hrun; subst. discriminate.
  - rewrite bool_decide_eq_true_2 in Hrun by done. simpl in Hrun.
    unfold readdir_node in Hrun. rewrite Hl in Hrun.
    rewrite (mapM_pure _ (account_entry_of (fs w) keys_folder)) in Hrun
      by (intros; apply account_entry_run).
    destruct (length _ =? 0)%nat eqn:Hlen; inversion Hrun; subst; simpl.
    + eexists. left. reflexivity.
    + eexists. right. split; [reflexivity|].
      intros Hnil. rewrite Hnil in Hlen. discriminate.
  - rewrite bool_decide_eq_false_2 in Hrun by (intros [? ?]; done). simpl in Hrun.
    destruct (mkdir_p (fs w) keys_folder) as [n|e].
    + inversion Hrun; subst. simpl. eexists. left. reflexivity.
    + destruct (mkdir_error_text_run e w) as [[text|e'] Ht]; unfold_M;
        rewrite Ht in Hrun.
      * inversion Hrun; subst. discriminate.
      * destruct (describe_error_run e' w) as [msg Hd]. unfold_M.
        rewrite Hd in Hrun. inversion Hrun; subst. discriminate.
Qed.

(** The text of a result of [listAccounts]. *)
Lemma listAccounts_text w r w' :
  listAccounts w = (Return r, w') ->
  exists text,
    formatListAccountsResult r = Some text
    /\ text <> ""
    /\ startsWith text "Error listing accounts: " = negb (la_success r).
Proof.
  intros Hrun. unfold formatListAccountsResult.
  destruct (la_success r) eqn:Hok; simpl.
  - destruct (listAccounts_success_message w r w' Hrun Hok)
      as [rest [Hmsg|[Hmsg Hsome]]]; rewrite Hmsg.
    + destruct (length (la_accounts r) =? 0)%nat.
      * eexists. split; [reflexivity|]. split; [discriminate|reflexivity].
      * eexists. split; [reflexivity|]. split; [discriminate|reflexivity].
    + destruct (length (la_accounts r) =? 0)%nat eqn:Hlen.
      * apply Nat.eqb_eq, length_zero_iff_nil in Hlen. done.
      * eexists. split; [reflexivity|]. split; [discriminate|reflexivity].
  - eexists. split; [reflexivity|]. split; [discriminate|].
    apply startsWith_append.
Qed.

(** X20: the text tells a failure from a success.  The text of a
    result of [buyToken], [sellToken] or [createToken] starts with the
    error prefix of its command exactly when the result is a failure,
    and so does the text of every result that [listAccounts] returns. *)
Theorem result_text_tells_failure :
  (forall result,
     startsWith (formatBuyResult result) "Error buying token: "
     = negb (buy_success result))
  /\ (forall result,
        startsWith (formatSellResult result) "Error selling token: "
        = negb (sell_success result))
  /\ (forall result,
        startsWith (formatCreateTokenResult result) "Error creating token: "
        = negb (create_success result))
  /\ (forall w result w',
        listAccounts w = (Return result, w') ->
        exists text,
          formatListAccountsResult result = Some text
          /\ startsWith text "Error listing accounts: "
             = negb (la_success result)).
Proof.
  split; [|split; [|split]].
  - intros [error|]; [apply startsWith_append|reflexivity].
  - intros [error|]; [apply startsWith_append|reflexivity].
  - intros [error|]; [apply startsWith_append|reflexivity].
  - intros w result w' Hrun.
    destruct (listAccounts_text w result w' Hrun) as (text & Htext & _ & Hprefix).
    eauto.
Qed.

(** X21: every tool answers with the text of its command.  The
    handlers of [buy-token], [sell-token], [create-token],
    [list-accounts] and [get-account-balance] never throw and never
    reach their own [catch] block: the response holds one text, the
    formatted result of the command.  For [list-accounts] that text is
    never missing nor empty, so the fallback text is never used. *)
Theorem tools_answer_with_the_result_text w :
  (forall tokenAddress buyAmount accountName slippageBasisPoints,
     exists result w',
       buyToken tokenAddress buyAmount accountName slippageBasisPoints w
       = (Return result, w')
       /\ buy_token_tool tokenAddress buyAmount accountName slippageBasisPoints w
          = (Return (createMcpResponse (formatBuyResult result)), w'))
  /\ (forall tokenAddress sellAmount accountName slippageBasisPoints,
        exists result w',
          sellToken tokenAddress sellAmount accountName slippageBasisPoints w
          = (Return result, w')
          /\ sell_token_tool tokenAddress sellAmount accountName
               slippageBasisPoints w
             = (Return (createMcpResponse (formatSellResult result)), w'))
  /\ (forall name symbol description imageUrl initialBuyAmount accountName,
        exists result w',
          createToken name symbol description imageUrl initialBuyAmount
            accountName w
          = (Return result, w')
          /\ create_token_tool name symbol description imageUrl initialBuyAmount
               accountName w
             = (Return (createMcpResponse (formatCreateTokenResult result)), w'))
  /\ (exists result text w',
        listAccounts w = (Return result, w')
        /\ formatListAccountsResult result = Some text
        /\ text <> ""
        /\ list_accounts_tool w = (Return (createMcpResponse text), w'))
  /\ (forall accountName tokenAddress,
        exists text w',
          getAccountBalance accountName tokenAddress w = (Return text, w')
          /\ get_account_balance_tool accountName tokenAddress w
             = (Return (createMcpResponse text), w')).
Proof.
  split; [|split; [|split; [|split]]].
  - intros. destruct (buyToken_total tokenAddress buyAmount accountName
                        slippageBasisPoints w) as (result & w' & Hrun).
    exists result, w'. split; [done|].
    unfold buy_token_tool. by rewrite try_catch_bind, Hrun.
  - intros. destruct (sellToken_total tokenAddress sellAmount accountName
                        slippageBasisPoints w) as (result & w' & Hrun).
    exists result, w'. split; [done|].
    unfold sell_token_tool. by rewrite try_catch_bind, Hrun.
  - intros. destruct (createToken_total name symbol description imageUrl
                        initialBuyAmount accountName w) as (result & w' & Hrun).
    exists result, w'. split; [done|].
    unfold create_token_tool. by rewrite try_catch_bind, Hrun.
  - destruct (listAccounts_total w) as (result & w' & Hrun).
    destruct (listAccounts_text w result w' Hrun) as (text & Htext & Hnonempty & _).
    exists result, text, w'. repeat split; try done.
    unfold list_accounts_tool. rewrite try_catch_bind, Hrun, try_catch_ret.
    rewrite Htext. unfold or_text. by rewrite truthy_string_nonempty.
  - intros. destruct (getAccountBalance_total accountName tokenAddress w)
      as (text & w' & Hrun).
    exists text, w'. split; [done|].
    unfold get_account_balance_tool. by rewrite try_catch_bind, Hrun.
Qed.

(** X22: under the schema of the [sell-token] tool the sale stays
    within the balance.  For a [sellAmount] that passes
    [z.number().min(0)] and a balance that is something to sell, the
    amount to sell is at most the balance; and it is [sellAmount]
    itself when [sellAmount] is not zero and is below the balance. *)
Theorem sell_tool_amount_within_balance sellAmount balance :
  sellAmount_schema sellAmount = true ->
  nothing_to_sell (Some balance) = false ->
  (amountToSell sellAmount balance <=? balance)%float = true
  /\ ((sellAmount <? balance)%float = true -> (sellAmount =? 0)%float = false ->
      amountToSell sellAmount balance = sellAmount).
Proof.
  intros Hschema Hsome. apply nothing_to_sell_truthy in Hsome.
  split.
  - apply amountToSell_le; [by apply sellAmount_schema_cases|done].
  - intros Hlt Hnz. unfold amountToSell, Math_min. rewrite Hnz.
    destruct (sellAmount_schema_cases _ Hschema) as [Hz|Hpos]; [congruence|].
    rewrite (positive_not_nan _ Hpos), (truthy_not_nan _ Hsome). simpl.
    by rewrite Hlt.
Qed.

End Texts.

(** ** The keys folder and new accounts *)

(** [mkdir -p] of a path that is there changes nothing. *)
Lemma mkdir_p_existing (p : path) : forall n n' x,
  lookup_node n p = Some x -> mkdir_p n p = Return n' -> n' = n.
Proof.
  induction p as [|c p IH]; intros n n' x Hl Hm; destruct n as [text|es];
    simpl in *; try discriminate.
  - by inversion Hm.
  - destruct (es !! c) as [n0|] eqn:Hc; [|discriminate]. simpl in Hm.
    destruct (mkdir_p n0 p) as [n1|e1] eqn:Hm1; [|discriminate].
    inversion Hm; subst. rewrite (IH _ _ _ Hl Hm1). by rewrite insert_id.
Qed.

(** A file that is not there can be written into a directory that is. *)
Lemma write_node_child (p : path) : forall n es c s,
  lookup_node n p = Some (Dir es) -> es !! c = None ->
  exists n', write_node n (p ++ [c]) s = Return n'.
Proof.
  induction p as [|d p IH]; intros n es c s Hp Hc; simpl in *.
  - inversion Hp; subst. rewrite Hc. eauto.
  - destruct n as [|es0]; [discriminate|].
    destruct (es0 !! d) as [n0|] eqn:Hd; [|discriminate].
    destruct (IH n0 es c s Hp Hc) as [n' ->]. eauto.
Qed.

(** Writing a new file leaves the other files as they are. *)
Lemma write_node_other (p : path) : forall n s n' (q : path) t,
  write_node n p s = Return n' ->
  lookup_node n p = None ->
  lookup_node n q = Some (File t) -> lookup_node n' q = Some (File t).
Proof.
  induction p as [|c p IH]; intros n s n' q t Hw Hp Hq; simpl in *; [discriminate|].
  destruct n as [|es]; [discriminate|].
  destruct q as [|d q]; [discriminate|]. simpl in Hq.
  destruct (es !! c) as [n0|] eqn:Hc.
  - destruct (write_node n0 p s) as [n1|] eqn:Hw1; [|discriminate].
    inversion Hw; subst. simpl.
    destruct (decide (c = d)) as [->|Hne].
    + rewrite lookup_insert_eq. rewrite Hc in Hq. eauto.
    + by rewrite lookup_insert_ne.
  - destruct p; [|discriminate]. inversion Hw; subst. simpl.
    destruct (decide (c = d)) as [->|Hne].
    + by rewrite Hc in Hq.
    + by rewrite lookup_insert_ne.
Qed.

Section Creation.
Context {RT : Runtime}.

(** The run of [getOrCreateKeypair] for a new name: the keys folder is
    made when it is missing, the next key is drawn and its file is
    written. *)
Lemma getOrCreateKeypair_fresh keysFolder name w n :
  no_slash name = true ->
  mkdir_p (fs w) keysFolder = Return n ->
  lookup_node (fs w) (keypairPath keysFolder name) = None ->
  let k := Keypair_fromEntropy (random w (drawn w)) in
  exists n',
    write_node n (keypairPath keysFolder name) (JSON_stringify_bytes (secretKey k))
    = Return n'
    /\ lookup_node n (keypairPath keysFolder name) = None
    /\ getOrCreateKeypair keysFolder name w
       = (Return k, set_fs (set_drawn w (S (drawn w))) n').
Proof.
  intros Hname Hmk Hfile k.
  destruct (mkdir_p_lookup _ _ _ Hmk) as [es Hes].
  assert (lookup_node n (keypairPath keysFolder name) = None) as Hfile'.
  { destruct (lookup_node (fs w) keysFolder) as [x|] eqn:Hx.
    - by rewrite (mkdir_p_existing _ _ _ _ Hx Hmk).
    - rewrite (mkdir_p_fresh _ _ _ Hx Hmk) in Hes. inversion Hes; subst.
      rewrite keypairPath_child, lookup_node_app, (mkdir_p_fresh _ _ _ Hx Hmk) by done.
      simpl. by rewrite lookup_empty. }
  assert (es !! (name +:+ ".json") = None) as Hchild.
  { rewrite keypairPath_child, lookup_node_app, Hes in Hfile' by done.
    simpl in Hfile'. by destruct (es !! (name +:+ ".json")). }
  destruct (write_node_child keysFolder n es (name +:+ ".json")
              (JSON_stringify_bytes (secretKey k)) Hes Hchild) as [n' Hw].
  rewrite <- keypairPath_child in Hw by done.
  exists n'. split; [exact Hw|]. split; [exact Hfile'|].
  destruct (decide (is_Some (lookup_node (fs w) keysFolder))) as [[x Hx]|Hex].
  - pose proof (mkdir_p_existing _ _ _ _ Hx Hmk) as ->.
    rewrite getOrCreateKeypair_folder_exists by (rewrite Hx; done).
    rewrite Hfile. fold k. cbv zeta. by rewrite Hw.
  - rewrite getOrCreateKeypair_folder_missing, Hmk by done.
    rewrite getOrCreateKeypair_folder_exists by (simpl; rewrite Hes; done).
    simpl. rewrite Hfile'. fold k. by rewrite Hw.
Qed.

(** C1, as amended: when the keys folder is there or can be made, and
    the file of [name] either is missing, [name] having no ["/"], or
    holds a text that decodes, two calls of [getOrCreateKeypair] with
    the same folder and name both return, with the same public key.
    After the first call the file of [name] is there; the second call
    returns what that file decodes to and changes nothing: it draws no
    key and writes nothing.  When the file was missing, the first call
    drew one key and wrote its secret key to the file; when it was
    there, the first call drew no key and left it as it was.  For every
    folder and name: whenever a call returns a key pair, a second call
    returns a key pair with the same public key and changes nothing;
    and a call for a name whose file exists draws no key and leaves the
    file as it is. *)
Theorem getOrCreateKeypair_idempotent `{!RuntimeLaws RT} keysFolder name w :
  (forall n,
     mkdir_p (fs w) keysFolder = Return n ->
     lookup_node (fs w) (keypairPath keysFolder name) = None
     /\ no_slash name = true
     \/ (exists text k,
           lookup_node (fs w) (keypairPath keysFolder name) = Some (File text)
           /\ decode_keypair text = Return k) ->
     exists k1 w1 text k2,
       getOrCreateKeypair keysFolder name w = (Return k1, w1)
       /\ lookup_node (fs w1) (keypairPath keysFolder name) = Some (File text)
       /\ decode_keypair text = Return k2
       /\ getOrCreateKeypair keysFolder name w1 = (Return k2, w1)
       /\ publicKey k2 = publicKey k1
       /\ (lookup_node (fs w) (keypairPath keysFolder name) = None ->
           k1 = Keypair_fromEntropy (random w (drawn w))
           /\ text = JSON_stringify_bytes (secretKey k1)
           /\ drawn w1 = S (drawn w))
       /\ (forall text0,
             lookup_node (fs w) (keypairPath keysFolder name)
             = Some (File text0) ->
             text = text0 /\ k1 = k2 /\ drawn w1 = drawn w /\ fs w1 = n))
  /\ (forall k1 w1,
        getOrCreateKeypair keysFolder name w = (Return k1, w1) ->
        exists k2, getOrCreateKeypair keysFolder name w1 = (Return k2, w1)
                   /\ publicKey k2 = publicKey k1)
  /\ (forall text,
        lookup_node (fs w) (keypairPath keysFolder name) = Some (File text) ->
        drawn (snd (getOrCreateKeypair keysFolder name w)) = drawn w
        /\ lookup_node (fs (snd (getOrCreateKeypair keysFolder name w)))
             (keypairPath keysFolder name) = Some (File text)).
Proof.
  split; [|split].
  - intros n Hmk [[Hnone Hname]|(text & k & Hfile & Hdecode)].
    + destruct (getOrCreateKeypair_fresh keysFolder name w n Hname Hmk Hnone)
        as (n' & Hw & _ & Hrun).
      destruct (getOrCreateKeypair_stores _ _ _ _ _ Hrun)
        as (Hex & text & k2 & Hfile & Hdecode & Hpk).
      pose proof (write_node_lookup _ _ _ _ Hw) as Hwritten.
      simpl in Hfile. rewrite Hwritten in Hfile. inversion Hfile; subst text.
      eexists _, _, _, k2. split; [exact Hrun|]. split; [exact Hwritten|].
      split; [exact Hdecode|].
      split; [by rewrite (getOrCreateKeypair_of_file _ _ _ _ Hex Hwritten), Hdecode|].
      split; [exact Hpk|]. split; [done|]. intros text0 Hfile0. congruence.
    + destruct (mkdir_p_lookup _ _ _ Hmk) as [es Hes].
      pose proof (mkdir_p_file _ _ _ _ _ Hmk Hfile) as Hfile'.
      assert (getOrCreateKeypair keysFolder name w = (Return k, set_fs w n))
        as Hrun.
      { destruct (decide (is_Some (lookup_node (fs w) keysFolder)))
          as [[x Hx]|Hex].
        - pose proof (mkdir_p_existing _ _ _ _ Hx Hmk) as ->.
          rewrite (getOrCreateKeypair_of_file _ _ _ text), Hdecode
            by (rewrite ?Hx; done).
          by destruct w.
        - rewrite getOrCreateKeypair_folder_missing, Hmk by done.
          by rewrite (getOrCreateKeypair_of_file _ _ _ text), Hdecode
            by (simpl; rewrite ?Hes; done). }
      exists k, (set_fs w n), text, k. split; [exact Hrun|].
      split; [exact Hfile'|]. split; [exact Hdecode|].
      split; [by rewrite (getOrCreateKeypair_of_file _ _ _ text), Hdecode
                by (simpl; rewrite ?Hes; done)|].
      split; [done|]. split; [congruence|].
      intros text0 Hfile0. rewrite Hfile in Hfile0. by inversion Hfile0.
  - intros k1 w1 Hrun.
    destruct (decide (is_Some (lookup_node (fs w) keysFolder))) as [Hex|Hex].
    + by eapply getOrCreateKeypair_again.
    + rewrite getOrCreateKeypair_folder_missing in Hrun by done.
      destruct (mkdir_p (fs w) keysFolder) as [n|e] eqn:Hm; [|discriminate].
      eapply getOrCreateKeypair_again; [|exact Hrun].
      simpl. destruct (mkdir_p_lookup _ _ _ Hm) as [es ->]. done.
  - intros text Hfile.
    destruct (getOrCreateKeypair_keeps_file keysFolder name w text Hfile)
      as (c & w' & -> & Hd & Hf & _).
    by split.
Qed.

(** X23: [getOrCreateKeypair] on a name without ["/"] that has no file
    yet, the keys folder being there or creatable: the call returns the
    next key of the random source, draws exactly that one key, leaves the
    keys folder in place with the key's file in it, holding the secret
    key as a JSON array, keeps every other file, and asks nothing of the
    remote side. *)
Theorem getOrCreateKeypair_creates keysFolder name w n :
  no_slash name = true ->
  mkdir_p (fs w) keysFolder = Return n ->
  lookup_node (fs w) (keypairPath keysFolder name) = None ->
  exists w1,
    getOrCreateKeypair keysFolder name w
    = (Return (Keypair_fromEntropy (random w (drawn w))), w1)
    /\ drawn w1 = S (drawn w)
    /\ lookup_node (fs w1) (keypairPath keysFolder name)
       = Some (File (JSON_stringify_bytes
                       (secretKey (Keypair_fromEntropy (random w (drawn w))))))
    /\ is_Some (lookup_node (fs w1) keysFolder)
    /\ (forall (q : path) t,
          lookup_node (fs w) q = Some (File t) ->
          lookup_node (fs w1) q = Some (File t))
    /\ events w1 = events w.
Proof.
  intros Hname Hmk Hnone.
  destruct (getOrCreateKeypair_fresh keysFolder name w n Hname Hmk Hnone)
    as (n' & Hw & Hnone' & Hrun).
  eexists. split; [exact Hrun|]. simpl.
  split; [done|]. split; [by eapply write_node_lookup|].
  split; [|split; [|done]].
  - eapply write_node_exists; [exact Hw|].
    destruct (mkdir_p_lookup _ _ _ Hmk) as [es ->]. done.
  - intros q t Hq. eapply write_node_other; [exact Hw|exact Hnone'|].
    by eapply mkdir_p_file.
Qed.


End Creation.

(** ** The guards of the trade commands *)

Section Guards.
Context {RT : Runtime}.

Lemma preserves_remote_mkdirSync p : preserves remote (fs_mkdirSync_recursive p).
Proof. intros w. unfold fs_mkdirSync_recursive. by destruct (mkdir_p (fs w) p). Qed.

Lemma preserves_remote_writeFileSync p s : preserves remote (fs_writeFileSync p s).
Proof. intros w. unfold fs_writeFileSync. by destruct (write_node (fs w) p s). Qed.

Lemma getOrCreateKeypair_keeps_remote keysFolder name :
  preserves remote (getOrCreateKeypair keysFolder name).
Proof.
  pose proof preserves_remote_mkdirSync. pose proof preserves_remote_writeFileSync.
  unfold getOrCreateKeypair. solve_preserves.
Qed.

Lemma ensure_keys_folder_keeps_remote keysFolder :
  preserves remote (ensure_keys_folder keysFolder).
Proof.
  pose proof preserves_remote_mkdirSync.
  unfold ensure_keys_folder, mkdir_error_text. solve_preserves.
Qed.

(** The account a trade command works with, and the world it is found
    in: the remote side and its log are those of the start. *)
Lemma account_step keysFolder accountName w w1 c account w2 :
  ensure_keys_folder keysFolder w = (c, w1) ->
  getOrCreateKeypair keysFolder accountName w1 = (Return account, w2) ->
  remote w2 = remote w /\ events w2 = events w.
Proof.
  intros Hfolder Hkey.
  pose proof (ensure_keys_folder_keeps_remote keysFolder w) as Hr1.
  pose proof (silent_ensure_keys_folder keysFolder w) as He1.
  pose proof (getOrCreateKeypair_keeps_remote keysFolder accountName w1) as Hr2.
  pose proof (silent_getOrCreateKeypair keysFolder accountName w1) as He2.
  rewrite Hfolder in Hr1, He1. rewrite Hkey in Hr2, He2. simpl in *.
  split; congruence.
Qed.

(** C8: when the RPC endpoint is configured, the keys folder is in place
    and [getOrCreateKeypair] returns the account, and the RPC node
    answers the balance query for that account with a balance below the
    amount plus the reserve of 0.001 SOL ([buyToken]) or 0.003 SOL
    ([createToken]), both in lamports, the command returns the failure
    that carries the insufficient-balance text and the balance query is
    the only remote call it has made: the SDK is not called. *)
Theorem insufficient_balance_stops_before_sdk :
  (forall tokenAddress buyAmount accountName slippageBasisPoints
          w connection w1 account w2 balance,
     initializeSDK w = (Return connection, w) ->
     ensure_keys_folder keys_folder w = (Return None, w1) ->
     getOrCreateKeypair keys_folder accountName w1 = (Return account, w2) ->
     rpc_getBalance (remote w) (events w) connection (publicKey account)
     = Return balance ->
     (balance <? requiredBalance buyAmount BUY_FEE_RESERVE)%float = true ->
     let query := EvGetBalance connection (publicKey account) (Return balance) in
     buyToken tokenAddress buyAmount accountName slippageBasisPoints w
     = (Return (BuyFailure
                  (insufficient_balance_text account balance
                     (requiredBalance buyAmount BUY_FEE_RESERVE))),
        log_event w2 query)
     /\ events (log_event w2 query) = events w ++ [query])
  /\ (forall name symbol description imageUrl initialBuyAmount accountName
             w connection account w2 balance,
        initializeSDK w = (Return connection, w) ->
        getOrCreateKeypair keys_folder accountName w = (Return account, w2) ->
        rpc_getBalance (remote w) (events w) connection (publicKey account)
        = Return balance ->
        (balance <? requiredBalance initialBuyAmount CREATE_FEE_RESERVE)%float
        = true ->
        let query := EvGetBalance connection (publicKey account) (Return balance) in
        createToken name symbol description imageUrl initialBuyAmount
          accountName w
        = (Return (CreateFailure
                     (ErrString
                        (insufficient_balance_text account balance
                           (requiredBalance initialBuyAmount
                              CREATE_FEE_RESERVE)))),
           log_event w2 query)
        /\ events (log_event w2 query) = events w ++ [query]).
Proof.
  split.
  - intros * Hinit Hfolder Hkey Hbalance Hlt query.
    destruct (account_step _ _ _ _ _ _ _ Hfolder Hkey) as [Hr He].
    split; [|simpl; by rewrite He].
    unfold buyToken.
    rewrite try_catch_bind, Hinit, try_catch_bind, Hfolder, try_catch_bind, Hkey.
    rewrite try_catch_bind, connection_getBalance_run, Hr, He, Hbalance, Hlt.
    reflexivity.
  - intros * Hinit Hkey Hbalance Hlt query.
    pose proof (getOrCreateKeypair_keeps_remote keys_folder accountName w) as Hr.
    pose proof (silent_getOrCreateKeypair keys_folder accountName w) as He.
    rewrite Hkey in Hr, He. simpl in Hr, He.
    split; [|simpl; by rewrite He].
    unfold createToken.
    rewrite try_catch_bind, Hinit, try_catch_bind, Hkey.
    rewrite try_catch_bind, connection_getBalance_run, Hr, He, Hbalance, Hlt.
    reflexivity.
Qed.




End Guards.

(** ** The commands when nothing stands in their way *)

Section Happy.
Context {RT : Runtime} {PR : Printing}.

(** X24: when the RPC endpoint is configured, the account's key file
    decodes, the account holds the amount and the fee reserve, and the
    mint and the two amounts convert, [buyToken] returns a result after
    exactly these remote calls: the balance query, the token balance
    before, and one SDK purchase signed by the account for the mint, the
    amount in lamports, the slippage and the default priority fees,
    followed by no other SDK call.  The result is a success exactly when
    the SDK's answer is a successful transaction. *)
Theorem buyToken_reaches_the_sdk
    tokenAddress buyAmount accountName slippageBasisPoints w connection text
    account balance mint lamports slippage :
  initializeSDK w = (Return connection, w) ->
  is_Some (lookup_node (fs w) keys_folder) ->
  lookup_node (fs w) (keypairPath keys_folder accountName) = Some (File text) ->
  decode_keypair text = Return account ->
  rpc_getBalance (remote w) (events w) connection (publicKey account)
  = Return balance ->
  (balance <? requiredBalance buyAmount BUY_FEE_RESERVE)%float = false ->
  PublicKey_new tokenAddress = Return mint ->
  BigInt (buyAmount * LAMPORTS_PER_SOL)%float = Return lamports ->
  BigInt slippageBasisPoints = Return slippage ->
  exists result w' before answer rest,
    buyToken tokenAddress buyAmount accountName slippageBasisPoints w
    = (Return result, w')
    /\ events w'
       = events w
         ++ [EvGetBalance connection (publicKey account) (Return balance);
             EvTokenAccounts connection (publicKey account) mint before;
             EvSdkBuy account mint lamports slippage DEFAULT_PRIORITY_FEES answer]
         ++ rest
    /\ Forall (fun ev => is_sdk_call ev = false) rest
    /\ (buy_success result = true
        <-> exists tx, answer = Return tx /\ tx_success tx = true).
Proof.
  intros Hinit Hex Hfile Hdecode Hbalance Hguard Hmint Hlamports Hslippage.
  unfold buyToken.
  rewrite try_catch_bind, Hinit.
  rewrite try_catch_bind, ensure_keys_folder_exists by done.
  rewrite try_catch_bind, (getOrCreateKeypair_of_file _ _ _ text), Hdecode by done.
  rewrite try_catch_bind, connection_getBalance_run, Hbalance, Hguard.
  rewrite try_catch_bind, lift_run, Hmint.
  rewrite try_catch_bind, getSPLBalance_run.
  rewrite try_catch_bind, lift_run, Hlamports.
  rewrite try_catch_bind, lift_run, Hslippage.
  rewrite try_catch_bind, sdk_buy_call_run.
  match goal with
  | |- context [EvTokenAccounts _ _ _ ?b] => set (before := b)
  end.
  match goal with
  | |- context [EvSdkBuy _ _ _ _ _ ?a] => set (answer := a)
  end.
  destruct answer as [tx|e] eqn:Hanswer.
  - destruct (tx_success tx) eqn:Hok; cbv beta iota; simpl negb; cbv iota.
    + rewrite try_catch_bind, getSPLBalance_run, try_catch_ret.
      eexists _, _, before, (Return tx), [_].
      split; [reflexivity|]. split; [simpl; by rewrite <- !app_assoc|].
      split; [by repeat constructor|].
      simpl. split; [eauto|done].
    + rewrite try_catch_bind, lift_run.
      destruct (sdk_error_text (tx_error tx)) as [msg|e].
      * rewrite try_catch_ret.
        eexists _, _, before, (Return tx), [].
        split; [reflexivity|]. split; [simpl; by rewrite <- !app_assoc|].
        split; [constructor|].
        simpl. split; [discriminate|]. intros (tx' & [= <-] & Htx). congruence.
      * match goal with
        | |- context [(describe_error ?e ≫= _) ?w0] =>
            destruct (catch_block_run BuyFailure e w0) as [msg ->]
        end.
        eexists _, _, before, (Return tx), [].
        split; [reflexivity|]. split; [simpl; by rewrite <- !app_assoc|].
        split; [constructor|].
        simpl. split; [discriminate|]. intros (tx' & [= <-] & Htx). congruence.
  - match goal with
    | |- context [(describe_error ?e ≫= _) ?w0] =>
        destruct (catch_block_run BuyFailure e w0) as [msg ->]
    end.
    eexists _, _, before, (Throw e), [].
    split; [reflexivity|]. split; [simpl; by rewrite <- !app_assoc|].
    split; [constructor|].
    simpl. split; [discriminate|]. intros (tx' & [=] & _).
Qed.

(** X25: when the account's key file decodes and the account holds a
    non-zero token balance, [sellToken] returns a result after the token
    balance query, the SOL balance query and one SDK sale of
    [amountToSell] tokens in base units, followed by no other SDK call.
    The result is a success exactly when the SDK's answer is a
    successful transaction and the SOL balance query that follows it is
    answered: a sale that went through is still reported as a failure
    when that query fails. *)
Theorem sellToken_reaches_the_sdk
    tokenAddress sellAmount accountName slippageBasisPoints w connection text
    account mint balance solBalance tokens slippage :
  let accounts := token_accounts_answer w connection (publicKey account) mint in
  let w1 :=
    log_event w (EvTokenAccounts connection (publicKey account) mint accounts) in
  initializeSDK w = (Return connection, w) ->
  is_Some (lookup_node (fs w) keys_folder) ->
  lookup_node (fs w) (keypairPath keys_folder accountName) = Some (File text) ->
  decode_keypair text = Return account ->
  PublicKey_new tokenAddress = Return mint ->
  resolved_balance accounts = Some balance ->
  nothing_to_sell (Some balance) = false ->
  rpc_getBalance (remote w1) (events w1) connection (publicKey account)
  = Return solBalance ->
  BigInt (amountToSell sellAmount balance * Math_pow_10_6)%float = Return tokens ->
  BigInt slippageBasisPoints = Return slippage ->
  exists result w' answer rest,
    sellToken tokenAddress sellAmount accountName slippageBasisPoints w
    = (Return result, w')
    /\ events w'
       = events w
         ++ [EvTokenAccounts connection (publicKey account) mint accounts;
             EvGetBalance connection (publicKey account) (Return solBalance);
             EvSdkSell account mint tokens slippage DEFAULT_PRIORITY_FEES answer]
         ++ rest
    /\ Forall (fun ev => is_sdk_call ev = false) rest
    /\ (sell_success result = true
        <-> exists tx newSolBalance,
              answer = Return tx /\ tx_success tx = true
              /\ head rest
                 = Some (EvGetBalance connection (publicKey account)
                           (Return newSolBalance))).
Proof.
  intros accounts w1 Hinit Hex Hfile Hdecode Hmint Hres Hsome Hsol Htokens
    Hslippage.
  unfold sellToken.
  rewrite try_catch_bind, Hinit.
  rewrite try_catch_bind, ensure_keys_folder_exists by done.
  rewrite try_catch_bind, (getOrCreateKeypair_of_file _ _ _ text), Hdecode by done.
  rewrite try_catch_bind, lift_run, Hmint.
  rewrite try_catch_bind, getSPLBalance_run.
  fold accounts. fold w1. rewrite Hres, Hsome.
  rewrite try_catch_bind, connection_getBalance_run, Hsol.
  rewrite try_catch_bind, lift_run, Htokens.
  rewrite try_catch_bind, lift_run, Hslippage.
  rewrite try_catch_bind, sdk_sell_call_run.
  match goal with
  | |- context [EvSdkSell _ _ _ _ _ ?a] => set (answer := a)
  end.
  destruct answer as [tx|e] eqn:Hanswer.
  - destruct (tx_success tx) eqn:Hok; cbv beta iota; simpl negb; cbv iota.
    + rewrite try_catch_bind, connection_getBalance_run.
      match goal with
      | |- context [EvGetBalance _ _ (rpc_getBalance ?r ?l ?c ?k)] =>
          destruct (rpc_getBalance r l c k) as [newSolBalance|e] eqn:Hnew
      end.
      * rewrite try_catch_bind, getSPLBalance_run, try_catch_ret.
        eexists _, _, (Return tx), [_; _].
        split; [reflexivity|]. split; [simpl; by rewrite <- !app_assoc|].
        split; [by repeat constructor|].
        simpl. split; [eauto|done].
      * match goal with
        | |- context [(describe_error ?e ≫= _) ?w0] =>
            destruct (catch_block_run SellFailure e w0) as [msg ->]
        end.
        eexists _, _, (Return tx), [_].
        split; [reflexivity|]. split; [simpl; by rewrite <- !app_assoc|].
        split; [by repeat constructor|].
        simpl. split; [discriminate|]. intros (tx' & new' & _ & _ & [=]).
    + rewrite try_catch_bind, lift_run.
      destruct (sdk_error_text (tx_error tx)) as [msg|e].
      * rewrite try_catch_ret.
        eexists _, _, (Return tx), [].
        split; [reflexivity|]. split; [simpl; by rewrite <- !app_assoc|].
        split; [constructor|].
        simpl. split; [discriminate|]. intros (tx' & new' & _ & _ & [=]).
      * match goal with
        | |- context [(describe_error ?e ≫= _) ?w0] =>
            destruct (catch_block_run SellFailure e w0) as [msg ->]
        end.
        eexists _, _, (Return tx), [].
        split; [reflexivity|]. split; [simpl; by rewrite <- !app_assoc|].
        split; [constructor|].
        simpl. split; [discriminate|]. intros (tx' & new' & _ & _ & [=]).
  - match goal with
    | |- context [(describe_error ?e ≫= _) ?w0] =>
        destruct (catch_block_run SellFailure e w0) as [msg ->]
    end.
    eexists _, _, (Throw e), [].
    split; [reflexivity|]. split; [simpl; by rewrite <- !app_assoc|].
    split; [constructor|].
    simpl. split; [discriminate|]. intros (tx' & new' & _ & _ & [=]).
Qed.

(** X26: when the account's key file decodes, the account holds the
    initial purchase and the fee reserve and no image is given,
    [createToken] draws exactly one key, the mint, and returns a result
    after the balance query and one SDK creation signed by the account
    for that mint, with the metadata as passed and no file, followed by
    no other SDK call.  The result is a success exactly when the SDK's
    answer is a successful transaction and the mint's key file can be
    written into the keys folder. *)
Theorem createToken_reaches_the_sdk
    name symbol description imageUrl initialBuyAmount accountName w connection
    text account balance lamports :
  let mint := Keypair_fromEntropy (random w (drawn w)) in
  let mintPath :=
    path_join keys_folder
      ("mint-" +:+ PublicKey_toString (publicKey mint) +:+ ".json") in
  initializeSDK w = (Return connection, w) ->
  is_Some (lookup_node (fs w) keys_folder) ->
  lookup_node (fs w) (keypairPath keys_folder accountName) = Some (File text) ->
  decode_keypair text = Return account ->
  rpc_getBalance (remote w) (events w) connection (publicKey account)
  = Return balance ->
  (balance <? requiredBalance initialBuyAmount CREATE_FEE_RESERVE)%float = false ->
  imageUrl = None \/ imageUrl = Some "" ->
  BigInt (initialBuyAmount * LAMPORTS_PER_SOL)%float = Return lamports ->
  exists result w' answer rest,
    createToken name symbol description imageUrl initialBuyAmount accountName w
    = (Return result, w')
    /\ events w'
       = events w
         ++ [EvGetBalance connection (publicKey account) (Return balance);
             EvSdkCreateAndBuy account mint
               (mkTokenMetadata name symbol description None) lamports
               DEFAULT_SLIPPAGE_BASIS_POINTS DEFAULT_PRIORITY_FEES answer]
         ++ rest
    /\ Forall (fun ev => is_sdk_call ev = false) rest
    /\ drawn w' = S (drawn w)
    /\ (create_success result = true
        <-> exists tx n,
              answer = Return tx /\ tx_success tx = true
              /\ write_node (fs w) mintPath (JSON_stringify_bytes (secretKey mint))
                 = Return n).
Proof.
  intros mint mintPath Hinit Hex Hfile Hdecode Hbalance Hguard Himage Hlamports.
  unfold createToken.
  rewrite try_catch_bind, Hinit.
  rewrite try_catch_bind, (getOrCreateKeypair_of_file _ _ _ text), Hdecode by done.
  rewrite try_catch_bind, connection_getBalance_run, Hbalance, Hguard.
  rewrite try_catch_bind. unfold Keypair_generate. cbv beta iota.
  rewrite try_catch_bind.
  match goal with
  | |- context [match ?m ?w2 with _ => _ end] =>
      destruct (image_step imageUrl w2) as (file & Hstep & Hnone)
  end.
  rewrite Hstep, (Hnone Himage). clear Hstep Hnone. cbn [drawn random log_event].
  fold mint.
  rewrite try_catch_bind, lift_run, Hlamports.
  rewrite try_catch_bind, sdk_createAndBuy_call_run.
  match goal with
  | |- context [EvSdkCreateAndBuy _ _ _ _ _ _ ?a] => set (answer := a)
  end.
  destruct answer as [tx|e] eqn:Hanswer.
  - destruct (tx_success tx) eqn:Hok; cbv beta iota; simpl negb; cbv iota.
    + rewrite try_catch_bind. unfold fs_writeFileSync. cbv beta iota.
      cbn [fs log_event set_drawn]. fold mintPath. unfold safeStringify_bytes.
      destruct (write_node (fs w) mintPath (JSON_stringify_bytes (secretKey mint)))
        as [n|e] eqn:Hwrite.
      * rewrite try_catch_bind, getSPLBalance_run, try_catch_ret.
        eexists _, _, (Return tx), [_].
        split; [reflexivity|]. split; [simpl; by rewrite <- !app_assoc|].
        split; [by repeat constructor|]. split; [reflexivity|].
        simpl. split; [eauto|done].
      * eexists _, _, (Return tx), [].
        split; [reflexivity|]. split; [simpl; by rewrite <- !app_assoc|].
        split; [constructor|]. split; [reflexivity|].
        simpl. split; [discriminate|]. intros (tx' & n & _ & _ & [=]).
    + rewrite try_catch_ret.
      eexists _, _, (Return tx), [].
      split; [reflexivity|]. split; [simpl; by rewrite <- !app_assoc|].
      split; [constructor|]. split; [reflexivity|].
      simpl. split; [discriminate|]. intros (tx' & n & [= <-] & Htx & _). congruence.
  - eexists _, _, (Throw e), [].
    split; [reflexivity|]. split; [simpl; by rewrite <- !app_assoc|].
    split; [constructor|]. split; [reflexivity|].
    simpl. split; [discriminate|]. intros (tx' & n & [=] & _).
Qed.

End Happy.

(* ===================================================================== *)
(** * The theorems at work on the example worlds *)
(* ===================================================================== *)

Lemma getOrCreateKeypair_idempotent_witness :
  exists k2 w1,
    getOrCreateKeypair keys_folder "default" world_fresh = (Return first_key, w1)
    /\ lookup_node (fs w1) (keypairPath keys_folder "default")
       = Some (File (JSON_stringify_bytes (secretKey first_key)))
    /\ decode_keypair (JSON_stringify_bytes (secretKey first_key)) = Return k2
    /\ getOrCreateKeypair keys_folder "default" w1 = (Return k2, w1)
    /\ publicKey k2 = publicKey first_key
    /\ drawn w1 = 1.
Proof.
  assert (mkdir_p (fs world_fresh) keys_folder
          = Return (fs (snd (fs_mkdirSync_recursive keys_folder world_fresh))))
    as Hmk by (vm_compute; reflexivity).
  destruct (proj1 (getOrCreateKeypair_idempotent keys_folder "default" world_fresh)
              _ Hmk (or_introl (conj eq_refl eq_refl)))
    as (k1 & w1 & text & k2 & Hrun & Hfile & Hdecode & Hagain & Hpk & Hnew & _).
  destruct (Hnew eq_refl) as (-> & -> & Hdrawn).
  exists k2, w1. by repeat split.
Defined.

(** C1, counterexample: the name ["a/b"], in an empty keys folder.  Both
    calls throw, and each draws a key. *)
Lemma getOrCreateKeypair_nested_name_throws :
  lookup_node (fs world_empty) keys_folder = Some (Dir ∅)
  /\ exists error,
       getOrCreateKeypair keys_folder "a/b" world_empty
       = (Throw error, set_drawn world_empty 1)
       /\ getOrCreateKeypair keys_folder "a/b" (set_drawn world_empty 1)
          = (Throw error, set_drawn world_empty 2).
Proof.
  split; [vm_compute; reflexivity|].
  exists ENOENT. split; vm_compute; reflexivity.
Qed.


Lemma corrupt_key_file_rejected_witness :
  lookup_node (fs world_corrupt) (keypairPath keys_folder "default")
  = Some (File "not json")
  /\ CorruptKeyFile "not json" SyntaxError
  /\ getOrCreateKeypair keys_folder "default" world_corrupt
     = (Throw SyntaxError, world_corrupt).
Proof.
  assert (lookup_node (fs world_corrupt) (keypairPath keys_folder "default")
          = Some (File "not json")) as Hfile by (vm_compute; reflexivity).
  assert (CorruptKeyFile "not json" SyntaxError) as Hbad by (vm_compute; reflexivity).
  split; [exact Hfile|]. split; [exact Hbad|].
  apply (corrupt_key_file_rejected keys_folder "default" world_corrupt
           "not json" SyntaxError Hfile Hbad).
  vm_compute. eauto.
Defined.

Lemma getSPLBalance_first_account_witness :
  fst (getSPLBalance ref_connection token_mint (publicKey first_key)
         (world_holding 5 []))
  = Return None
  /\ fst (getSPLBalance ref_connection token_mint (publicKey first_key)
            (world_holding 5 [token_account (Some 7.5%float);
                              token_account (Some 2.5%float)]))
     = Return (Some 7.5%float).
Proof.
  split.
  - apply (getSPLBalance_first_account ref_connection token_mint
             (publicKey first_key) (world_holding 5 [])).
    reflexivity.
  - apply (proj2 (getSPLBalance_first_account ref_connection token_mint
                    (publicKey first_key)
                    (world_holding 5 [token_account (Some 7.5%float);
                                      token_account (Some 2.5%float)]))
             (token_account (Some 7.5%float)) [token_account (Some 2.5%float)]).
    reflexivity.
Defined.

Lemma getSPLBalance_failure_is_absent_witness :
  token_accounts_answer world_rpc_down ref_connection (publicKey first_key) token_mint
  = Throw (mkError "Error" "fetch failed")
  /\ fst (getSPLBalance ref_connection token_mint (publicKey first_key) world_rpc_down)
     = Return None
  /\ fst (getSPLBalance ref_connection token_mint (publicKey first_key)
            (world_holding 5 []))
     = fst (getSPLBalance ref_connection token_mint (publicKey first_key)
              world_rpc_down).
Proof.
  assert (token_accounts_answer world_rpc_down ref_connection (publicKey first_key)
            token_mint = Throw (mkError "Error" "fetch failed")) as Hdown
    by reflexivity.
  split; [exact Hdown|].
  destruct (getSPLBalance_failure_is_absent ref_connection token_mint
              (publicKey first_key) world_rpc_down _ Hdown) as [Hnull Hsame].
  split; [exact Hnull|].
  apply Hsame. reflexivity.
Defined.

Lemma listAccounts_lists_account_files_witness :
  lookup_node (fs world_mixed) keys_folder = Some (Dir mixed_keys)
  /\ exists result files,
       listAccounts world_mixed = (Return result, world_mixed)
       /\ la_accounts result = map (account_entry_of (fs world_mixed) keys_folder) files
       /\ NoDup files
       /\ forall file,
            In file files <->
            is_Some (mixed_keys !! file)
            /\ (~ exists rest, file = "mint-" +:+ rest)
            /\ (exists stem, file = stem +:+ ".json").
Proof.
  assert (lookup_node (fs world_mixed) keys_folder = Some (Dir mixed_keys)) as Hdir
    by (vm_compute; reflexivity).
  split; [exact Hdir|].
  exact (proj1 (listAccounts_lists_account_files world_mixed) mixed_keys Hdir).
Defined.

Lemma listAccounts_partial_success_witness :
  lookup_node (fs world_mixed) keys_folder = Some (Dir mixed_keys)
  /\ fst (listAccounts world_mixed)
     = Return (mkListAccountsResult true (Some "Accounts in /srv/pumpfun/.keys:") None
                 [mkAccountEntry "good" "AAAAAAAAAAAAAAAAAAAAAAAAAAAAAAAA";
                  mkAccountEntry "bad" "Error reading keypair"])
  /\ exists result,
       listAccounts world_mixed = (Return result, world_mixed)
       /\ la_success result = true
       /\ Forall2
            (fun file entry =>
               acc_name entry = replace_first ".json" "" file
               /\ match read_keypair (fs world_mixed) keys_folder file with
                  | Return keypair =>
                      acc_publicKey entry = PublicKey_toString (publicKey keypair)
                  | Throw _ => acc_publicKey entry = "Error reading keypair"
                  end)
            (List.filter is_account_file ((map_to_list mixed_keys).*1))
            (la_accounts result).
Proof.
  assert (lookup_node (fs world_mixed) keys_folder = Some (Dir mixed_keys)) as Hdir
    by (vm_compute; reflexivity).
  split; [exact Hdir|]. split; [vm_compute; reflexivity|].
  exact (listAccounts_partial_success world_mixed mixed_keys Hdir).
Defined.


Lemma insufficient_balance_stops_before_sdk_witness :
  (buy_run
   = (Return (BuyFailure
                (insufficient_balance_text first_key 5
                   (requiredBalance 1 BUY_FEE_RESERVE))),
      log_event (with_default_account world_fresh)
        (EvGetBalance ref_connection (publicKey first_key) (Return 5%float)))
   /\ events (snd buy_run)
      = events world_fresh
        ++ [EvGetBalance ref_connection (publicKey first_key) (Return 5%float)])
  /\ (create_run
      = (Return (CreateFailure
                   (ErrString
                      (insufficient_balance_text first_key 5
                         (requiredBalance 1 CREATE_FEE_RESERVE)))),
         log_event (with_default_account world_fresh)
           (EvGetBalance ref_connection (publicKey first_key) (Return 5%float)))
      /\ events (snd create_run)
         = events world_fresh
           ++ [EvGetBalance ref_connection (publicKey first_key) (Return 5%float)]).
Proof.
  split.
  - destruct (proj1 insufficient_balance_stops_before_sdk
                "Mint" 1%float "default" 100%float world_fresh ref_connection
                (snd (ensure_keys_folder keys_folder world_fresh)) first_key
                (with_default_account world_fresh) 5%float)
      as [Hrun Hev]; try (vm_compute; reflexivity).
    unfold buy_run. rewrite Hrun. split; [reflexivity|exact Hev].
  - destruct (proj2 insufficient_balance_stops_before_sdk
                "Name" "SYM" "A token" None 1%float "default" world_fresh
                ref_connection first_key (with_default_account world_fresh)
                5%float)
      as [Hrun Hev]; try (vm_compute; reflexivity).
    unfold create_run. rewrite Hrun. split; [reflexivity|exact Hev].
Defined.


(** C9, counterexample. *)
Lemma getOrCreateKeypair_throws_to_caller :
  getOrCreateKeypair keys_folder "default" world_corrupt
  = (Throw SyntaxError, world_corrupt).
Proof. vm_compute. reflexivity. Qed.

Lemma failures_become_results_witness :
  getOrCreateKeypair keys_folder "default" world_corrupt
  = (Throw SyntaxError, world_corrupt)
  /\ (exists text,
        buyToken "Mint" 1 "default" 100 world_corrupt
        = (Return (BuyFailure text), world_corrupt))
  /\ (exists text,
        sellToken "Mint" 3 "default" 100 world_corrupt
        = (Return (SellFailure text), world_corrupt))
  /\ (exists text,
        createToken "Name" "SYM" "A token" None 1 "default" world_corrupt
        = (Return (CreateFailure (ErrString text)), world_corrupt)).
Proof.
  assert (getOrCreateKeypair keys_folder "default" world_corrupt
          = (Throw SyntaxError, world_corrupt)) as Hkey by (vm_compute; reflexivity).
  assert (initializeSDK world_corrupt = (Return ref_connection, world_corrupt))
    as Hinit by (vm_compute; reflexivity).
  assert (ensure_keys_folder keys_folder world_corrupt = (Return None, world_corrupt))
    as Hfolder by (vm_compute; reflexivity).
  pose proof failures_become_results as (_ & _ & _ & _ & _ & Htrade & Hcreate & _).
  destruct (Htrade "default" world_corrupt ref_connection world_corrupt
              SyntaxError world_corrupt Hinit Hfolder Hkey) as [Hbuy Hsell].
  split; [exact Hkey|]. split; [apply Hbuy|]. split; [apply Hsell|].
  exact (Hcreate "default" world_corrupt ref_connection SyntaxError world_corrupt
           Hinit Hkey "Name" "SYM" "A token" None 1%float).
Defined.

(** ** The further properties on the example worlds *)

Lemma getAccountBalance_missing_account_witness :
  getAccountBalance "default" None world_empty
  = (Return "Error getting account balance: Account file not found for default",
     world_empty).
Proof.
  apply (getAccountBalance_missing_account "default" None world_empty ref_connection);
    vm_compute; reflexivity.
Defined.


Lemma commands_need_rpc_url_witness :
  buyToken "Mint" 1 "default" 100 world_unconfigured
  = (Return (BuyFailure "HELIUS_RPC_URL environment variable is not set"),
     world_unconfigured)
  /\ getAccountBalance "default" None world_unconfigured
     = (Return ("Error getting account balance: "
                +:+ "HELIUS_RPC_URL environment variable is not set"),
        world_unconfigured).
Proof.
  destruct (commands_need_rpc_url world_unconfigured (or_introl eq_refl))
    as (Hbuy & _ & _ & Hbalance).
  split; [apply Hbuy|apply Hbalance].
Defined.

Lemma listAccounts_is_local_witness :
  fst (listAccounts world_mixed_offline) = fst (listAccounts world_mixed)
  /\ events (snd (listAccounts world_mixed_offline)) = events world_mixed_offline
  /\ drawn (snd (listAccounts world_mixed_offline)) = drawn world_mixed_offline.
Proof.
  destruct (listAccounts_is_local world_mixed_offline world_mixed eq_refl)
    as (Hresult & _ & Hevents & Hdrawn).
  by repeat split.
Defined.


Lemma stored_account_is_reported_witness :
  getAccountBalance "default" None
    (snd (getOrCreateKeypair keys_folder "default" world_fresh))
  = (Return (join_lines
               ["Account: default (" +:+ PublicKey_toString (publicKey first_key)
                  +:+ ")";
                "SOL Balance: " +:+ Number_toString (5 / LAMPORTS_PER_SOL)%float
                  +:+ " SOL"]),
     log_event (snd (getOrCreateKeypair keys_folder "default" world_fresh))
       (EvGetBalance ref_connection (publicKey first_key) (Return 5%float))).
Proof.
  apply (stored_account_is_reported "default" world_fresh first_key _
           ref_connection 5%float);
    vm_compute; reflexivity.
Defined.

Lemma created_account_is_listed_witness :
  exists result,
    listAccounts (snd (getOrCreateKeypair keys_folder "default" world_fresh))
    = (Return result, snd (getOrCreateKeypair keys_folder "default" world_fresh))
    /\ la_success result = true
    /\ In (mkAccountEntry "default" (PublicKey_toString (publicKey first_key)))
         (la_accounts result).
Proof.
  apply (created_account_is_listed "default" world_fresh first_key);
    vm_compute; reflexivity.
Defined.

Lemma account_name_can_leave_keys_folder_witness :
  fst (getOrCreateKeypair keys_folder "../x" world_fresh) = Return first_key
  /\ exists text k2,
       lookup_node (fs (snd (getOrCreateKeypair keys_folder "../x" world_fresh)))
         ["srv"; "pumpfun"; "x.json"]
       = Some (File text)
       /\ decode_keypair text = Return k2
       /\ publicKey k2 = publicKey first_key.
Proof.
  assert (getOrCreateKeypair keys_folder "../x" world_fresh
          = (Return first_key,
             snd (getOrCreateKeypair keys_folder "../x" world_fresh))) as Hrun
    by (vm_compute; reflexivity).
  split; [by rewrite Hrun|].
  exact (account_name_can_leave_keys_folder "x" world_fresh first_key _
           eq_refl Hrun).
Defined.

Lemma funding_address_is_stable_witness :
  (exists k,
     getOrCreateKeypair keys_folder "default" (snd buy_run) = (Return k, snd buy_run)
     /\ publicKey k = publicKey first_key)
  /\ (exists k,
        getOrCreateKeypair keys_folder "default" (snd create_run)
        = (Return k, snd create_run)
        /\ publicKey k = publicKey first_key).
Proof.
  split.
  - apply (proj1 funding_address_is_stable
             "Mint" 1%float "default" 100%float world_fresh (fst buy_run)
             (snd buy_run) ref_connection (publicKey first_key) 5%float []
             (surjective_pairing buy_run));
      vm_compute; reflexivity.
  - apply (proj2 funding_address_is_stable
             "Name" "SYM" "A token" None 1%float "default" world_fresh
             (fst create_run) (snd create_run) ref_connection
             (publicKey first_key) 5%float []
             (surjective_pairing create_run));
      vm_compute; reflexivity.
Defined.

Lemma trading_keeps_the_files_witness :
  fs (snd (buyToken "Mint" 1 "default" 100
             (world_with_account funded_remote)))
  = fs (world_with_account funded_remote)
  /\ fs (snd (sellToken "Mint" 0 "default" 100
                (world_with_account funded_remote)))
     = fs (world_with_account funded_remote).
Proof.
  destruct (trading_keeps_the_files "default" (world_with_account funded_remote)
              (JSON_stringify_bytes (secretKey first_key)))
    as [Hbuy Hsell]; [vm_compute; eauto|vm_compute; reflexivity|].
  split; [apply Hbuy|apply Hsell].
Defined.

Lemma buyToken_sdk_call_witness :
  events (snd funded_buy_run) = events funded_world ++ funded_buy_events
  /\ PublicKey_new "Mint" = Return token_mint
  /\ BigInt (1 * LAMPORTS_PER_SOL)%float = Return 1000000000%Z
  /\ BigInt 100 = Return 100%Z.
Proof.
  assert (events (snd funded_buy_run) = events funded_world ++ funded_buy_events)
    as Hev by (vm_compute; reflexivity).
  split; [exact Hev|].
  destruct (buyToken_sdk_call "Mint" 1%float "default" 100%float funded_world
              (fst funded_buy_run) (snd funded_buy_run) funded_buy_events
              first_key token_mint 1000000000%Z 100%Z DEFAULT_PRIORITY_FEES tx_ok
              (surjective_pairing funded_buy_run) Hev)
    as (Hmint & Hlamports & Hslippage & _).
  { right. right. left. reflexivity. }
  by repeat split.
Defined.

Lemma createToken_sdk_call_witness :
  events (snd funded_create_run) = events funded_world ++ funded_create_events
  /\ BigInt (1 * LAMPORTS_PER_SOL)%float = Return 1000000000%Z
  /\ second_key = Keypair_fromEntropy
                    (random (snd funded_create_run)
                       (drawn (snd funded_create_run) - 1)).
Proof.
  assert (events (snd funded_create_run)
          = events funded_world ++ funded_create_events)
    as Hev by (vm_compute; reflexivity).
  split; [exact Hev|].
  destruct (createToken_sdk_call "Name" "SYM" "A token" None 1%float "default"
              funded_world (fst funded_create_run) (snd funded_create_run)
              funded_create_events first_key second_key
              (mkTokenMetadata "Name" "SYM" "A token" None)
              1000000000%Z 100%Z DEFAULT_PRIORITY_FEES tx_ok
              (surjective_pairing funded_create_run) Hev)
    as (Hlamports & _ & _ & Hmint & _).
  { right. left. reflexivity. }
  by split.
Defined.

Lemma sellToken_sdk_call_witness :
  PublicKey_new "Mint" = Return token_mint
  /\ BigInt 100 = Return 100%Z
  /\ exists c accounts balance solBalance rest,
       EvTokenAccounts ref_connection (publicKey first_key) token_mint
         (Return [token_account (Some 7.5%float)]) :: sell_events
       = EvTokenAccounts c (publicKey first_key) token_mint accounts
         :: EvGetBalance c (publicKey first_key) (Return solBalance) :: rest
       /\ resolved_balance accounts = Some balance
       /\ nothing_to_sell (Some balance) = false
       /\ BigInt (amountToSell 3 balance * Math_pow_10_6)%float
          = Return 3000000%Z.
Proof.
  assert (events (snd sell_run)
          = events sell_world
            ++ EvTokenAccounts ref_connection (publicKey first_key) token_mint
                 (Return [token_account (Some 7.5%float)]) :: sell_events)
    as Hev by (vm_compute; reflexivity).
  destruct (sellToken_sdk_call "Mint" 3%float "default" 100%float sell_world
              (fst sell_run) (snd sell_run) _
              first_key token_mint 3000000%Z 100%Z DEFAULT_PRIORITY_FEES tx_ok
              (surjective_pairing sell_run) Hev)
    as (Hmint & Hslippage & _ & Hcalls).
  { right. right. left. reflexivity. }
  by repeat split.
Defined.

Lemma unconvertible_amount_never_trades_witness :
  buyAmount_schema 0.000123 = true
  /\ BigInt (0.000123 * LAMPORTS_PER_SOL)%float = Throw BigInt_RangeError
  /\ exists text w' calls,
       buyToken "Mint" 0.000123 "default" 100 funded_world
       = (Return (BuyFailure text), w')
       /\ events w' = events funded_world ++ calls
       /\ Forall (fun ev => is_sdk_call ev = false) calls.
Proof.
  split; [vm_compute; reflexivity|].
  assert (BigInt (0.000123 * LAMPORTS_PER_SOL)%float = Throw BigInt_RangeError)
    as Hbad by (vm_compute; reflexivity).
  split; [exact Hbad|].
  exact (unconvertible_amount_never_trades "Mint" 0.000123%float "default"
           100%float funded_world BigInt_RangeError (or_introl Hbad)).
Defined.

Lemma trade_success_needs_sdk_success_witness :
  funded_buy_run
  = (Return (BuySuccess "Mint" 1 0 0 (Some "sig") "https://pump.fun/Mint"),
     snd funded_buy_run)
  /\ exists calls buyer mint lamports slippage result,
       events (snd funded_buy_run) = events funded_world ++ calls
       /\ In (EvSdkBuy buyer mint lamports slippage DEFAULT_PRIORITY_FEES
                (Return result)) calls
       /\ tx_success result = true
       /\ Some "sig" = tx_signature result.
Proof.
  assert (funded_buy_run
          = (Return (BuySuccess "Mint" 1 0 0 (Some "sig") "https://pump.fun/Mint"),
             snd funded_buy_run)) as Hrun by (vm_compute; reflexivity).
  split; [exact Hrun|].
  destruct (proj1 trade_success_needs_sdk_success
              "Mint" 1%float "default" 100%float funded_world (snd funded_buy_run)
              "Mint" 1%float 0%float 0%float (Some "sig") "https://pump.fun/Mint"
              Hrun)
    as (calls & buyer & mint & lamports & slippage & result & Hev & Hin & Hok
        & Hsig & _).
  eauto 10.
Defined.

Lemma createToken_success_stores_mint_key_witness :
  exists text k,
    read_node (fs (snd funded_create_run))
      (path_join keys_folder
         ("mint-" +:+ PublicKey_toString (publicKey second_key) +:+ ".json"))
    = Return text
    /\ text = JSON_stringify_bytes (secretKey second_key)
    /\ decode_keypair text = Return k
    /\ publicKey k = publicKey second_key.
Proof.
  assert (funded_create_run
          = (Return (CreateSuccess (PublicKey_toString (publicKey second_key))
                       "Name" "SYM" None (Some "sig")
                       ("https://pump.fun/"
                        +:+ PublicKey_toString (publicKey second_key))),
             snd funded_create_run)) as Hrun by (vm_compute; reflexivity).
  destruct (createToken_success_stores_mint_key "Name" "SYM" "A token" None
              1%float "default" funded_world (snd funded_create_run) _ _ _ _ _ _
              Hrun)
    as (_ & _ & _ & _ & _ & Hfile).
  exact Hfile.
Defined.

Lemma result_text_tells_failure_witness :
  exists text,
    formatListAccountsResult
      (mkListAccountsResult true (Some "Accounts in /srv/pumpfun/.keys:") None
         [mkAccountEntry "good" "AAAAAAAAAAAAAAAAAAAAAAAAAAAAAAAA";
          mkAccountEntry "bad" "Error reading keypair"])
    = Some text
    /\ startsWith text "Error listing accounts: " = false.
Proof.
  assert (listAccounts world_mixed
          = (Return (mkListAccountsResult true
                       (Some "Accounts in /srv/pumpfun/.keys:") None
                       [mkAccountEntry "good" "AAAAAAAAAAAAAAAAAAAAAAAAAAAAAAAA";
                        mkAccountEntry "bad" "Error reading keypair"]),
             world_mixed)) as Hrun by (vm_compute; reflexivity).
  exact (proj2 (proj2 (proj2 result_text_tells_failure)) world_mixed _ world_mixed
           Hrun).
Defined.

Lemma sell_tool_amount_within_balance_witness :
  (amountToSell 3 7.5 <=? 7.5)%float = true
  /\ amountToSell 3 7.5 = 3%float
  /\ (amountToSell PrimFloat.infinity 7.5 <=? 7.5)%float = true.
Proof.
  destruct (sell_tool_amount_within_balance 3%float 7.5%float eq_refl eq_refl)
    as [Hle Hexact].
  split; [exact Hle|]. split; [by apply Hexact|].
  apply (sell_tool_amount_within_balance PrimFloat.infinity 7.5%float);
    reflexivity.
Defined.

Lemma getOrCreateKeypair_creates_witness :
  exists w1,
    getOrCreateKeypair keys_folder "default" world_fresh = (Return first_key, w1)
    /\ drawn w1 = 1
    /\ lookup_node (fs w1) (keypairPath keys_folder "default")
       = Some (File (JSON_stringify_bytes (secretKey first_key)))
    /\ is_Some (lookup_node (fs w1) keys_folder)
    /\ events w1 = [].
Proof.
  destruct (getOrCreateKeypair_creates keys_folder "default" world_fresh
              (fs (snd (fs_mkdirSync_recursive keys_folder world_fresh))))
    as (w1 & Hrun & Hdrawn & Hfile & Hfolder & _ & Hev);
    try (vm_compute; reflexivity).
  exists w1. by repeat split.
Defined.

Lemma buyToken_reaches_the_sdk_witness :
  exists result w' before answer rest,
    buyToken "Mint" 1 "default" 100 (world_with_account funded_remote)
    = (Return result, w')
    /\ events w'
       = events (world_with_account funded_remote)
         ++ [EvGetBalance ref_connection (publicKey first_key)
               (Return 5000000000%float);
             EvTokenAccounts ref_connection (publicKey first_key) token_mint before;
             EvSdkBuy first_key token_mint 1000000000 100 DEFAULT_PRIORITY_FEES
               answer] ++ rest
    /\ Forall (fun ev => is_sdk_call ev = false) rest
    /\ (buy_success result = true
        <-> exists tx, answer = Return tx /\ tx_success tx = true).
Proof.
  apply (buyToken_reaches_the_sdk "Mint" 1%float "default" 100%float
           (world_with_account funded_remote) ref_connection
           (JSON_stringify_bytes (secretKey first_key)) first_key
           5000000000%float token_mint 1000000000%Z 100%Z);
    try (vm_compute; reflexivity).
  eexists. vm_compute. reflexivity.
Defined.

Lemma sellToken_reaches_the_sdk_witness :
  exists result w' answer rest,
    sellToken "Mint" 3 "default" 100 (world_with_account selling_remote)
    = (Return result, w')
    /\ events w'
       = events (world_with_account selling_remote)
         ++ [EvTokenAccounts ref_connection (publicKey first_key) token_mint
               (Return [token_account (Some 7.5%float)]);
             EvGetBalance ref_connection (publicKey first_key)
               (Return 5000000000%float);
             EvSdkSell first_key token_mint 3000000 100 DEFAULT_PRIORITY_FEES
               answer] ++ rest
    /\ Forall (fun ev => is_sdk_call ev = false) rest
    /\ (sell_success result = true
        <-> exists tx newSolBalance,
              answer = Return tx /\ tx_success tx = true
              /\ head rest
                 = Some (EvGetBalance ref_connection (publicKey first_key)
                           (Return newSolBalance))).
Proof.
  apply (sellToken_reaches_the_sdk "Mint" 3%float "default" 100%float
           (world_with_account selling_remote) ref_connection
           (JSON_stringify_bytes (secretKey first_key)) first_key token_mint
           7.5%float 5000000000%float 3000000%Z 100%Z);
    try (vm_compute; reflexivity).
  eexists. vm_compute. reflexivity.
Defined.

Lemma createToken_reaches_the_sdk_witness :
  exists result w' answer rest,
    createToken "Name" "SYM" "A token" None 1 "default"
      (world_with_account funded_remote)
    = (Return result, w')
    /\ events w'
       = events (world_with_account funded_remote)
         ++ [EvGetBalance ref_connection (publicKey first_key)
               (Return 5000000000%float);
             EvSdkCreateAndBuy first_key first_key
               (mkTokenMetadata "Name" "SYM" "A token" None) 1000000000
               DEFAULT_SLIPPAGE_BASIS_POINTS DEFAULT_PRIORITY_FEES answer]
         ++ rest
    /\ Forall (fun ev => is_sdk_call ev = false) rest
    /\ drawn w' = 1
    /\ (create_success result = true
        <-> exists tx n,
              answer = Return tx /\ tx_success tx = true
              /\ write_node (fs (world_with_account funded_remote))
                   (path_join keys_folder
                      ("mint-" +:+ PublicKey_toString (publicKey first_key)
                       +:+ ".json"))
                   (JSON_stringify_bytes (secretKey first_key))
                 = Return n).
Proof.
  assert (is_Some (lookup_node (fs (world_with_account funded_remote)) keys_folder))
    as Hfolder by (eexists; vm_compute; reflexivity).
  exact (createToken_reaches_the_sdk "Name" "SYM" "A token" None 1%float "default"
           (world_with_account funded_remote) ref_connection
           (JSON_stringify_bytes (secretKey first_key)) first_key
           5000000000%float 1000000000%Z
           eq_refl Hfolder eq_refl eq_refl eq_refl eq_refl (or_introl eq_refl)
           eq_refl).
Defined.
